(** * Regression_Discontinuity_RT: the merge pipeline and its text utilities

    A shallow embedding of [src/utils.py] ([normalize_title], [parse_money])
    and of [src/05_merge_datasets.py] ([merge_bom], [merge_rt],
    [fuzzy_match_budgets], [construct_rdd_variables]) together with the
    properties the specification states about them.

    Conventions of the embedding.
    - A Python [str] is a [string]; each [ascii] stands for one code point
      of the range U+0000..U+00FF (Latin-1).  The character classes below
      are the ones CPython uses on that range.
    - A pandas cell is a [cell]; a DataFrame is a list of column names and
      a list of rows, each row a finite map from column name to cell.  The
      index of a frame is the position of the row.
    - A Python exception is a value of [exn]; a computation that may raise
      returns a [result].
    - Numbers are exact rationals; a binary64 value is the rational it
      denotes, and an operation on floats rounds its exact result. *)

From Stdlib Require Import ZArith QArith Qabs Qround Bool List Ascii String Lia Lqa.
From Stdlib Require Import DecimalString.
From stdpp Require Import gmap strings list fin_maps.
Import ListNotations.

Local Open Scope string_scope.
Local Open Scope bool_scope.

(** ** Characters and strings as CPython sees them *)

Module PyStr.

Definition code (c : ascii) : N := N_of_ascii c.

Definition in_range (lo hi : N) (c : ascii) : bool :=
  ((lo <=? code c) && (code c <=? hi))%N.

Definition is_code (n : N) (c : ascii) : bool := (code c =? n)%N.

(** [str.isspace] and the regex class [\s] on U+0000..U+00FF. *)
Definition isspace (c : ascii) : bool :=
  in_range 9 13 c || in_range 28 32 c || is_code 133 c || is_code 160 c.

(** [str.isalnum] on U+0000..U+00FF. *)
Definition isalnum (c : ascii) : bool :=
  in_range 48 57 c || in_range 65 90 c || in_range 97 122 c
  || is_code 170 c || is_code 178 c || is_code 179 c || is_code 181 c
  || is_code 185 c || is_code 186 c || in_range 188 190 c
  || in_range 192 214 c || in_range 216 246 c || in_range 248 255 c.

(** The regex class [\w]: alphanumerics and the underscore. *)
Definition isword (c : ascii) : bool := isalnum c || is_code 95 c.

(** [str.lower] on one code point. *)
Definition lower_char (c : ascii) : ascii :=
  if in_range 65 90 c || in_range 192 214 c || in_range 216 222 c
  then ascii_of_N (code c + 32)
  else c.

(** [s.lower()] *)
Fixpoint lower (s : string) : string :=
  match s with
  | EmptyString => EmptyString
  | String c r => String (lower_char c) (lower r)
  end.

(** [s.lstrip()] *)
Fixpoint lstrip (s : string) : string :=
  match s with
  | EmptyString => EmptyString
  | String c r => if isspace c then lstrip r else s
  end.

(** [s.rstrip()] *)
Fixpoint rstrip (s : string) : string :=
  match s with
  | EmptyString => EmptyString
  | String c r =>
      match rstrip r with
      | EmptyString => if isspace c then EmptyString else String c EmptyString
      | r' => String c r'
      end
  end.

(** [s.strip()] *)
Definition strip (s : string) : string := rstrip (lstrip s).

(** [s.startswith(p)] *)
Fixpoint startswith (p s : string) : bool :=
  match p, s with
  | EmptyString, _ => true
  | String a p', String b s' => Ascii.eqb a b && startswith p' s'
  | String _ _, EmptyString => false
  end.

(** [s[n:]] *)
Fixpoint drop (n : nat) (s : string) : string :=
  match n, s with
  | O, _ => s
  | S k, String _ r => drop k r
  | S _, EmptyString => EmptyString
  end.

(** [s.endswith(p)] *)
Definition endswith (p s : string) : bool :=
  (String.length p <=? String.length s)%nat
  && String.eqb (drop (String.length s - String.length p) s) p.

(** [s[:-1]] *)
Fixpoint drop_last (s : string) : string :=
  match s with
  | EmptyString => EmptyString
  | String c EmptyString => EmptyString
  | String c r => String c (drop_last r)
  end.

(** [s.replace(old, new)] for a one-character [old]. *)
Fixpoint replace_char (old : ascii) (new : string) (s : string) : string :=
  match s with
  | EmptyString => EmptyString
  | String c r =>
      if Ascii.eqb c old then String.append new (replace_char old new r)
      else String c (replace_char old new r)
  end.

(** Does the regex [.*?\)] match at the start of [s]?  The dot does not
    match a newline, so the closing parenthesis must be on the same line. *)
Fixpoint closes (s : string) : bool :=
  match s with
  | EmptyString => false
  | String c r =>
      if Ascii.eqb c ")" then true
      else if Ascii.eqb c "010" then false
      else closes r
  end.

(** [re.sub(r"\(.*?\)", "", s)], as the left-to-right scan the regex engine
    performs: an opening parenthesis that [closes] starts a match, which
    ends at the first closing parenthesis; [inside] is true within a
    match. *)
Fixpoint sub_parens_from (inside : bool) (s : string) : string :=
  match s with
  | EmptyString => EmptyString
  | String c r =>
      if inside then
        if Ascii.eqb c ")" then sub_parens_from false r
        else sub_parens_from true r
      else if Ascii.eqb c "(" && closes r then sub_parens_from true r
      else String c (sub_parens_from false r)
  end.

Definition sub_parens (s : string) : string := sub_parens_from false s.

(** [re.sub(r"[^\w\s]", " ", s)] *)
Fixpoint sub_punct (s : string) : string :=
  match s with
  | EmptyString => EmptyString
  | String c r =>
      String (if isword c || isspace c then c else " "%char) (sub_punct r)
  end.

(** [re.sub(r"\s+", " ", s)]; [in_run] is true after a whitespace
    character of the current run has been replaced. *)
Fixpoint sub_spaces_from (in_run : bool) (s : string) : string :=
  match s with
  | EmptyString => EmptyString
  | String c r =>
      if isspace c then
        if in_run then sub_spaces_from true r
        else String " " (sub_spaces_from true r)
      else String c (sub_spaces_from false r)
  end.

Definition sub_spaces (s : string) : string := sub_spaces_from false s.

#[global] Arguments code : simpl never.
#[global] Arguments in_range : simpl never.
#[global] Arguments is_code : simpl never.
#[global] Arguments isspace : simpl never.
#[global] Arguments isalnum : simpl never.
#[global] Arguments isword : simpl never.
#[global] Arguments lower_char : simpl never.

End PyStr.

(** ** [src/utils.py]: [normalize_title] *)

(** The articles of the loop [for article in ["the ", "a ", "an "]]. *)
Definition articles : list string := ["the "; "a "; "an "].

(** One iteration of the loop:
    [if s.startswith(article): s = s[len(article):]]. *)
Definition strip_article (s article : string) : string :=
  if PyStr.startswith article s then PyStr.drop (String.length article) s
  else s.

(** The whole loop, one pass over [articles] in order. *)
Definition strip_articles (s : string) : string :=
  fold_left strip_article articles s.

(** Steps 1 to 6 of [normalize_title]: everything before the article loop. *)
Definition canonical (title : string) : string :=
  let s := PyStr.strip (PyStr.lower title) in
  let s := PyStr.sub_parens s in
  let s := PyStr.replace_char "&" "and" s in
  let s := PyStr.sub_punct s in
  PyStr.strip (PyStr.sub_spaces s).

(** [normalize_title(title)] for a [str] argument. *)
Definition normalize_title (title : string) : string :=
  if String.eqb title "" then ""
  else strip_articles (canonical title).

(** ** Binary64 arithmetic, as far as [parse_money] uses it *)

Module Float64.

(** A binary64 value: a finite one is the rational it denotes (the two
    zeros are not told apart, [int] maps both to 0). *)
Inductive f64 : Type :=
  | Finite (q : Q)
  | PosInf
  | NegInf
  | NotANumber.

(** 2 to the power [e], for any integer [e]. *)
Definition pow2 (e : Z) : Q :=
  if (0 <=? e)%Z then inject_Z (2 ^ e) else Qinv (inject_Z (2 ^ (- e))).

(** 10 to the power [e], for any integer [e]. *)
Definition pow10 (e : Z) : Q :=
  if (0 <=? e)%Z then inject_Z (10 ^ e) else Qinv (inject_Z (10 ^ (- e))).

(** The integer nearest to [q >= 0], ties to the even one. *)
Definition round_half_even (q : Q) : Z :=
  let n := Qnum q in
  let d := Zpos (Qden q) in
  let fl := (n / d)%Z in
  let r := (n mod d)%Z in
  match (2 * r ?= d)%Z with
  | Lt => fl
  | Gt => (fl + 1)%Z
  | Eq => if Z.even fl then fl else (fl + 1)%Z
  end.

(** floor (log2 q) for [q > 0]. *)
Definition ilog2 (q : Q) : Z :=
  let e := (Z.log2 (Qnum q) - Z.log2 (Zpos (Qden q)))%Z in
  if Qle_bool (pow2 e) q then e else (e - 1)%Z.

(** Rounding of an exact result to binary64, round-to-nearest-even:
    53 bits of significand, least exponent -1074 (subnormals), overflow
    to infinity from 2^1024 on. *)
Definition round64 (q : Q) : f64 :=
  if Qeq_bool q 0 then Finite 0
  else
    let a := Qabs q in
    let ex := Z.max (ilog2 a - 52) (-1074) in
    let m := round_half_even (Qred (a / pow2 ex)) in
    let v := Qred (inject_Z m * pow2 ex) in
    if Qle_bool (pow2 1024) v then
      (if Qle_bool 0 q then PosInf else NegInf)
    else Finite (if Qle_bool 0 q then v else Qred (- v)).

(** [x * n] for a float [x] and a positive Python int [n] that binary64
    represents exactly. *)
Definition mul_int (x : f64) (n : Z) : f64 :=
  match x with
  | Finite q => round64 (q * inject_Z n)
  | other => other
  end.

End Float64.

(** ** Exceptions and results *)

Inductive exn : Type :=
  | FileNotFoundError (path : string)
  | KeyError (names : list string)
  | AttributeError
  | TypeError
  | ValueError
  | OverflowError.

Inductive result (A : Type) : Type :=
  | Ok (a : A)
  | Raise (e : exn).
Arguments Ok {A} a.
Arguments Raise {A} e.

(** [result] is a monad: [x ← r; k] runs [k] unless [r] raised. *)
#[global] Instance result_ret : MRet result := fun A a => Ok a.
#[global] Instance result_bind : MBind result := fun A B k r =>
  match r with
  | Ok a => k a
  | Raise e => Raise e
  end.
#[global] Instance result_fmap : FMap result := fun A B f r =>
  match r with
  | Ok a => Ok (f a)
  | Raise e => Raise e
  end.

(** ** [float(text)] and [int(x)] *)

Module PyNum.
Import Float64.

Definition is_digit (c : ascii) : bool := PyStr.in_range 48 57 c.
Definition digit (c : ascii) : Z := Z.of_N (PyStr.code c) - 48.

(** The white space [float] skips at both ends of its argument: the ASCII
    white space, and U+0085 and U+00A0, which it first turns into spaces. *)
Definition float_space (c : ascii) : bool :=
  PyStr.in_range 9 13 c || PyStr.is_code 32 c
  || PyStr.is_code 133 c || PyStr.is_code 160 c.

Fixpoint skip_left (s : string) : string :=
  match s with
  | EmptyString => EmptyString
  | String c r => if float_space c then skip_left r else s
  end.

Fixpoint skip_right (s : string) : string :=
  match s with
  | EmptyString => EmptyString
  | String c r =>
      match skip_right r with
      | EmptyString => if float_space c then EmptyString else String c EmptyString
      | r' => String c r'
      end
  end.

(** The rest of a [digitpart] after its first digit: [(["_"] digit)*]. *)
Fixpoint digitpart_tail (s : string) : list Z * string :=
  match s with
  | EmptyString => ([], s)
  | String c r =>
      if is_digit c then
        let (ds, rest) := digitpart_tail r in (digit c :: ds, rest)
      else if Ascii.eqb c "_" then
        match r with
        | String c' r' =>
            if is_digit c' then
              let (ds, rest) := digitpart_tail r' in (digit c' :: ds, rest)
            else ([], s)
        | EmptyString => ([], s)
        end
      else ([], s)
  end.

(** [digitpart ::= digit (["_"] digit)*] *)
Definition digitpart (s : string) : option (list Z * string) :=
  match s with
  | String c r =>
      if is_digit c then
        let (ds, rest) := digitpart_tail r in Some (digit c :: ds, rest)
      else None
  | EmptyString => None
  end.

(** The value of a list of decimal digits. *)
Definition of_digits (ds : list Z) : Z :=
  fold_left (fun acc d => (10 * acc + d)%Z) ds 0%Z.

(** [number ::= [digitpart] "." digitpart | digitpart ["."]]: the digits
    before and after the point, and the text left. *)
Definition number (s : string) : option (list Z * list Z * string) :=
  match digitpart s with
  | Some (ip, String c r) =>
      if Ascii.eqb c "." then
        match digitpart r with
        | Some (fp, rest) => Some (ip, fp, rest)
        | None => Some (ip, [], r)
        end
      else Some (ip, [], String c r)
  | Some (ip, EmptyString) => Some (ip, [], EmptyString)
  | None =>
      match s with
      | String c r =>
          if Ascii.eqb c "." then
            match digitpart r with
            | Some (fp, rest) => Some ([], fp, rest)
            | None => None
            end
          else None
      | EmptyString => None
      end
  end.

(** An optional sign: its value and the text after it. *)
Definition sign (s : string) : Z * string :=
  match s with
  | String c r =>
      if Ascii.eqb c "-" then ((-1)%Z, r)
      else if Ascii.eqb c "+" then (1%Z, r)
      else (1%Z, s)
  | EmptyString => (1%Z, s)
  end.

(** [exponent ::= ("e" | "E") [sign] digitpart], absent when the text has
    ended; [None] when the text left is no exponent. *)
Definition exponent (s : string) : option Z :=
  match s with
  | EmptyString => Some 0%Z
  | String c r =>
      if Ascii.eqb c "e" || Ascii.eqb c "E" then
        let (sg, r') := sign r in
        match digitpart r' with
        | Some (ds, EmptyString) => Some (sg * of_digits ds)%Z
        | _ => None
        end
      else None
  end.

(** [float(text)] for a [str]: [None] is [ValueError]. *)
Definition float (text : string) : option f64 :=
  let s := skip_right (skip_left text) in
  let (sg, body) := sign s in
  let low := PyStr.lower body in
  if String.eqb low "inf" || String.eqb low "infinity" then
    Some (if (0 <=? sg)%Z then PosInf else NegInf)
  else if String.eqb low "nan" then Some NotANumber
  else
    match number body with
    | Some (ip, fp, rest) =>
        match exponent rest with
        | Some e =>
            let mant := of_digits (ip ++ fp) in
            let scale := (e - Z.of_nat (List.length fp))%Z in
            Some (round64 (Qred (inject_Z (sg * mant) * pow10 scale)))
        | None => None
        end
    | None => None
    end.

(** [int(x)] for a float: truncation towards zero. *)
Definition int (x : f64) : result Z :=
  match x with
  | Finite q => Ok (Z.quot (Qnum q) (Zpos (Qden q)))
  | PosInf | NegInf => Raise OverflowError
  | NotANumber => Raise ValueError
  end.

End PyNum.

(** ** Cells of a pandas table *)

Record date : Type := mkdate { year : Z; month : Z; day : Z }.

(** What a cell of a DataFrame (or a Python argument) may hold: [None],
    the float NaN, a finite number, a [str], a [datetime.date], a [bool]. *)
Inductive cell : Type :=
  | CNone
  | CNaN
  | CNum (q : Q)
  | CStr (s : string)
  | CDate (d : date)
  | CBool (b : bool).

(** [pd.isna(c)] *)
Definition isna (c : cell) : bool :=
  match c with
  | CNone | CNaN => true
  | _ => false
  end.

(** [pd.notna(c)] *)
Definition notna (c : cell) : bool := negb (isna c).

(** The cell of a float.  No cell holds an infinity; a difference so
    large that it overflows (beyond 10^308) is given as NaN. *)
Definition float_cell (x : Float64.f64) : cell :=
  match x with
  | Float64.Finite q => CNum q
  | _ => CNaN
  end.

(** ** [src/utils.py]: [parse_money] *)

(** [text.upper().endswith(u)] for a capital ASCII letter [u]: on Latin-1
    the only code points whose upper case ends with [u] are [u] itself and
    its lower case, 32 above. *)
Fixpoint upper_endswith (u : ascii) (text : string) : bool :=
  match text with
  | EmptyString => false
  | String c EmptyString =>
      Ascii.eqb c u || PyStr.is_code (PyStr.code u + 32) c
  | String _ r => upper_endswith u r
  end.

(** The placeholders of [text in ("-", "–", "—", "n/a", "N/A", "")]; the
    en dash and the em dash lie outside Latin-1, no string of this
    embedding equals them. *)
Definition placeholders : list string := ["-"; "n/a"; "N/A"; ""].

(** [int(float(body) * factor)] inside
    [try: ... except (ValueError, TypeError): return None]: a [ValueError]
    of [float] or [int] gives [None], an [OverflowError] of [int] is not
    caught. *)
Definition scaled (body : string) (factor : option Z) : result (option Z) :=
  match PyNum.float body with
  | None => Ok None
  | Some x =>
      let y := match factor with
               | Some k => Float64.mul_int x k
               | None => x
               end in
      match PyNum.int y with
      | Ok n => Ok (Some n)
      | Raise ValueError => Ok None
      | Raise TypeError => Ok None
      | Raise e => Raise e
      end
  end.

(** [parse_money(text)] *)
Definition parse_money (text : cell) : result (option Z) :=
  match text with
  | CStr t =>
      if String.eqb t "" then Ok None
      else
        let t := PyStr.strip t in
        if existsb (String.eqb t) placeholders then Ok None
        else
          let t := PyStr.strip
                     (PyStr.replace_char "," "" (PyStr.replace_char "$" "" t)) in
          if upper_endswith "B" t then
            scaled (PyStr.drop_last t) (Some 1000000000%Z)
          else if upper_endswith "M" t then
            scaled (PyStr.drop_last t) (Some 1000000%Z)
          else if upper_endswith "K" t then
            scaled (PyStr.drop_last t) (Some 1000%Z)
          else scaled t None
  | _ => Ok None
  end.

(** ** DataFrames *)

Abbreviation row := (gmap string cell).

Record DataFrame : Type := mkframe {
  columns : list string;
  rows : list row
}.

(** [c in df.columns] *)
Definition has_column (df : DataFrame) (c : string) : bool :=
  existsb (String.eqb c) (columns df).

(** The cell of row [r] in a column the frame has. *)
Definition cell_at (r : row) (c : string) : cell := default CNaN (r !! c).

(** [row.get(c)]: [None] when the row has no such field. *)
Definition row_get (r : row) (c : string) : cell := default CNone (r !! c).

(** [df[c]]: the cells of one column, or [KeyError]. *)
Definition column (c : string) (df : DataFrame) : result (list cell) :=
  if has_column df c then Ok ((fun r => cell_at r c) <$> rows df)
  else Raise (KeyError [c]).

(** [df[[c1, ..., cn]]]: the frame restricted to the listed columns; the
    [KeyError] lists every requested column the frame lacks. *)
Definition select (cols : list string) (df : DataFrame) : result DataFrame :=
  match List.filter (fun c => negb (has_column df c)) cols with
  | [] =>
      Ok (mkframe cols
            ((fun r => list_to_map ((fun c => (c, cell_at r c)) <$> cols))
               <$> rows df))
  | missing => Raise (KeyError missing)
  end.

(** [df[[c for c in cols if c in df.columns]]] *)
Definition select_present (cols : list string) (df : DataFrame) : result DataFrame :=
  select (List.filter (has_column df) cols) df.

(** [df[c] = vals]: a new column goes last, an old one keeps its place. *)
Definition assign (c : string) (vals : list cell) (df : DataFrame) : DataFrame :=
  mkframe (if has_column df c then columns df else columns df ++ [c])
          (zip_with (fun r v => <[c := v]> r) (rows df) vals).

(** [a.fillna(b)] on one cell. *)
Definition fillna (a b : cell) : cell := if isna a then b else a.

(** Do two join keys match?  Null keys match each other, as in pandas. *)
Definition key_eqb (a b : cell) : bool :=
  match a, b with
  | CStr s, CStr t => String.eqb s t
  | CNum p, CNum q => Qeq_bool p q
  | CBool x, CBool y => Bool.eqb x y
  | CDate d, CDate e =>
      (year d =? year e)%Z && (month d =? month e)%Z && (day d =? day e)%Z
  | (CNone | CNaN), (CNone | CNaN) => true
  | _, _ => false
  end.

(** The name a column gets in a merge: a column that is not the key and
    that the other side has too takes its side's suffix. *)
Definition merged_name (on sfx : string) (others : list string) (c : string) : string :=
  if negb (String.eqb c on) && existsb (String.eqb c) others
  then String.append c sfx else c.

(** The columns the right frame contributes: all but the key. *)
Definition right_columns (on : string) (right : DataFrame) : list string :=
  List.filter (fun c => negb (String.eqb c on)) (columns right).

(** One row of a left join: the left row, and the matching right row or
    NaN in every right column. *)
Definition merged_row (on sl sr : string) (left right : DataFrame)
    (l : row) (r : option row) : row :=
  list_to_map
    (((fun c => (merged_name on sl (columns right) c, cell_at l c))
        <$> columns left)
     ++ ((fun c => (merged_name on sr (columns left) c,
                    match r with Some r' => cell_at r' c | None => CNaN end))
           <$> right_columns on right)).

(** The right rows whose key equals that of the left row [l]. *)
Definition matches (on : string) (right : DataFrame) (l : row) : list row :=
  List.filter (fun r => key_eqb (cell_at l on) (cell_at r on)) (rows right).

(** The rows a left row gives: one per matching right row, in the right
    frame's order, or one row filled with NaN when none matches. *)
Definition joined (on sl sr : string) (left right : DataFrame) (l : row) : list row :=
  match matches on right l with
  | [] => [merged_row on sl sr left right l None]
  | ms => (fun r => merged_row on sl sr left right l (Some r)) <$> ms
  end.

(** The dtype a column built from Python values gets: when the values are
    numbers and nulls only, and not [None] only, the column is a float
    column and [None] becomes NaN. *)
Definition is_numeric_or_null (c : cell) : bool :=
  match c with
  | CNone | CNaN | CNum _ => true
  | _ => false
  end.

Definition is_float (c : cell) : bool :=
  match c with
  | CNaN | CNum _ => true
  | _ => false
  end.

(** A cell of a text column: a [str] or a null. *)
Definition text_cell (c : cell) : bool :=
  match c with
  | CStr _ | CNone | CNaN => true
  | _ => false
  end.

(** A column of numeric dtype: numbers and NaN only (all NaN, too). *)
Definition number_column (cells : list cell) : bool := forallb is_float cells.

(** A column of dtype object that holds text: [str] and nulls only, and
    not NaN only. *)
Definition text_column (cells : list cell) : bool :=
  forallb text_cell cells && negb (forallb is_float cells).

(** Do the dtypes of the two key columns clash?  [pd.merge] refuses to
    join a column of text on a column of numbers ("You are trying to
    merge on object and float64 columns"); it does not look at the dtypes
    when one of the two tables has no rows. *)
Definition keys_clash (l r : list cell) : bool :=
  match l, r with
  | [], _ | _, [] => false
  | _, _ => (text_column l && number_column r) || (number_column l && text_column r)
  end.

(** The cells of the key column. *)
Definition keys (on : string) (df : DataFrame) : list cell :=
  (fun r => cell_at r on) <$> rows df.

(** [pd.merge(left, right, on=on, how="left", suffixes=(sl, sr))]: a
    [KeyError] when a table lacks the key, a [ValueError] when the dtypes
    of the two key columns clash. *)
Definition pd_merge_left (on sl sr : string) (left right : DataFrame) : result DataFrame :=
  if has_column left on && has_column right on then
    if keys_clash (keys on left) (keys on right) then Raise ValueError
    else
      Ok (mkframe
            (((merged_name on sl (columns right)) <$> columns left)
             ++ ((merged_name on sr (columns left)) <$> right_columns on right))
            (rows left ≫= joined on sl sr left right))
  else Raise (KeyError [on]).

Definition pd_series (vals : list cell) : list cell :=
  if forallb is_numeric_or_null vals && existsb is_float vals
  then (fun c => match c with CNone => CNaN | _ => c end) <$> vals
  else vals.

(** ** Python truth and conversions on cells *)

(** [bool(c)]: what [if c:] and [not c] test. *)
Definition truthy (c : cell) : bool :=
  match c with
  | CNone => false
  | CNaN => true
  | CNum q => negb (Qeq_bool q 0)
  | CStr s => negb (String.eqb s "")
  | CDate _ => true
  | CBool b => b
  end.

(** [int(s)] for a [str]: optional sign, decimal digits, white space
    around; [None] is [ValueError]. *)
Definition int_of_string (s : string) : option Z :=
  let (sg, body) := PyNum.sign (PyNum.skip_right (PyNum.skip_left s)) in
  match PyNum.digitpart body with
  | Some (ds, EmptyString) => Some (sg * PyNum.of_digits ds)%Z
  | _ => None
  end.

(** [int(c)] *)
Definition py_int (c : cell) : result Z :=
  match c with
  | CNum q => Ok (Z.quot (Qnum q) (Zpos (Qden q)))
  | CStr s => match int_of_string s with
              | Some n => Ok n
              | None => Raise ValueError
              end
  | CBool b => Ok (if b then 1%Z else 0%Z)
  | CNaN => Raise ValueError
  | CNone | CDate _ => Raise TypeError
  end.

(** The number a cell of a column holds in the arithmetic and the
    comparisons of pandas: none for a null cell, which pandas skips (a
    comparison with it is False, arithmetic on it gives NaN); a [bool]
    counts as 0 or 1; a [str] or a date against a number is a
    [TypeError]. *)
Definition as_number (c : cell) : result (option Q) :=
  match c with
  | CNum q => Ok (Some q)
  | CBool b => Ok (Some (if b then 1 else 0)%Q)
  | CNone | CNaN => Ok None
  | CStr _ | CDate _ => Raise TypeError
  end.

(** [f"{n}"] for an int. *)
Definition string_of_Z (n : Z) : string := NilZero.string_of_int (Z.to_int n).

(** [normalize_title(v)] for any value [v] of a title column: a falsy
    value gives the empty string, a [str] is normalized, anything else has
    no [lower] method. *)
Definition normalize_title_cell (v : cell) : result string :=
  if negb (truthy v) then Ok ""
  else match v with
       | CStr s => Ok (normalize_title s)
       | _ => Raise AttributeError
       end.

(** ** [config.py] *)

Record config : Type := mkconfig {
  DATA_RAW : string;
  START_DATE : date;
  END_DATE : date;
  MIN_OPENING_THEATERS : Q;
  RD_THRESHOLD : Q;
  IN_THEATERS_WINDOW_DAYS : nat;
  FUZZY_MATCH_ACCEPT_THRESHOLD : Q;
  FUZZY_MATCH_REVIEW_THRESHOLD : Q
}.

(** The values [config.py] sets; the two dates are the parsed ISO strings. *)
Definition config_py : config := {|
  DATA_RAW := "data/raw/";
  START_DATE := mkdate 2021 9 1;
  END_DATE := mkdate 2026 2 7;
  MIN_OPENING_THEATERS := 600;
  RD_THRESHOLD := 60;
  IN_THEATERS_WINDOW_DAYS := 56;
  FUZZY_MATCH_ACCEPT_THRESHOLD := 85;
  FUZZY_MATCH_REVIEW_THRESHOLD := 70
|}.

(** ** [src/05_merge_datasets.py] *)

Section Pipeline.

(** The configuration module. *)
Variable cfg : config.

(** Library functions the pipeline calls:
    [datetime.strptime(text, fmt).date()], [None] for [ValueError];
    [str(v)] of a value that is not a [str];
    [rapidfuzz.fuzz.token_sort_ratio];
    [numpy.log]. *)
Variable strptime : string -> string -> option date.
Variable repr : cell -> string.
Variable token_sort_ratio : string -> string -> Q.
Variable np_log : Q -> Q.

(** The CSV files on disk, already parsed: [None] when a file is absent. *)
Variable files : string -> option DataFrame.



(** [str(v)] *)
Definition py_str (v : cell) : string :=
  match v with
  | CStr s => s
  | _ => repr v
  end.

(** The default formats of [parse_date]. *)
Definition date_formats : list string :=
  ["%b %d, %Y"; "%B %d, %Y"; "%Y-%m-%d"; "%m/%d/%Y"].

(** The loop of [parse_date]: the first format that parses wins. *)
Fixpoint try_formats (text : string) (formats : list string) : option date :=
  match formats with
  | [] => None
  | fmt :: rest =>
      match strptime text fmt with
      | Some d => Some d
      | None => try_formats text rest
      end
  end.

(** [parse_date(text)] for a [str]. *)
Definition parse_date (text : string) : option date :=
  if String.eqb text "" then None
  else try_formats (PyStr.strip text) date_formats.

(** The columns [merge_bom] takes from the index and from the details. *)
Definition index_columns : list string :=
  ["bom_release_id"; "title"; "total_gross"; "max_theaters";
   "release_date_raw"; "bom_year"; "distributor"; "release_url"].

Definition detail_columns : list string :=
  ["bom_release_id"; "opening_wknd_gross"; "opening_wknd_theaters";
   "widest_release"; "domestic_gross"; "mpaa_rating"; "genres";
   "release_date"; "distributor"].

(** [resolve_release_date(row)] *)
Definition resolve_release_date (r : row) : result cell :=
  let detailed :=
    if notna (row_get r "release_date")
    then parse_date (py_str (cell_at r "release_date"))
    else None in
  match detailed with
  | Some d => Ok (CDate d)
  | None =>
      if notna (row_get r "release_date_raw") && notna (row_get r "bom_year") then
        let raw := PyStr.strip (py_str (cell_at r "release_date_raw")) in
        y ← py_int (cell_at r "bom_year");
        match parse_date (String.append raw (String.append ", " (string_of_Z y))) with
        | Some d => Ok (CDate d)
        | None => Ok CNone
        end
      else Ok CNone
  end.

Definition keep_cols : list string :=
  ["bom_release_id"; "title"; "release_date_parsed"; "bom_year";
   "opening_wknd_gross"; "opening_wknd_theaters"; "domestic_gross";
   "widest_release"; "max_theaters"; "distributor"; "mpaa_rating"; "genres"].

(** [merge_bom(bom_index, bom_details, logger)] *)
Definition merge_bom (bom_index bom_details : DataFrame) : result DataFrame :=
  left ← select index_columns bom_index;
  right ← select detail_columns bom_details;
  bom ← pd_merge_left "bom_release_id" "_index" "_detail" left right;
  title ← column "title" bom;
  let bom := assign "title" title bom in
  detail_gross ← column "domestic_gross" bom;
  index_gross ← column "total_gross" bom;
  let bom := assign "domestic_gross" (zip_with fillna detail_gross index_gross) bom in
  detail_dist ← column "distributor_detail" bom;
  index_dist ← column "distributor_index" bom;
  let bom := assign "distributor" (zip_with fillna detail_dist index_dist) bom in
  parsed ← mapM resolve_release_date (rows bom);
  let bom := assign "release_date_parsed" parsed bom in
  select_present keep_cols bom.

Definition rt_cols : list string :=
  ["bom_release_id"; "tomatometer"; "audience_score";
   "critic_count"; "audience_count"; "rt_genres"; "rt_rating";
   "match_method"; "rt_url"; "rt_title"].

(** [merge_rt(bom, rt_scores, logger)]; the two columns read for the log
    line must exist. *)
Definition merge_rt (bom rt_scores : DataFrame) : result DataFrame :=
  rt_subset ← select_present rt_cols rt_scores;
  merged ← pd_merge_left "bom_release_id" "_x" "_y" bom rt_subset;
  merged ← (if has_column merged "rt_rating" then
              mpaa ← column "mpaa_rating" merged;
              rt ← column "rt_rating" merged;
              Ok (assign "mpaa_rating" (zip_with fillna mpaa rt) merged)
            else Ok merged);
  _ ← column "tomatometer" merged;
  _ ← column "audience_score" merged;
  Ok merged.

(** *** The fuzzy title matcher *)

(** One entry of [match_results], without its index. *)
Record match_result : Type := mkmatch {
  tn_title_matched : cell;
  tn_match_score : Q;
  production_budget : cell;
  tn_domestic_gross : cell;
  tn_match_status : string
}.

(** The entry appended on each of the three short cuts. *)
Definition no_match : match_result :=
  mkmatch CNone 0 CNone CNone "unmatched".

(** The state of the loop of [process.extractOne]: the cut-off handed to
    the scorer, the best [(choice, score, key)] so far, and the calls of
    the scorer made so far, latest first. *)
Record scan : Type := mkscan {
  score_cutoff : Q;
  best : option (string * Q * nat);
  calls : list (string * string)
}.

(** [scorer(query, choice, score_cutoff=cutoff)]: a similarity below the
    cut-off is reported as 0. *)
Definition scorer (query choice : string) (cutoff : Q) : Q :=
  let sim := token_sort_ratio query choice in
  if Qle_bool cutoff sim then sim else 0%Q.

(** The loop of [extractOne] over [enumerate(choices)] from position
    [key] on: null choices are skipped, a choice that is not a [str] is a
    [TypeError], a choice is taken when it reaches the cut-off and beats
    the best score, and a score of 100 ends the loop. *)
Fixpoint extract_from (query : string) (choices : list cell) (key : nat)
    (st : scan) : result scan :=
  match choices with
  | [] => Ok st
  | choice :: rest =>
      if isna choice then extract_from query rest (S key) st
      else
        match choice with
        | CStr c =>
            let score := scorer query c (score_cutoff st) in
            let improves :=
              Qle_bool (score_cutoff st) score
              && match best st with
                 | None => true
                 | Some (_, b, _) => negb (Qle_bool score b)
                 end in
            let st' :=
              if improves
              then mkscan score (Some (c, score, key)) ((query, c) :: calls st)
              else mkscan (score_cutoff st) (best st) ((query, c) :: calls st) in
            if Qeq_bool score 100 then Ok st'
            else extract_from query rest (S key) st'
        | _ => Raise TypeError
        end
  end.

(** [process.extractOne(query, choices, scorer=fuzz.token_sort_ratio,
    score_cutoff=0)] *)
Definition extractOne (query : string) (choices : list cell) : result scan :=
  extract_from query choices 0 (mkscan 0 None []).

(** [x >= lo] and [x <= hi] on a cell of a float column: false on NaN. *)
Definition between (lo hi : Q) (c : cell) : result bool :=
  n ← as_number c;
  Ok (match n with
      | Some q => Qle_bool lo q && Qle_bool q hi
      | None => false
      end).

(** The year blocking: the budget rows within one year of [bom_year],
    or all of them when the year is unknown. *)
Definition year_block (bom_year : cell) (tn_df : DataFrame) : result (list row) :=
  if truthy bom_year && notna bom_year then
    years ← column "release_year" tn_df;
    y ← as_number bom_year;
    mask ← mapM (between (default 0 y - 1)%Q (default 0 y + 1)%Q) years;
    Ok (fst <$> List.filter snd (zip (rows tn_df) mask))
  else Ok (rows tn_df).

(** [df.empty]: no rows or no columns. *)
Definition empty (cols : list string) (rs : list row) : bool :=
  match cols, rs with
  | [], _ | _, [] => true
  | _, _ => false
  end.

(** The three-way status of a score. *)
Definition classify (score : Q) : string :=
  if Qle_bool (FUZZY_MATCH_ACCEPT_THRESHOLD cfg) score then "matched"
  else if Qle_bool (FUZZY_MATCH_REVIEW_THRESHOLD cfg) score then "review"
  else "unmatched".

(** The body of the loop [for idx, bom_row in bom_df.iterrows()]: the
    entry for one row, and the scorer calls made for it (in order). *)
Definition match_row (bom_title : string) (bom_year : cell) (tn_df : DataFrame)
    : result (match_result * list (string * string)) :=
  if String.eqb bom_title "" then Ok (no_match, [])
  else
    candidates ← year_block bom_year tn_df;
    if empty (columns tn_df) candidates then Ok (no_match, [])
    else
      choices ← column "title_normalized" (mkframe (columns tn_df) candidates);
      st ← extractOne bom_title choices;
      match best st with
      | None => Ok (no_match, rev (calls st))
      | Some (_, score, match_idx) =>
          let tn_row := default ∅ (candidates !! match_idx) in
          if has_column tn_df "title" then
            Ok (mkmatch (cell_at tn_row "title") score
                        (row_get tn_row "production_budget")
                        (row_get tn_row "domestic_gross")
                        (classify score),
                rev (calls st))
          else Raise (KeyError ["title"])
      end.

(** [d.year if d else None] *)
Definition year_of (d : cell) : result cell :=
  if truthy d then
    match d with
    | CDate x => Ok (CNum (inject_Z (year x)))
    | _ => Raise AttributeError
    end
  else Ok CNone.

(** [pd.to_numeric(c, errors="coerce")] on one cell. *)
Definition to_numeric (c : cell) : cell :=
  match c with
  | CNum q => CNum q
  | CBool b => CNum (if b then 1 else 0)%Q
  | CStr s => match PyNum.float s with
              | Some (Float64.Finite q) => CNum q
              | _ => CNaN
              end
  | _ => CNaN
  end.

(** The title of a row after [bom_df["title_norm"] = ...]. *)
Definition title_norm_of (r : row) : string :=
  match cell_at r "title_norm" with
  | CStr s => s
  | _ => ""
  end.

(** The columns [fuzzy_match_budgets] joins back, in order. *)
Definition match_columns : list string :=
  ["tn_title_matched"; "tn_match_score"; "production_budget";
   "tn_domestic_gross"; "tn_match_status"].

(** [fuzzy_match_budgets(bom_df, tn_df, logger)] *)
Definition fuzzy_match_budgets (bom_df tn_df : DataFrame) : result DataFrame :=
  titles ← column "title" bom_df;
  norms ← mapM normalize_title_cell titles;
  let bom_df := assign "title_norm" (CStr <$> norms) bom_df in
  dates ← column "release_date_parsed" bom_df;
  years ← mapM year_of dates;
  let bom_df := assign "release_year" (pd_series years) bom_df in
  tn_df ← (if has_column tn_df "title_normalized" then Ok tn_df
           else
             tn_titles ← column "title" tn_df;
             tn_norms ← mapM normalize_title_cell tn_titles;
             Ok (assign "title_normalized" (CStr <$> tn_norms) tn_df));
  tn_df ← (if has_column tn_df "release_year" then Ok tn_df
           else
             tn_years ← column "release_year" tn_df;
             Ok (assign "release_year" (to_numeric <$> tn_years) tn_df));
  match_results ←
    mapM (fun r => fst <$> match_row (title_norm_of r) (cell_at r "release_year") tn_df)
         (rows bom_df);
  match match_results with
  | [] => Raise (KeyError ["idx"])
  | _ =>
      let bom_df := assign "tn_title_matched"
                      (pd_series (tn_title_matched <$> match_results)) bom_df in
      let bom_df := assign "tn_match_score"
                      ((fun m => CNum (tn_match_score m)) <$> match_results) bom_df in
      let bom_df := assign "production_budget"
                      (pd_series (production_budget <$> match_results)) bom_df in
      let bom_df := assign "tn_domestic_gross"
                      (pd_series (tn_domestic_gross <$> match_results)) bom_df in
      let bom_df := assign "tn_match_status"
                      ((fun m => CStr (tn_match_status m)) <$> match_results) bom_df in
      Ok bom_df
  end.

(** *** Study filters *)

(** [a <= b] on dates. *)
Definition date_leb (a b : date) : bool :=
  (year a <? year b)%Z
  || ((year a =? year b)%Z
      && ((month a <? month b)%Z
          || ((month a =? month b)%Z && (day a <=? day b)%Z))).

(** [d is not None and start <= d <= end] *)
Definition in_window (d : cell) : result bool :=
  match d with
  | CNone => Ok false
  | CDate x => Ok (date_leb (START_DATE cfg) x && date_leb x (END_DATE cfg))
  | _ => Raise TypeError
  end.

(** [x >= k] on a cell of a numeric column: false on NaN. *)
Definition ge_cell (k : Q) (c : cell) : result bool :=
  n ← as_number c;
  Ok (match n with
      | Some q => Qle_bool k q
      | None => false
      end).

(** [df[mask]] *)
Definition keep (mask : list bool) (df : DataFrame) : DataFrame :=
  mkframe (columns df) (fst <$> List.filter snd (zip (rows df) mask)).

(** [df[df[c].apply(f)]]: on a table without rows [apply] hands back a
    column of the dtype of [df[c]], which is no mask of booleans;
    [df[...]] then reads it as a list of labels, an empty one, and gives a
    table without columns. *)
Definition keep_applied (mask : list bool) (df : DataFrame) : DataFrame :=
  match rows df with
  | [] => mkframe [] []
  | _ => keep mask df
  end.

(** [apply_study_filters(df, logger)] *)
Definition apply_study_filters (df : DataFrame) : result DataFrame :=
  dates ← column "release_date_parsed" df;
  in_study ← mapM in_window dates;
  let df := keep_applied in_study df in
  theaters ← column "opening_wknd_theaters" df;
  wide ← mapM (ge_cell (MIN_OPENING_THEATERS cfg)) theaters;
  Ok (keep wide df).

(** *** RDD variables *)

(** [x - cutoff] on one cell of a float column: the difference is
    rounded to binary64. *)
Definition centered (c : cell) : result cell :=
  n ← as_number c;
  Ok (match n with
      | Some q => float_cell (Float64.round64 (q - RD_THRESHOLD cfg))
      | None => CNaN
      end).

(** [(x >= cutoff).astype("Int64")] on one cell: the comparison gives a
    [bool], False on NaN, and the cast turns it into 1 or 0. *)
Definition is_fresh (c : cell) : result cell :=
  b ← ge_cell (RD_THRESHOLD cfg) c;
  Ok (CNum (if b : bool then 1 else 0)%Q).

(** [x.clip(lower=lo)] on a number. *)
Definition clip_lower (lo q : Q) : Q := if Qle_bool lo q then q else lo.

(** [np.log(x.clip(lower=1).astype(float))] on one cell. *)
Definition log_floored (c : cell) : result cell :=
  n ← as_number c;
  Ok (match n with
      | Some q => CNum (np_log (clip_lower 1 q))
      | None => CNaN
      end).

(** [np.where(x.notna() & (x > 0), np.log(x.clip(lower=1).astype(float)),
    np.nan)] on one cell. *)
Definition log_budget (c : cell) : result cell :=
  n ← as_number c;
  Ok (match n with
      | Some q =>
          if notna c && negb (Qle_bool q 0) then CNum (np_log (clip_lower 1 q))
          else CNaN
      | None => CNaN
      end).

(** [d.month if d else None] *)
Definition month_of (d : cell) : result cell :=
  if truthy d then
    match d with
    | CDate x => Ok (CNum (inject_Z (month x)))
    | _ => Raise AttributeError
    end
  else Ok CNone.

Definition is_leap (y : Z) : bool :=
  ((y mod 4 =? 0) && (negb (y mod 100 =? 0) || (y mod 400 =? 0)))%Z.

Definition days_in_month (y m : Z) : Z :=
  if (m =? 2)%Z then (if is_leap y then 29 else 28)%Z
  else if (m =? 4)%Z || (m =? 6)%Z || (m =? 9)%Z || (m =? 11)%Z then 30%Z
  else 31%Z.

(** [d - timedelta(days=1)] *)
Definition prev_day (d : date) : date :=
  if (1 <? day d)%Z then mkdate (year d) (month d) (day d - 1)
  else if (1 <? month d)%Z
       then mkdate (year d) (month d - 1) (days_in_month (year d) (month d - 1))
       else mkdate (year d - 1) 12 31.

(** [d - timedelta(days=n)] *)
Definition minus_days (d : date) (n : nat) : date := Nat.iter n prev_day d.

(** [d is not None and d >= cutoff] *)
Definition in_theaters (cutoff : date) (d : cell) : result cell :=
  match d with
  | CNone => Ok (CBool false)
  | CDate x => Ok (CBool (date_leb cutoff x))
  | _ => Raise TypeError
  end.

(** [df[name] = f(df[source])], cell by cell. *)
Definition derive (name source : string) (f : cell -> result cell)
    (df : DataFrame) : result DataFrame :=
  vals ← column source df;
  out ← mapM f vals;
  Ok (assign name out df).

(** The same for [df[source].apply(f)], whose result pandas types anew. *)
Definition derive_apply (name source : string) (f : cell -> result cell)
    (df : DataFrame) : result DataFrame :=
  vals ← column source df;
  out ← mapM f vals;
  Ok (assign name (pd_series out) df).

(** [construct_rdd_variables(df, logger)] *)
Definition construct_rdd_variables (df : DataFrame) : result DataFrame :=
  df ← derive "tomatometer_centered" "tomatometer" centered df;
  df ← derive "audience_score_centered" "audience_score" centered df;
  df ← derive "is_fresh_critic" "tomatometer" is_fresh df;
  df ← derive "is_fresh_audience" "audience_score" is_fresh df;
  df ← derive "log_opening_gross" "opening_wknd_gross" log_floored df;
  df ← derive "log_total_gross" "domestic_gross" log_floored df;
  df ← derive "log_theaters" "opening_wknd_theaters" log_floored df;
  df ← derive "log_budget" "production_budget" log_budget df;
  df ← derive_apply "release_year" "release_date_parsed" year_of df;
  df ← derive_apply "release_month" "release_date_parsed" month_of df;
  derive_apply "in_theaters" "release_date_parsed"
    (in_theaters (minus_days (END_DATE cfg) (IN_THEATERS_WINDOW_DAYS cfg))) df.

(** *** The pipeline *)





End Pipeline.

(** ** Predicates used in the statements *)

(** [all(P(c) for c in s)] *)
Fixpoint all_chars (P : ascii -> bool) (s : string) : bool :=
  match s with
  | EmptyString => true
  | String c r => P c && all_chars P r
  end.

(** The only white space of [s] is single blanks, none of them first when
    [after_space] holds. *)
Fixpoint spaced_from (after_space : bool) (s : string) : bool :=
  match s with
  | EmptyString => true
  | String c r =>
      if PyStr.isspace c
      then Ascii.eqb c " " && negb after_space && spaced_from true r
      else spaced_from false r
  end.

(** [c.lower() == c] *)
Definition lower_fixed (c : ascii) : bool := Ascii.eqb (PyStr.lower_char c) c.

(** A word character or a blank. *)
Definition word_or_blank (c : ascii) : bool := PyStr.isword c || Ascii.eqb c " ".

(** A word character or white space: what [sub_punct] leaves. *)
Definition word_or_space (c : ascii) : bool := PyStr.isword c || PyStr.isspace c.

(** The shape of a normalized title: lower case, words separated by single
    blanks, no blank at either end. *)
Definition tidy (s : string) : Prop :=
  all_chars lower_fixed s = true /\ all_chars word_or_blank s = true
  /\ spaced_from true s = true /\ PyStr.rstrip s = s.

(** [any(s.startswith(a) for a in articles)] *)
Definition has_article (s : string) : bool :=
  existsb (fun a => PyStr.startswith a s) articles.

(** A step that sets column [n] to a value that [P] relates to the old row
    and leaves every other column alone. *)
Definition sets (n : string) (P : row -> cell -> Prop) (r r' : row) : Prop :=
  P r (cell_at r' n) /\ forall c, c <> n -> r' !! c = r !! c.

(** The names [construct_rdd_variables] assigns. *)
Definition rdd_columns : list string :=
  ["tomatometer_centered"; "audience_score_centered"; "is_fresh_critic";
   "is_fresh_audience"; "log_opening_gross"; "log_total_gross";
   "log_theaters"; "log_budget"; "release_year"; "release_month";
   "in_theaters"].

(** Row by row, what [construct_rdd_variables] computes: the eight
    columns derived from a number, and every column it leaves alone. *)
Definition rdd_row (cfg : config) (np_log : Q -> Q) (r r' : row) : Prop :=
  centered cfg (cell_at r "tomatometer") = Ok (cell_at r' "tomatometer_centered")
  /\ centered cfg (cell_at r "audience_score") = Ok (cell_at r' "audience_score_centered")
  /\ is_fresh cfg (cell_at r "tomatometer") = Ok (cell_at r' "is_fresh_critic")
  /\ is_fresh cfg (cell_at r "audience_score") = Ok (cell_at r' "is_fresh_audience")
  /\ log_floored np_log (cell_at r "opening_wknd_gross") = Ok (cell_at r' "log_opening_gross")
  /\ log_floored np_log (cell_at r "domestic_gross") = Ok (cell_at r' "log_total_gross")
  /\ log_floored np_log (cell_at r "opening_wknd_theaters") = Ok (cell_at r' "log_theaters")
  /\ log_budget np_log (cell_at r "production_budget") = Ok (cell_at r' "log_budget")
  /\ forall c, ~ In c rdd_columns -> r' !! c = r !! c.

(** The specification's "natural log of the value, with the value floored
    at 1": [y] is the log column's cell for the value cell [x]. *)
Definition floored_log (np_log : Q -> Q) (x y : cell) : Prop :=
  (isna x = true -> y = CNaN)
  /\ (forall q, x = CNum q -> (1 <= q)%Q -> y = CNum (np_log q))
  /\ (forall q, x = CNum q -> (q < 1)%Q -> y = CNum (np_log 1%Q)).

(** The specification's log variables of one row [r], read in the row
    [r'] of the output. *)
Definition log_row (np_log : Q -> Q) (r r' : row) : Prop :=
  let budget := cell_at r "production_budget" in
  (isna budget = true -> cell_at r' "log_budget" = CNaN)
  /\ (forall q, budget = CNum q -> (q <= 0)%Q -> cell_at r' "log_budget" = CNaN)
  /\ (forall q, budget = CNum q -> (1 <= q)%Q ->
        cell_at r' "log_budget" = CNum (np_log q))
  /\ floored_log np_log (cell_at r "opening_wknd_gross") (cell_at r' "log_opening_gross")
  /\ floored_log np_log (cell_at r "domestic_gross") (cell_at r' "log_total_gross")
  /\ floored_log np_log (cell_at r "opening_wknd_theaters") (cell_at r' "log_theaters").

(** ** Example tables *)

(** [pd.DataFrame(data, columns=cols)] *)
Definition frame_of (cols : list string) (data : list (list cell)) : DataFrame :=
  mkframe cols ((fun vals => list_to_map (zip cols vals)) <$> data).

(** A stand-in for [numpy.log] in the examples: it only has to be some
    function. *)
Definition ex_log (q : Q) : Q := (q - 1)%Q.

(** Three films after the study filters: the second has no audience
    score and no budget, the third a budget of zero and no opening gross. *)
Definition ex_filtered : DataFrame :=
  frame_of
    ["bom_release_id"; "release_date_parsed"; "tomatometer"; "audience_score";
     "opening_wknd_gross"; "domestic_gross"; "opening_wknd_theaters";
     "production_budget"]
    [ [CStr "rl1"; CDate (mkdate 2022 3 4); CNum 85; CNum 60;
       CNum 134000000; CNum 369000000; CNum 4417; CNum 200000000];
      [CStr "rl2"; CDate (mkdate 2024 6 14); CNum 59; CNaN;
       CNum 5000000; CNum 12000000; CNum 650; CNaN];
      [CStr "rl3"; CDate (mkdate 2025 12 25); CNaN; CNum 59;
       CNaN; CNum 0; CNum 700; CNum 0] ].

(** The table [construct_rdd_variables] makes of it. *)
Definition ex_final : DataFrame :=
  Eval vm_compute in
    match construct_rdd_variables config_py ex_log ex_filtered with
    | Ok df => df
    | Raise _ => mkframe [] []
    end.

(** Is the budget row [r] within one year of the year [q]?  A row without
    a year is not. *)
Definition within_year (q : Q) (r : row) : bool :=
  match as_number (cell_at r "release_year") with
  | Ok (Some x) => Qle_bool (q - 1) x && Qle_bool x (q + 1)
  | _ => false
  end.

(** The candidate pool of a film: the budget rows within one year of its
    release year, or every budget row when the year is unknown (null, or
    the falsy 0). *)
Definition year_pool (bom_year : cell) (tn_df : DataFrame) : list row :=
  match as_number bom_year with
  | Ok (Some q) =>
      if Qeq_bool q 0 then rows tn_df
      else List.filter (within_year q) (rows tn_df)
  | _ => rows tn_df
  end.

(** The specification's three-way rule: [status] is the class of the
    score [s] against the accept and review thresholds. *)
Definition classified (cfg : config) (s : Q) (status : string) : Prop :=
  (status = "matched" /\ (FUZZY_MATCH_ACCEPT_THRESHOLD cfg <= s)%Q)
  \/ (status = "review"
      /\ (FUZZY_MATCH_REVIEW_THRESHOLD cfg <= s)%Q
      /\ (s < FUZZY_MATCH_ACCEPT_THRESHOLD cfg)%Q)
  \/ (status = "unmatched"
      /\ (s < FUZZY_MATCH_REVIEW_THRESHOLD cfg)%Q
      /\ (s < FUZZY_MATCH_ACCEPT_THRESHOLD cfg)%Q).

(** A cell pandas can compare with a number: a number, a [bool] or a null. *)
Definition numeric_cell (c : cell) : bool :=
  match as_number c with
  | Ok _ => true
  | Raise _ => false
  end.

(** A budget table with the columns [release_year] and
    [title_normalized], numeric years and textual normalized titles. *)
Definition pool_typed (tn_df : DataFrame) : bool :=
  has_column tn_df "release_year"
  && has_column tn_df "title_normalized"
  && forallb (fun r => numeric_cell (cell_at r "release_year")
                       && text_cell (cell_at r "title_normalized"))
             (rows tn_df).

(** A budget table as [03_scrape_the_numbers.py] writes it and
    [read_csv] gives it back: typed as above, with the column [title]. *)
Definition pool_ok (tn_df : DataFrame) : bool :=
  has_column tn_df "title" && pool_typed tn_df.

(** The choices handed to [extractOne]. *)
Definition choices_of (candidates : list row) : list cell :=
  (fun r => cell_at r "title_normalized") <$> candidates.

(** A stand-in for [rapidfuzz.fuzz.token_sort_ratio] in the examples:
    100 on equal strings, 75 when one starts the other, 10 otherwise. *)
Definition ex_ratio (a b : string) : Q :=
  if String.eqb a b then 100
  else if PyStr.startswith a b || PyStr.startswith b a then 75
  else 10.

(** A budget table of three films, as [03_scrape_the_numbers.py] writes it. *)
Definition ex_tn : DataFrame :=
  frame_of
    ["tn_rank"; "title"; "release_date"; "release_year"; "production_budget";
     "domestic_gross"; "worldwide_gross"; "title_normalized"]
    [ [CNum 1; CStr "The Batman"; CStr "2022-03-04"; CNum 2022;
       CNum 200000000; CNum 369000000; CNum 770000000; CStr "batman"];
      [CNum 2; CStr "Batman Begins"; CStr "2005-06-15"; CNum 2005;
       CNum 150000000; CNum 205000000; CNum 359000000; CStr "batman begins"];
      [CNum 3; CStr "A Film"; CStr "2024-06-14"; CNum 2024;
       CNaN; CNum 1; CNum 2; CStr "film"] ].

(** No two rows of [df] have the same key in column [on]. *)
Definition unique_keys (on : string) (df : DataFrame) : Prop :=
  forall k, (length (List.filter (fun r => key_eqb k (cell_at r on)) (rows df)) <= 1)%nat.

(** How many rows of the right table have the key of the left row [l]. *)
Definition copies (on : string) (right : DataFrame) (l : row) : nat :=
  length (matches on right l).

(** The row count of a left join of the rows [ls]: a left row counts
    once, or [k] times when [k > 1] right rows have its key. *)
Definition joined_count (on : string) (right : DataFrame) (ls : list row) : nat :=
  sum_list ((fun l => Nat.max 1 (copies on right l)) <$> ls).

(** The cell of a detail row that may be absent: a film without a detail
    row gets NaN in the detail columns of the join. *)
Definition detail_cell (d : option row) (c : string) : cell :=
  match d with
  | Some x => cell_at x c
  | None => CNaN
  end.

(** The row of [df[[cols]]] for the row [r] of [df]. *)
Definition project (cols : list string) (r : row) : row :=
  list_to_map ((fun c => (c, cell_at r c)) <$> cols).

(** The specification's field conflict policy: [out] is the detail value
    when that is not null, and the index value otherwise. *)
Definition preferred (detail index out : cell) : Prop :=
  (isna detail = false -> out = detail) /\ (isna detail = true -> out = index).

(** What the specification says of a row [r'] of the merged box-office
    table: it stems from an index row [l] and the detail row [d] of the
    same identifier, if there is one, and prefers the detail values. *)
Definition bom_row (idx det : DataFrame) (r' : row) : Prop :=
  exists (l : row) (d : option row),
    In l (rows idx)
    /\ match d with
       | Some x =>
           In x (rows det)
           /\ key_eqb (cell_at l "bom_release_id") (cell_at x "bom_release_id") = true
       | None =>
           forall x, In x (rows det) ->
             key_eqb (cell_at l "bom_release_id") (cell_at x "bom_release_id") = false
       end
    /\ cell_at r' "bom_release_id" = cell_at l "bom_release_id"
    /\ preferred (detail_cell d "domestic_gross") (cell_at l "total_gross")
                 (cell_at r' "domestic_gross")
    /\ preferred (detail_cell d "distributor") (cell_at l "distributor")
                 (cell_at r' "distributor").

(** Are the keys of a list pairwise different? *)
Fixpoint keys_distinct (keys : list cell) : bool :=
  match keys with
  | [] => true
  | k :: rest => forallb (fun k' => negb (key_eqb k k')) rest && keys_distinct rest
  end.

(** A stand-in for [datetime.strptime] in the examples: it knows two
    dates in the format ["%b %d, %Y"]. *)
Definition ex_strptime (text fmt : string) : option date :=
  if String.eqb fmt "%b %d, %Y" then
    if String.eqb text "Mar 4, 2022" then Some (mkdate 2022 3 4)
    else if String.eqb text "Jun 14, 2024" then Some (mkdate 2024 6 14)
    else None
  else None.

(** A stand-in for [str] on values that are no [str]. *)
Definition ex_repr (v : cell) : string :=
  let two n := if (n <? 10)%Z then String.append "0" (string_of_Z n)
               else string_of_Z n in
  match v with
  | CDate d =>
      String.append (string_of_Z (year d))
        (String.append "-" (String.append (two (month d))
           (String.append "-" (two (day d)))))
  | _ => "?"
  end.

(** The listing index of three films; the third has no distributor. *)
Definition ex_index : DataFrame :=
  frame_of index_columns
    [ [CStr "rl1"; CStr "The Batman"; CNum 369000000; CNum 4417; CStr "Mar 4";
       CNum 2022; CStr "Warner Bros."; CStr "/release/rl1/"];
      [CStr "rl2"; CStr "A A Film"; CNum 12000000; CNum 700; CStr "Jun 14";
       CNum 2024; CStr "A24"; CStr "/release/rl2/"];
      [CStr "rl3"; CStr "(Untitled)"; CNum 5000; CNaN; CNaN;
       CNum 2022; CNaN; CStr "/release/rl3/"] ].

(** The detail pages of the first two: the first lacks its domestic gross
    and its distributor, the second has both. *)
Definition ex_details : DataFrame :=
  frame_of detail_columns
    [ [CStr "rl1"; CNum 134000000; CNum 4417; CNum 4417; CNaN; CStr "PG-13";
       CStr "Action"; CStr "Mar 4, 2022"; CNaN];
      [CStr "rl2"; CNum 5000000; CNum 650; CNum 700; CNum 12500000; CNaN;
       CNaN; CNaN; CStr "A24 Films"] ].

(** Review scores of the first two films. *)
Definition ex_rt : DataFrame :=
  frame_of rt_cols
    [ [CStr "rl1"; CNum 85; CNum 87; CNum 500; CNum 1000; CStr "Action";
       CStr "PG-13"; CStr "direct_url"; CStr "/m/the_batman"; CStr "The Batman"];
      [CStr "rl2"; CNum 59; CNaN; CNum 5; CNaN; CNaN;
       CStr "R"; CStr "search"; CStr "/m/a_a_film"; CStr "A A Film"] ].

(** Review scores in which the identifier of the first film occurs twice. *)
Definition ex_rt_dup : DataFrame :=
  frame_of rt_cols
    [ [CStr "rl1"; CNum 85; CNum 87; CNum 500; CNum 1000; CStr "Action";
       CStr "PG-13"; CStr "direct_url"; CStr "/m/the_batman"; CStr "The Batman"];
      [CStr "rl1"; CNum 90; CNum 70; CNum 300; CNum 900; CStr "Action";
       CStr "PG-13"; CStr "search"; CStr "/m/batman"; CStr "Batman"] ].


(** The frame of a result, an empty one if it raised. *)
Definition frame_or_empty (r : result DataFrame) : DataFrame :=
  match r with
  | Ok df => df
  | Raise _ => mkframe [] []
  end.

(** The stages of the pipeline on the example tables. *)
Definition ex_bom : DataFrame :=
  Eval vm_compute in
    frame_or_empty (merge_bom ex_strptime ex_repr ex_index ex_details).

Definition ex_bom_rt : DataFrame :=
  Eval vm_compute in frame_or_empty (merge_rt ex_bom ex_rt).

Definition ex_bom_rt_dup : DataFrame :=
  Eval vm_compute in frame_or_empty (merge_rt ex_bom ex_rt_dup).

Definition ex_full : DataFrame :=
  Eval vm_compute in
    frame_or_empty (fuzzy_match_budgets config_py ex_ratio ex_bom_rt ex_tn).

(** The columns [fuzzy_match_budgets] assigns, in the order of the
    assignments: the two helper columns, then the five budget-match
    columns. *)
Definition added_columns : list string :=
  ["title_norm"; "release_year"] ++ match_columns.

(** The column names after [df[c] = ...]. *)
Definition add_column (cols : list string) (c : string) : list string :=
  if existsb (String.eqb c) cols then cols else cols ++ [c].

(** The row [r'] agrees with the row [r] outside the columns [names]. *)
Definition keeps (names : list string) (r r' : row) : Prop :=
  forall c, ~ In c names -> r' !! c = r !! c.

(** The columns of [cols] the frame lacks, in the order of [cols]: what
    the [KeyError] of a selection lists. *)
Definition missing (cols : list string) (df : DataFrame) : list string :=
  List.filter (fun c => negb (has_column df c)) cols.


(** The review columns [merge_rt] cannot do without. *)
Definition rt_mandatory : list string :=
  ["bom_release_id"; "tomatometer"; "audience_score"].







(** The spellings of a word of lower-case ASCII letters in any mix of
    cases. *)
Fixpoint spellings (w : string) : list string :=
  match w with
  | EmptyString => [EmptyString]
  | String x r =>
      spellings r ≫= fun v => [String x v; String (ascii_of_N (PyStr.code x - 32)) v]
  end.

(** Does a run of [parse_money] end in [OverflowError]? *)
Definition overflows (r : result (option Z)) : bool :=
  match r with
  | Raise OverflowError => true
  | _ => false
  end.

(** The centered running variable and the treatment indicator of a
    score that is there, and the centered variable of one that is not:
    [r] is the row before, [r'] the row after. *)
Definition score_row (cfg : config) (score centered_name fresh_name : string)
    (r r' : row) : Prop :=
  (forall q, cell_at r score = CNum q ->
     cell_at r' centered_name
       = float_cell (Float64.round64 (q - RD_THRESHOLD cfg))
     /\ ((RD_THRESHOLD cfg <= q)%Q -> cell_at r' fresh_name = CNum 1)
     /\ ((q < RD_THRESHOLD cfg)%Q -> cell_at r' fresh_name = CNum 0))
  /\ (isna (cell_at r score) = true -> cell_at r' centered_name = CNaN).

(** Does [apply_study_filters] keep the row?  Its release date lies in
    the study window, both ends included, and its opening theater count
    is a number that reaches the minimum. *)
Definition in_study (cfg : config) (r : row) : bool :=
  match cell_at r "release_date_parsed" with
  | CDate d => date_leb (START_DATE cfg) d && date_leb d (END_DATE cfg)
  | _ => false
  end
  && match as_number (cell_at r "opening_wknd_theaters") with
     | Ok (Some q) => Qle_bool (MIN_OPENING_THEATERS cfg) q
     | _ => false
     end.

(** The columns [construct_rdd_variables] reads. *)
Definition rdd_sources : list string :=
  ["tomatometer"; "audience_score"; "opening_wknd_gross"; "domestic_gross";
   "opening_wknd_theaters"; "production_budget"; "release_date_parsed"].


(** Numbers or nulls in the six numeric columns
    [construct_rdd_variables] reads. *)
Definition rdd_numeric (r : row) : bool :=
  forallb (fun c => is_numeric_or_null (cell_at r c))
    ["tomatometer"; "audience_score"; "opening_wknd_gross"; "domestic_gross";
     "opening_wknd_theaters"; "production_budget"].


(** Five films before the study filters: one in the window and wide, one
    released before the window, one released on its last day, one with no
    theater count and one with no release date. *)
Definition ex_unfiltered : DataFrame :=
  frame_of
    ["bom_release_id"; "release_date_parsed"; "opening_wknd_theaters"]
    [ [CStr "rl1"; CDate (mkdate 2022 3 4); CNum 4417];
      [CStr "rl2"; CDate (mkdate 2021 8 31); CNum 3000];
      [CStr "rl3"; CDate (mkdate 2026 2 7); CNum 600];
      [CStr "rl4"; CDate (mkdate 2024 6 14); CNaN];
      [CStr "rl5"; CNone; CNum 2500] ].

(** What the study filters leave of it. *)
Definition ex_kept : DataFrame :=
  Eval vm_compute in frame_or_empty (apply_study_filters config_py ex_unfiltered).

(** The frame [d] has the columns [names] exactly when [df] has them, and
    row by row the same cells there. *)
Definition agree (names : list string) (df d : DataFrame) : Prop :=
  (forall c, In c names -> has_column d c = has_column df c)
  /\ Forall2 (fun r r' => forall c, In c names -> cell_at r' c = cell_at r c)
       (rows df) (rows d).

(** A table with the two scores only. *)
Definition ex_scores_only : DataFrame :=
  frame_of ["tomatometer"; "audience_score"] [ [CNum 85; CNum 60]; [CNum 59; CNaN] ].

(** What [extractOne] should report for the query [q] over [choices]:
    nothing when every choice is null; else the first choice of greatest
    similarity, with its similarity and its position. *)
Definition best_of (tsr : string -> string -> Q) (q : string)
    (choices : list cell) (b : option (string * Q * nat)) : Prop :=
  match b with
  | None => Forall (fun c => isna c = true) choices
  | Some (c, s, k) =>
      choices !! k = Some (CStr c)
      /\ s = tsr q c
      /\ (forall j c', (j < k)%nat -> choices !! j = Some (CStr c') -> (tsr q c' < s)%Q)
      /\ (forall j c', choices !! j = Some (CStr c') -> (tsr q c' <= s)%Q)
  end.

(** A scorer that stays within 0 and 100, as those of rapidfuzz do. *)
Definition percent (tsr : string -> string -> Q) : Prop :=
  forall a b, (0 <= tsr a b)%Q /\ (tsr a b <= 100)%Q.

(** A box-office table of one film whose title field was empty in the
    CSV file. *)
Definition ex_untitled : DataFrame :=
  mkframe ["title"; "release_date_parsed"] [list_to_map [("title", CNaN)]].

(** The choices of the example budget table, and the state in which
    [extractOne] leaves the search for "batman begins" among them. *)
Definition ex_choices : list cell := choices_of (rows ex_tn).

Definition ex_scan : scan :=
  Eval vm_compute in
    match extractOne ex_ratio "batman begins" ex_choices with
    | Ok st => st
    | Raise _ => mkscan 0 None []
    end.












(** A box-office table without rows, as the study filters may leave it. *)
Definition ex_no_rows : DataFrame :=
  mkframe ["bom_release_id"; "title"; "release_date_parsed"; "opening_wknd_theaters"] [].

(** Does [parse_money] raise on this text? *)
Definition raises (r : result (option Z)) : bool :=
  match r with
  | Raise _ => true
  | Ok _ => false
  end.

(** The entry the matcher gives "batman begins" of 2005 on the example
    budget table. *)
Definition ex_match : match_result * list (string * string) :=
  Eval vm_compute in
    match match_row config_py ex_ratio "batman begins" (CNum 2005) ex_tn with
    | Ok p => p
    | Raise _ => (no_match, [])
    end.

(** * Properties *)

(** ** [normalize_title] *)


Ltac unroll :=
  cbn [all_chars spaced_from PyStr.lower PyStr.lstrip PyStr.rstrip
       PyStr.sub_parens_from PyStr.replace_char PyStr.sub_punct
       PyStr.sub_spaces_from PyStr.startswith PyStr.drop String.length
       PyStr.closes].

Ltac unroll_in H :=
  cbn [all_chars spaced_from PyStr.lower PyStr.lstrip PyStr.rstrip
       PyStr.sub_parens_from PyStr.replace_char PyStr.sub_punct
       PyStr.sub_spaces_from PyStr.startswith PyStr.drop String.length
       PyStr.closes] in H.

Ltac each_char c :=
  destruct c as [[] [] [] [] [] [] [] []]; vm_compute; (reflexivity || discriminate || tauto).

Lemma append_cons c r t : String.append (String c r) t = String c (String.append r t).
Proof. reflexivity. Qed.

Lemma lower_char_fixed c : lower_fixed (PyStr.lower_char c) = true.
Proof. each_char c. Qed.

Lemma word_not_space c : PyStr.isword c = true -> PyStr.isspace c = false.
Proof. each_char c. Qed.

Lemma space_is_blank c : PyStr.isspace c = true -> word_or_blank c = true -> c = " "%char.
Proof. each_char c. Qed.

Lemma word_or_blank_plain c :
  word_or_blank c = true ->
  Ascii.eqb c "(" = false /\ Ascii.eqb c "&" = false /\ word_or_space c = true.
Proof. each_char c. Qed.

Lemma all_chars_append P s t :
  all_chars P (String.append s t) = all_chars P s && all_chars P t.
Proof.
  induction s as [|c r IH]; [reflexivity|].
  rewrite append_cons. unroll. by rewrite IH, andb_assoc.
Qed.

Lemma all_chars_lower s : all_chars lower_fixed (PyStr.lower s) = true.
Proof. induction s as [|c r IH]; unroll; [done|]. by rewrite lower_char_fixed. Qed.

Lemma all_chars_lstrip P s : all_chars P s = true -> all_chars P (PyStr.lstrip s) = true.
Proof.
  induction s as [|c r IH]; unroll; [done|].
  rewrite andb_true_iff. intros [Hc Hr].
  destruct (PyStr.isspace c); [by apply IH|]. unroll. by rewrite Hc.
Qed.

Lemma all_chars_rstrip P s : all_chars P s = true -> all_chars P (PyStr.rstrip s) = true.
Proof.
  induction s as [|c r IH]; unroll; [done|].
  rewrite andb_true_iff. intros [Hc Hr]. specialize (IH Hr).
  destruct (PyStr.rstrip r) as [|c' r'].
  - destruct (PyStr.isspace c); unroll; [done|]. by rewrite Hc.
  - unroll. unroll_in IH. by rewrite Hc.
Qed.

Lemma all_chars_strip P s : all_chars P s = true -> all_chars P (PyStr.strip s) = true.
Proof. intros H. by apply all_chars_rstrip, all_chars_lstrip. Qed.

Lemma all_chars_sub_parens P b s :
  all_chars P s = true -> all_chars P (PyStr.sub_parens_from b s) = true.
Proof.
  revert b. induction s as [|c r IH]; intros b; unroll; [done|].
  rewrite andb_true_iff. intros [Hc Hr].
  destruct b.
  - destruct (Ascii.eqb c ")"); by apply IH.
  - destruct (Ascii.eqb c "(" && PyStr.closes r); [by apply IH|].
    unroll. rewrite Hc. by apply IH.
Qed.

Lemma all_chars_replace P old new s :
  all_chars P new = true -> all_chars P s = true ->
  all_chars P (PyStr.replace_char old new s) = true.
Proof.
  intros Hnew. induction s as [|c r IH]; unroll; [done|].
  rewrite andb_true_iff. intros [Hc Hr].
  destruct (Ascii.eqb c old).
  - rewrite all_chars_append, Hnew. by apply IH.
  - unroll. rewrite Hc. by apply IH.
Qed.

Lemma all_chars_sub_punct_lower s :
  all_chars lower_fixed s = true -> all_chars lower_fixed (PyStr.sub_punct s) = true.
Proof.
  induction s as [|c r IH]; unroll; [done|].
  rewrite andb_true_iff. intros [Hc Hr].
  destruct (PyStr.isword c || PyStr.isspace c); rewrite ?Hc; by rewrite IH.
Qed.

Lemma all_chars_sub_punct s : all_chars word_or_space (PyStr.sub_punct s) = true.
Proof.
  induction s as [|c r IH]; unroll; [done|]. rewrite IH, andb_true_r.
  destruct (PyStr.isword c || PyStr.isspace c) eqn:E; [exact E | reflexivity].
Qed.

Lemma all_chars_sub_spaces_lower b s :
  all_chars lower_fixed s = true ->
  all_chars lower_fixed (PyStr.sub_spaces_from b s) = true.
Proof.
  revert b. induction s as [|c r IH]; intros b; unroll; [done|].
  rewrite andb_true_iff. intros [Hc Hr].
  destruct (PyStr.isspace c); [destruct b|]; unroll; rewrite ?Hc; by rewrite IH.
Qed.

Lemma all_chars_sub_spaces b s :
  all_chars word_or_space s = true ->
  all_chars word_or_blank (PyStr.sub_spaces_from b s) = true.
Proof.
  revert b. induction s as [|c r IH]; intros b; unroll; [done|].
  rewrite andb_true_iff. intros [Hc Hr].
  destruct (PyStr.isspace c) eqn:E; [destruct b|]; unroll; rewrite ?IH by done; try done.
  unfold word_or_space in Hc. rewrite E, orb_false_r in Hc.
  unfold word_or_blank. by rewrite Hc.
Qed.

Lemma spaced_sub_spaces b s : spaced_from b (PyStr.sub_spaces_from b s) = true.
Proof.
  revert b. induction s as [|c r IH]; intros b; unroll; [done|].
  destruct (PyStr.isspace c) eqn:E.
  - destruct b; [apply IH|]. unroll. by rewrite IH.
  - unroll. rewrite E. apply IH.
Qed.

Lemma spaced_weaken b s : spaced_from b s = true -> spaced_from false s = true.
Proof.
  destruct s as [|c r]; unroll; [done|].
  destruct (PyStr.isspace c); [|done].
  rewrite !andb_true_iff. intros [[-> _] ->]. done.
Qed.

(** [lstrip] of a spaced string leaves a string with no blank in front. *)
Lemma spaced_lstrip b s : spaced_from b s = true -> spaced_from true (PyStr.lstrip s) = true.
Proof.
  revert b. induction s as [|c r IH]; intros b; unroll; [done|].
  destruct (PyStr.isspace c) eqn:E.
  - rewrite !andb_true_iff. intros [_ H]. by apply (IH true).
  - intros H. unroll. by rewrite E.
Qed.

Lemma spaced_rstrip b s : spaced_from b s = true -> spaced_from b (PyStr.rstrip s) = true.
Proof.
  revert b. induction s as [|c r IH]; intros b; unroll; [done|].
  destruct (PyStr.isspace c) eqn:E.
  - rewrite !andb_true_iff. intros [[Hc Hb] H]. specialize (IH _ H).
    destruct (PyStr.rstrip r) as [|c' r']; [done|].
    unroll. unroll_in IH. rewrite E, Hc, Hb. done.
  - intros H. specialize (IH _ H).
    destruct (PyStr.rstrip r) as [|c' r']; unroll; rewrite E; [done|]. exact IH.
Qed.

Lemma rstrip_idem s : PyStr.rstrip (PyStr.rstrip s) = PyStr.rstrip s.
Proof.
  induction s as [|c r IH]; unroll; [done|].
  destruct (PyStr.rstrip r) as [|c' r'] eqn:E.
  - destruct (PyStr.isspace c) eqn:Ec; unroll; [done|]. by rewrite Ec.
  - unroll. unroll_in IH. by rewrite IH.
Qed.

Lemma canonical_tidy s : tidy (canonical s).
Proof.
  unfold canonical, tidy. repeat split.
  - apply all_chars_strip, all_chars_sub_spaces_lower, all_chars_sub_punct_lower,
      all_chars_replace; [reflexivity|].
    apply all_chars_sub_parens, all_chars_strip, all_chars_lower.
  - apply all_chars_strip, all_chars_sub_spaces, all_chars_sub_punct.
  - unfold PyStr.strip. apply spaced_rstrip. eapply spaced_lstrip, spaced_sub_spaces.
  - apply rstrip_idem.
Qed.

Lemma lower_fixed_eq c : lower_fixed c = true -> PyStr.lower_char c = c.
Proof. unfold lower_fixed. by rewrite Ascii.eqb_eq. Qed.

Lemma lower_id s : all_chars lower_fixed s = true -> PyStr.lower s = s.
Proof.
  induction s as [|c r IH]; unroll; [done|].
  rewrite andb_true_iff. intros [Hc Hr]. by rewrite (lower_fixed_eq _ Hc), IH.
Qed.

Lemma lstrip_id s : spaced_from true s = true -> PyStr.lstrip s = s.
Proof.
  destruct s as [|c r]; unroll; [done|].
  destruct (PyStr.isspace c); [|done].
  rewrite andb_false_r. done.
Qed.

Lemma sub_parens_id s :
  all_chars word_or_blank s = true -> PyStr.sub_parens_from false s = s.
Proof.
  induction s as [|c r IH]; unroll; [done|].
  rewrite andb_true_iff. intros [Hc Hr].
  destruct (word_or_blank_plain _ Hc) as (-> & _ & _). cbn [andb]. by rewrite IH.
Qed.

Lemma replace_amp_id new s :
  all_chars word_or_blank s = true -> PyStr.replace_char "&" new s = s.
Proof.
  induction s as [|c r IH]; unroll; [done|].
  rewrite andb_true_iff. intros [Hc Hr].
  destruct (word_or_blank_plain _ Hc) as (_ & -> & _). by rewrite IH.
Qed.

Lemma sub_punct_id s : all_chars word_or_blank s = true -> PyStr.sub_punct s = s.
Proof.
  induction s as [|c r IH]; unroll; [done|].
  rewrite andb_true_iff. intros [Hc Hr].
  destruct (word_or_blank_plain _ Hc) as (_ & _ & Hw).
  unfold word_or_space in Hw. by rewrite Hw, IH.
Qed.

Lemma sub_spaces_id b s :
  all_chars word_or_blank s = true -> spaced_from b s = true ->
  PyStr.sub_spaces_from b s = s.
Proof.
  revert b. induction s as [|c r IH]; intros b; unroll; [done|].
  rewrite andb_true_iff. intros [Hc Hr].
  destruct (PyStr.isspace c) eqn:E.
  - rewrite !andb_true_iff, negb_true_iff, Ascii.eqb_eq.
    intros [[-> ->] H]. by rewrite IH.
  - intros H. by rewrite IH.
Qed.

(** A tidy string is a fixed point of steps 1 to 6. *)
Lemma tidy_canonical s : tidy s -> canonical s = s.
Proof.
  intros (Hl & Hw & Hs & Hr). unfold canonical, PyStr.strip, PyStr.sub_parens, PyStr.sub_spaces.
  rewrite (lower_id _ Hl), (lstrip_id _ Hs), Hr, (sub_parens_id _ Hw),
    (replace_amp_id _ _ Hw), (sub_punct_id _ Hw),
    (sub_spaces_id _ _ Hw (spaced_weaken _ _ Hs)), (lstrip_id _ Hs).
  exact Hr.
Qed.

Lemma rstrip_tail c r : PyStr.rstrip (String c r) = String c r -> PyStr.rstrip r = r.
Proof.
  unroll. destruct (PyStr.rstrip r) as [|c' r'] eqn:E.
  - destruct (PyStr.isspace c); [done|]. by intros [= <-].
  - by intros [= <-].
Qed.

(** What remains of a tidy string after a word and the blank behind it. *)
Lemma tidy_after_blank r : tidy (String " " r) -> False.
Proof. intros (_ & _ & Hs & _). revert Hs. unroll. by vm_compute. Qed.

Lemma tidy_tail c r :
  tidy (String c r) ->
  all_chars lower_fixed r = true /\ all_chars word_or_blank r = true
  /\ spaced_from (PyStr.isspace c) r = true /\ PyStr.rstrip r = r.
Proof.
  intros (Hl & Hw & Hs & Hr). revert Hl Hw Hs. unroll.
  rewrite !andb_true_iff. intros [_ Hl] [_ Hw] Hs.
  repeat split; try done; [|by eapply rstrip_tail].
  destruct (PyStr.isspace c); [|done].
  by rewrite andb_false_r in Hs.
Qed.

Lemma tidy_strip_article s a : In a articles -> tidy s -> tidy (strip_article s a).
Proof.
  intros Ha Hs. unfold strip_article.
  destruct (PyStr.startswith a s) eqn:E; [|done].
  destruct Hs as (Hl & Hw & Hsp & Hr).
  apply spaced_weaken in Hsp.
  repeat (destruct Ha as [<- | Ha]; [|]); try done.
  all: repeat (destruct s as [|? s]; [discriminate E|];
          cbn [PyStr.startswith] in E; apply andb_true_iff in E as [Ec E];
          apply Ascii.eqb_eq in Ec; subst).
  all: cbn [String.length PyStr.drop].
  all: repeat (apply rstrip_tail in Hr).
  all: revert Hl Hw Hsp; unroll; rewrite !andb_true_iff.
  all: change (PyStr.isspace "t") with false; change (PyStr.isspace "h") with false;
       change (PyStr.isspace "e") with false; change (PyStr.isspace "a") with false;
       change (PyStr.isspace "n") with false; change (PyStr.isspace " ") with true.
  all: cbv iota; rewrite !andb_true_iff.
  all: intros Hl Hw Hsp; repeat split; tauto.
Qed.

Lemma tidy_strip_articles s : tidy s -> tidy (strip_articles s).
Proof.
  intros H. unfold strip_articles, articles. cbn [fold_left].
  repeat apply tidy_strip_article; try done; unfold articles; cbn [In]; tauto.
Qed.

Lemma tidy_empty : tidy "".
Proof. by repeat split. Qed.

Lemma normalize_title_tidy s : tidy (normalize_title s).
Proof.
  unfold normalize_title. destruct (String.eqb s ""); [apply tidy_empty|].
  apply tidy_strip_articles, canonical_tidy.
Qed.

(** On a tidy string only the article loop is left of [normalize_title]. *)
Lemma normalize_title_of_tidy s : tidy s -> normalize_title s = strip_articles s.
Proof.
  intros H. unfold normalize_title.
  destruct (String.eqb_spec s "") as [->|_]; [reflexivity|].
  by rewrite tidy_canonical.
Qed.

Lemma drop_length n s : String.length (PyStr.drop n s) = (String.length s - n)%nat.
Proof.
  revert s. induction n as [|n IH]; intros [|c r]; cbn [PyStr.drop String.length]; try lia.
  rewrite IH. lia.
Qed.

Lemma startswith_length p s :
  PyStr.startswith p s = true -> (String.length p <= String.length s)%nat.
Proof.
  revert s. induction p as [|a p IH]; intros [|b s]; cbn [PyStr.startswith String.length];
    try lia; try discriminate.
  rewrite andb_true_iff. intros [_ H]. apply IH in H. lia.
Qed.

Lemma strip_article_le s a :
  (String.length (strip_article s a) <= String.length s)%nat.
Proof.
  unfold strip_article. destruct (PyStr.startswith a s); [|lia].
  rewrite drop_length. lia.
Qed.

Lemma strip_article_lt s a :
  PyStr.startswith a s = true -> a <> "" ->
  (String.length (strip_article s a) < String.length s)%nat.
Proof.
  intros H Ha. unfold strip_article. rewrite H, drop_length.
  apply startswith_length in H. destruct a; [done|].
  cbn [String.length] in *. lia.
Qed.

Lemma strip_article_id s a : PyStr.startswith a s = false -> strip_article s a = s.
Proof. intros H. unfold strip_article. by rewrite H. Qed.

Lemma strip_articles_id s : has_article s = false -> strip_articles s = s.
Proof.
  unfold has_article, articles. cbn [existsb].
  rewrite !orb_false_iff. intros (H1 & H2 & H3 & _).
  unfold strip_articles, articles. cbn [fold_left].
  by rewrite (strip_article_id _ _ H1), (strip_article_id _ _ H2), (strip_article_id _ _ H3).
Qed.

Lemma strip_articles_shorter s :
  has_article s = true -> (String.length (strip_articles s) < String.length s)%nat.
Proof.
  unfold has_article, strip_articles, articles. cbn [existsb fold_left].
  rewrite orb_false_r.
  pose proof (strip_article_le s "the ") as L1.
  pose proof (strip_article_le (strip_article s "the ") "a ") as L2.
  pose proof (strip_article_le (strip_article (strip_article s "the ") "a ") "an ") as L3.
  destruct (PyStr.startswith "the " s) eqn:E1.
  { intros _. pose proof (strip_article_lt _ _ E1 ltac:(discriminate)). lia. }
  rewrite (strip_article_id _ _ E1) in *.
  destruct (PyStr.startswith "a " s) eqn:E2.
  { intros _. pose proof (strip_article_lt _ _ E2 ltac:(discriminate)). lia. }
  rewrite (strip_article_id _ _ E2) in *.
  cbn [orb]. intros E3. pose proof (strip_article_lt _ _ E3 ltac:(discriminate)). lia.
Qed.

(** C3 (amended).  Normalizing twice gives the same as normalizing once
    exactly when the normalized title does not itself begin with one of
    the articles "the ", "a ", "an "; a normalized title that begins with
    an article loses it on the second pass. *)
Theorem normalize_title_idempotent_iff (s : string) :
  normalize_title (normalize_title s) = normalize_title s
  <-> has_article (normalize_title s) = false.
Proof.
  rewrite (normalize_title_of_tidy _ (normalize_title_tidy s)).
  split.
  - intros H. destruct (has_article (normalize_title s)) eqn:E; [|done].
    apply strip_articles_shorter in E. rewrite H in E. lia.
  - apply strip_articles_id.
Qed.

(** C3 as stated fails: normalizing "A A Film" gives "a film", and
    normalizing that gives "film". *)
Lemma normalize_title_not_idempotent :
  normalize_title (normalize_title "A A Film") <> normalize_title "A A Film".
Proof. vm_compute. discriminate. Qed.

Lemma strip_articles_twice a t :
  In a articles -> strip_articles (String.append a (String.append a t)) = String.append a t.
Proof.
  intros Ha. repeat (destruct Ha as [<- | Ha]; [reflexivity|]). done.
Qed.

(** C4 (amended).  The article loop runs once through "the ", "a ", "an "
    and removes each one that is a prefix at its turn: "The Batman" and
    "Batman" both give "batman"; "A A Film" gives "a film", which is not
    the normal form "film" of "a film"; "The A An Film" loses all three
    articles; and a tidy title that begins with the same article twice
    loses exactly one copy. *)
Theorem normalize_title_articles :
  normalize_title "The Batman" = "batman"
  /\ normalize_title "Batman" = "batman"
  /\ normalize_title "A A Film" = "a film"
  /\ normalize_title "a film" = "film"
  /\ normalize_title "The A An Film" = "film"
  /\ forall a t, In a articles -> tidy (String.append a (String.append a t)) ->
       normalize_title (String.append a (String.append a t)) = String.append a t.
Proof.
  split; [vm_compute; reflexivity|].
  split; [vm_compute; reflexivity|].
  split; [vm_compute; reflexivity|].
  split; [vm_compute; reflexivity|].
  split; [vm_compute; reflexivity|].
  intros a t Ha Ht. rewrite (normalize_title_of_tidy _ Ht). by apply strip_articles_twice.
Qed.


(** The general part of [normalize_title_articles] at "a a film". *)
Lemma normalize_title_articles_witness : normalize_title "a a film" = "a film".
Proof.
  apply (proj2 (proj2 (proj2 (proj2 (proj2 normalize_title_articles)))) "a " "film").
  - cbn. tauto.
  - repeat split; vm_compute; reflexivity.
Defined.

(** C4 as stated fails: "A A Film" and "a film" have different normal
    forms. *)
Lemma normalize_title_article_counterexample :
  normalize_title "A A Film" <> normalize_title "a film".
Proof. vm_compute. discriminate. Qed.

(** *** [parse_money] *)

(** C7.  [parse_money] reads the suffix notation exactly and maps the
    placeholders, with any white space around them, and text that is no
    number to [None], without raising. *)
Theorem parse_money_examples :
  parse_money (CStr "$1.2B") = Ok (Some 1200000000%Z)
  /\ parse_money (CStr "$400M") = Ok (Some 400000000%Z)
  /\ parse_money (CStr "-") = Ok None
  /\ parse_money (CStr "") = Ok None
  /\ parse_money (CStr "n/a") = Ok None
  /\ parse_money (CStr "N/A") = Ok None
  /\ parse_money (CStr "not applicable") = Ok None
  /\ parse_money CNone = Ok None
  /\ forall t, In (PyStr.strip t) placeholders -> parse_money (CStr t) = Ok None.
Proof.
  do 8 (split; [vm_compute; reflexivity|]).
  intros t Ht. unfold parse_money.
  destruct (String.eqb t ""); [reflexivity|].
  assert (E : existsb (String.eqb (PyStr.strip t)) placeholders = true).
  { apply existsb_exists. exists (PyStr.strip t). split; [exact Ht|apply String.eqb_refl]. }
  by rewrite E.
Qed.

(** The general part of [parse_money_examples] at a dash between blanks. *)
Lemma parse_money_examples_witness : parse_money (CStr "  -  ") = Ok None.
Proof.
  apply (proj2 (proj2 (proj2 (proj2 (proj2 (proj2 (proj2 (proj2
           parse_money_examples)))))))).
  vm_compute. tauto.
Defined.

(** ** The result monad *)

Lemma bind_Ok {A B} (r : result A) (k : A -> result B) (b : B) :
  r ≫= k = Ok b -> exists a, r = Ok a /\ k a = Ok b.
Proof. destruct r as [a|e]; [|discriminate]. intros H. by exists a. Qed.

Lemma fmap_Ok {A B} (f : A -> B) (r : result A) (b : B) :
  f <$> r = Ok b -> exists a, r = Ok a /\ b = f a.
Proof. destruct r as [a|e]; [|discriminate]. intros [= <-]. by exists a. Qed.

Lemma Ok_inj {A} (a b : A) : Ok a = Ok b -> a = b.
Proof. by intros [= ->]. Qed.

(** [mapM] succeeds exactly when every call does, and then pairs each
    input with its output. *)
Lemma mapM_Ok {A B} (f : A -> result B) (l : list A) (l' : list B) :
  mapM f l = Ok l' <-> Forall2 (fun x y => f x = Ok y) l l'.
Proof.
  revert l'. induction l as [|x l IH]; intros l'.
  - split.
    + intros [= <-]. constructor.
    + intros H. by inversion H.
  - split.
    + intros H. cbn in H.
      apply bind_Ok in H as (y & Hy & H).
      apply bind_Ok in H as (ys & Hys & H).
      injection H as <-. constructor; [done|]. by apply IH.
    + intros H. inversion H as [|? y ? ys Hy Hys]; subst. cbn.
      rewrite Hy. cbn. apply IH in Hys. rewrite Hys. reflexivity.
Qed.

Lemma mapM_total {A B} (f : A -> result B) (l : list A) :
  Forall (fun x => exists y, f x = Ok y) l -> exists l', mapM f l = Ok l'.
Proof.
  induction 1 as [|x l [y Hy] _ [l' Hl']]; [by exists []|].
  exists (y :: l'). cbn. rewrite Hy. cbn. by rewrite Hl'.
Qed.

(** A mask computed row by row selects the rows on which it holds. *)
Lemma keep_filter {A} (h : A -> bool) (l : list A) :
  fst <$> List.filter snd (zip l (h <$> l)) = List.filter h l.
Proof.
  induction l as [|x l IH]; [done|]. cbn.
  destruct (h x); cbn; by rewrite IH.
Qed.

Lemma mapM_fmap {A B C} (f : B -> result C) (g : A -> B) (h : A -> C) (l : list A) :
  Forall (fun x => f (g x) = Ok (h x)) l -> mapM f (g <$> l) = Ok (h <$> l).
Proof.
  induction 1 as [|x l Hx _ IH]; [done|]. cbn. rewrite Hx. cbn. by rewrite IH.
Qed.

Lemma mapM_fmap_Ok {A B C} (f : B -> result C) (g : A -> B) (h : A -> C)
    (l : list A) (out : list C) :
  (forall x y, f (g x) = Ok y -> y = h x) ->
  mapM f (g <$> l) = Ok out -> out = h <$> l.
Proof.
  intros Hh H. apply mapM_Ok, Forall2_fmap_l in H.
  induction H as [|x y l l' Hxy _ IH]; [done|].
  cbn. by rewrite (Hh _ _ Hxy), IH.
Qed.

Lemma filter_filter {A} (f g : A -> bool) (l : list A) :
  List.filter g (List.filter f l) = List.filter (fun x => f x && g x) l.
Proof.
  induction l as [|x l IH]; [done|]. cbn.
  destruct (f x); cbn; [destruct (g x)|]; by rewrite IH.
Qed.

(** ** Frames *)

Lemma has_column_spec df c : has_column df c = true <-> In c (columns df).
Proof.
  unfold has_column. rewrite existsb_exists. split.
  - intros (x & Hx & E). apply String.eqb_eq in E. by subst.
  - intros H. exists c. split; [done|apply String.eqb_refl].
Qed.

Lemma column_Ok c df vals :
  column c df = Ok vals ->
  has_column df c = true /\ vals = (fun r => cell_at r c) <$> rows df.
Proof. unfold column. destruct (has_column df c); [|discriminate]. by intros [= <-]. Qed.

Lemma cell_at_insert_ne (r : row) c c' v : c <> c' -> cell_at (<[c := v]> r) c' = cell_at r c'.
Proof. intros H. unfold cell_at. by rewrite lookup_insert_ne. Qed.

Lemma cell_at_insert (r : row) c v : cell_at (<[c := v]> r) c = v.
Proof. unfold cell_at. by rewrite lookup_insert_eq. Qed.

(** The rows of [df[c] = vals] when there is one value per row. *)
Lemma assign_rows c vals df :
  length vals = length (rows df) ->
  Forall2 (fun r r' => exists v, r' = <[c := v]> r) (rows df) (rows (assign c vals df))
  /\ Forall2 (fun v r' => cell_at r' c = v) vals (rows (assign c vals df)).
Proof.
  unfold assign. cbn [rows]. generalize (rows df). intros l.
  revert vals. induction l as [|r l IH]; intros [|v vals]; cbn; try discriminate.
  - by split; constructor.
  - intros [= H]. destruct (IH _ H) as [H1 H2]. split; constructor; try done.
    + by exists v.
    + apply cell_at_insert.
Qed.

Lemma derive_Ok n s f (df out : DataFrame) :
  derive n s f df = Ok out ->
  Forall2 (sets n (fun r v => f (cell_at r s) = Ok v)) (rows df) (rows out).
Proof.
  unfold derive. intros H.
  apply bind_Ok in H as (vals & Hv & H). apply column_Ok in Hv as [_ ->].
  apply bind_Ok in H as (outv & Ho & H). injection H as <-.
  apply mapM_Ok in Ho.
  assert (Hlen : length outv = length (rows df)).
  { apply Forall2_length in Ho. by rewrite length_fmap in Ho. }
  destruct (assign_rows n outv df Hlen) as [H1 H2].
  apply Forall2_fmap_l in Ho.
  apply Forall2_same_length_lookup. split; [by eapply Forall2_length|].
  intros i r r' Hr Hr'.
  destruct (Forall2_lookup_l _ _ _ _ _ Ho Hr) as (v & Hv & Hf).
  pose proof (Forall2_lookup_lr _ _ _ _ _ _ H2 Hv Hr') as Hc.
  destruct (Forall2_lookup_lr _ _ _ _ _ _ H1 Hr Hr') as (v' & ->).
  split.
  - by rewrite Hc.
  - intros c Hne. by rewrite lookup_insert_ne.
Qed.

Lemma pd_series_length vals : length (pd_series vals) = length vals.
Proof. unfold pd_series. destruct (_ && _); [by rewrite length_fmap|done]. Qed.

Lemma derive_apply_Ok n s f (df out : DataFrame) :
  derive_apply n s f df = Ok out ->
  Forall2 (sets n (fun _ _ => True)) (rows df) (rows out).
Proof.
  unfold derive_apply. intros H.
  apply bind_Ok in H as (vals & Hv & H). apply column_Ok in Hv as [_ ->].
  apply bind_Ok in H as (outv & Ho & H). injection H as <-.
  apply mapM_Ok, Forall2_length in Ho. rewrite length_fmap in Ho.
  destruct (assign_rows n (pd_series outv) df) as [H1 _].
  { by rewrite pd_series_length. }
  eapply Forall2_impl; [exact H1|].
  intros r r' (v & ->). split; [done|].
  intros c Hne. by rewrite lookup_insert_ne.
Qed.

Lemma sets_cell n P r r' c : sets n P r r' -> c <> n -> cell_at r' c = cell_at r c.
Proof. intros [_ H] Hne. unfold cell_at. by rewrite H. Qed.

Ltac back_cells :=
  repeat match goal with
  | H : sets ?n _ ?r ?r' |- context [cell_at ?r' ?c] =>
      rewrite (sets_cell _ _ _ _ c H) by discriminate
  end.

Ltac back_cells_in H0 :=
  repeat match goal with
  | H : sets ?n _ ?r ?r' |- _ =>
      match type of H0 with context [cell_at r' ?c] =>
        rewrite (sets_cell _ _ _ _ c H) in H0 by discriminate
      end
  end.

Lemma construct_rdd_variables_rows cfg np_log (df out : DataFrame) :
  construct_rdd_variables cfg np_log df = Ok out ->
  Forall2 (rdd_row cfg np_log) (rows df) (rows out).
Proof.
  unfold construct_rdd_variables. intros H.
  apply bind_Ok in H as (d1 & H1 & H). apply derive_Ok in H1.
  apply bind_Ok in H as (d2 & H2 & H). apply derive_Ok in H2.
  apply bind_Ok in H as (d3 & H3 & H). apply derive_Ok in H3.
  apply bind_Ok in H as (d4 & H4 & H). apply derive_Ok in H4.
  apply bind_Ok in H as (d5 & H5 & H). apply derive_Ok in H5.
  apply bind_Ok in H as (d6 & H6 & H). apply derive_Ok in H6.
  apply bind_Ok in H as (d7 & H7 & H). apply derive_Ok in H7.
  apply bind_Ok in H as (d8 & H8 & H). apply derive_Ok in H8.
  apply bind_Ok in H as (d9 & H9 & H). apply derive_apply_Ok in H9.
  apply bind_Ok in H as (d10 & H10 & H). apply derive_apply_Ok in H10.
  apply derive_apply_Ok in H.
  apply Forall2_same_length_lookup. split.
  { repeat (etrans; [eapply Forall2_length; eassumption|]). done. }
  intros i r0 r11 Hr0 Hr11.
  destruct (Forall2_lookup_l _ _ _ _ _ H1 Hr0) as (r1 & Hr1 & S1).
  destruct (Forall2_lookup_l _ _ _ _ _ H2 Hr1) as (r2 & Hr2 & S2).
  destruct (Forall2_lookup_l _ _ _ _ _ H3 Hr2) as (r3 & Hr3 & S3).
  destruct (Forall2_lookup_l _ _ _ _ _ H4 Hr3) as (r4 & Hr4 & S4).
  destruct (Forall2_lookup_l _ _ _ _ _ H5 Hr4) as (r5 & Hr5 & S5).
  destruct (Forall2_lookup_l _ _ _ _ _ H6 Hr5) as (r6 & Hr6 & S6).
  destruct (Forall2_lookup_l _ _ _ _ _ H7 Hr6) as (r7 & Hr7 & S7).
  destruct (Forall2_lookup_l _ _ _ _ _ H8 Hr7) as (r8 & Hr8 & S8).
  destruct (Forall2_lookup_l _ _ _ _ _ H9 Hr8) as (r9 & Hr9 & S9).
  destruct (Forall2_lookup_l _ _ _ _ _ H10 Hr9) as (r10 & Hr10 & S10).
  pose proof (Forall2_lookup_lr _ _ _ _ _ _ H Hr10 Hr11) as S11.
  clear -S1 S2 S3 S4 S5 S6 S7 S8 S9 S10 S11.
  pose proof S1 as [P1 _]. pose proof S2 as [P2 _]. pose proof S3 as [P3 _].
  pose proof S4 as [P4 _]. pose proof S5 as [P5 _]. pose proof S6 as [P6 _].
  pose proof S7 as [P7 _]. pose proof S8 as [P8 _].
  back_cells_in P2. back_cells_in P3. back_cells_in P4. back_cells_in P5.
  back_cells_in P6. back_cells_in P7. back_cells_in P8.
  unfold rdd_row. back_cells.
  repeat (split; [assumption|]).
  intros c Hc. unfold rdd_columns in Hc. cbn [In] in Hc.
  destruct S1 as [_ F1], S2 as [_ F2], S3 as [_ F3], S4 as [_ F4], S5 as [_ F5],
    S6 as [_ F6], S7 as [_ F7], S8 as [_ F8], S9 as [_ F9], S10 as [_ F10],
    S11 as [_ F11].
  rewrite F11, F10, F9, F8, F7, F6, F5, F4, F3, F2, F1 by (intros ->; tauto).
  reflexivity.
Qed.

(** C8.  In every row the log-budget is null when the budget is null or not
    positive (and the log of the budget when it is at least 1), while the
    logs of opening gross, total gross and theaters floor their value at 1
    and are null only when the value is. *)
Theorem log_variables cfg np_log (df out : DataFrame) :
  construct_rdd_variables cfg np_log df = Ok out ->
  Forall2 (log_row np_log) (rows df) (rows out).
Proof.
  intros H. apply construct_rdd_variables_rows in H.
  eapply Forall2_impl; [exact H|]. clear.
  intros r r' (_ & _ & _ & _ & Hg & Ht & Hth & Hb & _).
  assert (Hfl : forall x y, log_floored np_log x = Ok y -> floored_log np_log x y).
  { intros x y. unfold log_floored, floored_log.
    destruct x as [| |q|s|d|b]; try discriminate; cbn.
    - intros [= <-]. repeat split; (done || (intros; discriminate)).
    - intros [= <-]. repeat split; (done || (intros; discriminate)).
    - intros [= <-]. unfold clip_lower. repeat split; [done| |].
      + intros ? [= <-] Hq. apply Qle_bool_iff in Hq. by rewrite Hq.
      + intros ? [= <-] Hq. destruct (Qle_bool 1 q) eqn:E; [|done].
        apply Qle_bool_iff in E. by apply Qlt_not_le in Hq.
    - intros [= <-]. repeat split; intros; discriminate. }
  unfold log_row. cbv zeta.
  split; [|split; [|split]]; [| | |by auto].
  - revert Hb. unfold log_budget.
    destruct (cell_at r "production_budget"); try discriminate; cbn; by intros [= <-].
  - intros q Hq Hle. rewrite Hq in Hb. cbn in Hb.
    apply Qle_bool_iff in Hle. rewrite Hle in Hb. cbn in Hb. by injection Hb as <-.
  - intros q Hq Hle. rewrite Hq in Hb. cbn in Hb.
    assert (E0 : Qle_bool q 0 = false).
    { destruct (Qle_bool q 0) eqn:E; [|done]. apply Qle_bool_iff in E.
      exfalso. apply (Qle_not_lt _ _ (Qle_trans _ _ _ Hle E)). reflexivity. }
    rewrite E0 in Hb. cbn in Hb. unfold clip_lower in Hb.
    apply Qle_bool_iff in Hle. rewrite Hle in Hb. by injection Hb as <-.
Qed.

(** [log_variables] on the example table. *)
Lemma log_variables_witness :
  Forall2 (log_row ex_log) (rows ex_filtered) (rows ex_final).
Proof.
  apply (log_variables config_py ex_log ex_filtered ex_final).
  exact (@eq_refl _ (Ok ex_final) <: construct_rdd_variables config_py ex_log ex_filtered = Ok ex_final).
Defined.

(** C2, at the failing input.  A null score gives the indicator 0, not a
    null: the comparison with the cutoff is False on a null and the cast
    to the nullable integer type turns False into 0.  In the example
    table the second film has no audience score and the third no critic
    score; both indicators come out 0. *)
Theorem is_fresh_of_null_score :
  (forall cfg, is_fresh cfg CNaN = Ok (CNum 0) /\ is_fresh cfg CNone = Ok (CNum 0))
  /\ (fun r => cell_at r "audience_score") <$> rows ex_filtered !! 1%nat = Some CNaN
  /\ (fun r => cell_at r "is_fresh_audience") <$> rows ex_final !! 1%nat = Some (CNum 0)
  /\ (fun r => cell_at r "tomatometer") <$> rows ex_filtered !! 2%nat = Some CNaN
  /\ (fun r => cell_at r "is_fresh_critic") <$> rows ex_final !! 2%nat = Some (CNum 0).
Proof.
  split; [by split|].
  repeat split; vm_compute; reflexivity.
Qed.

(** ** The fuzzy title matcher *)

Lemma classify_classified cfg s : classified cfg s (classify cfg s).
Proof.
  unfold classify, classified.
  destruct (Qle_bool (FUZZY_MATCH_ACCEPT_THRESHOLD cfg) s) eqn:Ea.
  { left. split; [done|]. by apply Qle_bool_iff. }
  assert (Ha : (s < FUZZY_MATCH_ACCEPT_THRESHOLD cfg)%Q).
  { apply Qnot_le_lt. intros H. apply Qle_bool_iff in H. congruence. }
  destruct (Qle_bool (FUZZY_MATCH_REVIEW_THRESHOLD cfg) s) eqn:Er.
  { right; left. repeat split; [|done]. by apply Qle_bool_iff. }
  right; right. repeat split; [|done].
  apply Qnot_le_lt. intros H. apply Qle_bool_iff in H. congruence.
Qed.

Lemma pool_typed_spec tn_df :
  pool_typed tn_df = true ->
  has_column tn_df "release_year" = true
  /\ has_column tn_df "title_normalized" = true
  /\ (forall r, In r (rows tn_df) ->
        numeric_cell (cell_at r "release_year") = true
        /\ text_cell (cell_at r "title_normalized") = true).
Proof.
  unfold pool_typed. rewrite !andb_true_iff, forallb_forall.
  intros [[H2 H3] H4]. repeat split; try done; apply H4 in H;
    by apply andb_true_iff in H as [? ?].
Qed.

Lemma pool_ok_spec tn_df :
  pool_ok tn_df = true ->
  has_column tn_df "title" = true
  /\ has_column tn_df "release_year" = true
  /\ has_column tn_df "title_normalized" = true
  /\ (forall r, In r (rows tn_df) ->
        numeric_cell (cell_at r "release_year") = true
        /\ text_cell (cell_at r "title_normalized") = true).
Proof.
  unfold pool_ok. rewrite andb_true_iff. intros [H1 H]. split; [done|].
  by apply pool_typed_spec.
Qed.

Lemma between_within q (r : row) :
  numeric_cell (cell_at r "release_year") = true ->
  between (q - 1) (q + 1) (cell_at r "release_year") = Ok (within_year q r).
Proof.
  unfold numeric_cell, between, within_year.
  by destruct (as_number (cell_at r "release_year")) as [[x|]|].
Qed.

(** The year blocking gives the candidate pool. *)
Lemma year_block_pool bom_year (tn_df : DataFrame) :
  pool_typed tn_df = true -> numeric_cell bom_year = true ->
  year_block bom_year tn_df = Ok (year_pool bom_year tn_df).
Proof.
  intros Hok Hy. apply pool_typed_spec in Hok as (Hyear & _ & Hrows).
  unfold year_block, year_pool, column. rewrite Hyear.
  assert (Hmask : forall q,
    mapM (between (q - 1) (q + 1)) ((fun r => cell_at r "release_year") <$> rows tn_df)
    = Ok (within_year q <$> rows tn_df)).
  { intros q. apply mapM_fmap. apply Forall_forall. intros r Hr.
    apply between_within, Hrows. by apply list_elem_of_In. }
  destruct bom_year as [| |q|s|d|b]; try discriminate; cbn [truthy notna isna negb andb];
    try reflexivity.
  - cbn [as_number]. destruct (Qeq_bool q 0); cbn [negb]; [reflexivity|].
    cbn [mbind result_bind default]. rewrite Hmask. cbn [mbind result_bind].
    by rewrite keep_filter.
  - destruct b; cbn [as_number]; [|reflexivity].
    cbn [mbind result_bind default]. rewrite Hmask. cbn [mbind result_bind].
    by rewrite keep_filter.
Qed.

Lemma year_pool_subset bom_year tn_df r :
  In r (year_pool bom_year tn_df) -> In r (rows tn_df).
Proof.
  unfold year_pool. destruct (as_number bom_year) as [[q|]|]; try done.
  destruct (Qeq_bool q 0); [done|]. intros H. by apply filter_In in H as [H _].
Qed.

Lemma extract_from_total tsr query choices key st :
  forallb text_cell choices = true ->
  exists st', extract_from tsr query choices key st = Ok st'.
Proof.
  revert key st. induction choices as [|c choices IH]; intros key st; cbn [forallb extract_from].
  { by exists st. }
  rewrite andb_true_iff. intros [Hc Hcs].
  destruct c as [| |q|s|d|b]; try discriminate; cbn [isna]; try by apply IH.
  cbv zeta. destruct (Qeq_bool _ 100); [by eexists|]. by apply IH.
Qed.

(** The invariant of the loop of [extractOne]: the cut-off is the best
    score so far, and the best so far is the first greatest among the
    choices seen. *)
Lemma best_of_null tsr q pre b c :
  isna c = true -> best_of tsr q pre b -> best_of tsr q (pre ++ [c])%list b.
Proof.
  intros Hc. destruct b as [[[c0 s0] k0]|]; cbn.
  - intros (Hk & Hs & Hlt & Hle).
    assert (Hpre : forall j c', (pre ++ [c])%list !! j = Some (CStr c') -> pre !! j = Some (CStr c')).
    { intros j c' Hj. apply lookup_app_Some in Hj as [Hj|[_ Hj]]; [done|].
      apply list_lookup_singleton_Some in Hj as [_ ->]. discriminate. }
    repeat split; [by apply lookup_app_l_Some|done| |]; eauto.
  - intros H. apply Forall_app. split; [done|]. by constructor.
Qed.

Lemma best_of_full tsr q l rest c s k :
  percent tsr -> (100 <= s)%Q ->
  best_of tsr q l (Some (c, s, k)) -> best_of tsr q (l ++ rest)%list (Some (c, s, k)).
Proof.
  intros Hp Hs (Hk & Es & Hlt & Hle). cbn.
  repeat split; [by apply lookup_app_l_Some|done| |].
  - intros j c' Hj Hc'. apply (Hlt j c' Hj).
    apply lookup_lt_Some in Hk. rewrite lookup_app_l in Hc' by lia. done.
  - intros j c' _. destruct (Hp q c') as [_ H]. lra.
Qed.

Lemma extract_from_best tsr q choices pre st st' :
  percent tsr ->
  score_cutoff st = match best st with Some (_, s, _) => s | None => 0%Q end ->
  best_of tsr q pre (best st) ->
  extract_from tsr q choices (length pre) st = Ok st' ->
  best_of tsr q (pre ++ choices)%list (best st').
Proof.
  intros Hp. revert pre st.
  induction choices as [|choice rest IH]; intros pre st Hcut Hinv H.
  { cbn in H. apply Ok_inj in H. subst st'. by rewrite app_nil_r. }
  cbn [extract_from] in H.
  assert (Hlen : S (length pre) = length (pre ++ [choice])%list).
  { rewrite length_app. cbn. lia. }
  replace (pre ++ choice :: rest)%list with ((pre ++ [choice]) ++ rest)%list
    by (by rewrite <- app_assoc).
  destruct (isna choice) eqn:Ena.
  { rewrite Hlen in H. apply (IH _ _ Hcut (best_of_null _ _ _ _ _ Ena Hinv) H). }
  destruct choice as [| |x|c|d|b]; try discriminate. cbv zeta in H.
  destruct (Hp q c) as [H0 H100].
  set (score := scorer tsr q c (score_cutoff st)) in *.
  set (improves := Qle_bool (score_cutoff st) score && _) in *.
  set (st1 := if improves then _ else _) in *.
  assert (Hscore : (score <= tsr q c)%Q).
  { unfold score, scorer. cbv zeta.
    destruct (Qle_bool (score_cutoff st) (tsr q c)); lra. }
  (* the state after this choice *)
  assert (Hst1 : score_cutoff st1
                 = match best st1 with Some (_, s, _) => s | None => 0%Q end
                 /\ best_of tsr q (pre ++ [CStr c])%list (best st1)
                 /\ exists c1 s1 k1, best st1 = Some (c1, s1, k1) /\ (score <= s1)%Q).
  { unfold st1, improves. clear H st1 improves.
    destruct (best st) as [[[c0 s0] k0]|] eqn:Eb.
    - destruct Hinv as (Hk & Es & Hlt & Hle).
      assert (Hk0 : (k0 < length pre)%nat) by by eapply lookup_lt_Some.
      destruct (Qle_bool (score_cutoff st) score && negb (Qle_bool score s0)) eqn:Ei.
      + apply andb_true_iff in Ei as [E1 E2]. apply negb_true_iff in E2.
        assert (Hgt : (s0 < score)%Q).
        { apply Qnot_le_lt. intros Hc. apply Qle_bool_iff in Hc. congruence. }
        assert (Es1 : score = tsr q c).
        { unfold score, scorer in *. cbv zeta in *.
          destruct (Qle_bool (score_cutoff st) (tsr q c)); [done|].
          exfalso. destruct (Hp q c0). rewrite <- Es in *. lra. }
        rewrite Es1 in Hgt |- *.
        cbn [score_cutoff best]. split; [done|]. split.
        * cbn. split; [|split; [|split]].
          -- rewrite lookup_app_r by lia. by rewrite Nat.sub_diag.
          -- done.
          -- intros j c' Hj Hc'. rewrite lookup_app_l in Hc' by lia.
             specialize (Hle j c' Hc'). lra.
          -- intros j c' Hc'. apply lookup_app_Some in Hc' as [Hc'|[_ Hc']].
             ++ specialize (Hle j c' Hc'). lra.
             ++ apply list_lookup_singleton_Some in Hc' as [_ [= ->]]. lra.
        * eexists _, _, _. split; [reflexivity|]. lra.
      + cbn [score_cutoff best]. split; [exact Hcut|].
        assert (Hle1 : (tsr q c <= s0)%Q).
        { rewrite Hcut in Ei. unfold score, scorer in Ei. cbv zeta in Ei. rewrite Hcut in Ei.
          destruct (Qle_bool s0 (tsr q c)) eqn:E1.
          - rewrite E1 in Ei. cbn in Ei. apply negb_false_iff, Qle_bool_iff in Ei. done.
          - apply Qlt_le_weak, Qnot_le_lt. intros Hc. apply Qle_bool_iff in Hc. congruence. }
        split.
        * cbn. split; [|split; [|split]].
          -- by apply lookup_app_l_Some.
          -- done.
          -- intros j c' Hj Hc'. rewrite lookup_app_l in Hc' by lia. by eapply Hlt.
          -- intros j c' Hc'. apply lookup_app_Some in Hc' as [Hc'|[_ Hc']].
             ++ by eapply Hle.
             ++ by apply list_lookup_singleton_Some in Hc' as [_ [= ->]].
        * eexists _, _, _. split; [reflexivity|]. lra.
    - assert (Es1 : score = tsr q c).
      { unfold score, scorer. cbv zeta. rewrite Hcut.
        destruct (Qle_bool 0 (tsr q c)) eqn:E; [done|].
        apply Qle_bool_iff in H0. congruence. }
      assert (Ei : Qle_bool (score_cutoff st) score && true = true).
      { rewrite Hcut, Es1, andb_true_r. by apply Qle_bool_iff. }
      rewrite Ei. cbn [score_cutoff best]. rewrite Es1. split; [done|]. split.
      + cbn in Hinv. cbn. split; [|split; [|split]].
        * rewrite lookup_app_r by lia. by rewrite Nat.sub_diag.
        * done.
        * intros j c' Hj Hc'. rewrite lookup_app_l in Hc' by lia.
          apply list_elem_of_lookup_2 in Hc'.
          rewrite Forall_forall in Hinv. by apply Hinv in Hc'.
        * intros j c' Hc'. apply lookup_app_Some in Hc' as [Hc'|[_ Hc']].
          -- apply list_elem_of_lookup_2 in Hc'.
             rewrite Forall_forall in Hinv. by apply Hinv in Hc'.
          -- apply list_lookup_singleton_Some in Hc' as [_ [= ->]]. lra.
      + eexists _, _, _. split; [reflexivity|]. lra. }
  destruct Hst1 as (Hcut1 & Hinv1 & c1 & s1 & k1 & Eb1 & Hs1).
  destruct (Qeq_bool score 100) eqn:E100.
  - apply Ok_inj in H. subst st'. rewrite Eb1 in *.
    apply Qeq_bool_iff in E100. apply best_of_full; [done| |done]. lra.
  - rewrite Hlen in H. exact (IH _ _ Hcut1 Hinv1 H).
Qed.

(** With a scorer that stays within 0 and 100, [extractOne] reports
    nothing only when every choice is null, and else the first choice of
    greatest similarity. *)
Lemma extractOne_best_of tsr (q : string) (choices : list cell) (st : scan) :
  percent tsr ->
  extractOne tsr q choices = Ok st ->
  best_of tsr q choices (best st).
Proof.
  intros Hp H.
  apply (extract_from_best tsr q choices [] (mkscan 0 None []) st Hp); [done| |exact H].
  constructor.
Qed.

Lemma percent_ex_ratio : percent ex_ratio.
Proof.
  intros a b. unfold ex_ratio.
  destruct (String.eqb a b); [split; discriminate|].
  destruct (_ || _); split; discriminate.
Qed.

(** [mapM] raises the one error its function can raise as soon as one
    call does. *)
Lemma mapM_raises {A B} (f : A -> result B) (e : exn) (l : list A) (x : A) :
  (forall y e', f y = Raise e' -> e' = e) ->
  In x l -> f x = Raise e -> mapM f l = Raise e.
Proof.
  intros Hone Hin Hx. induction l as [|y l IH]; [destruct Hin|].
  cbn. destruct (f y) as [b|e'] eqn:Ey.
  - destruct Hin as [->|Hin]; [congruence|].
    cbn. by rewrite (IH Hin).
  - cbn. by rewrite (Hone _ _ Ey).
Qed.

Lemma normalize_title_cell_raises v e :
  normalize_title_cell v = Raise e -> e = AttributeError.
Proof.
  unfold normalize_title_cell. destruct (negb (truthy v)); [discriminate|].
  destruct v; congruence.
Qed.

(** The body of the loop on a typed budget table: it returns, or stops
    at the title of the best candidate when the table has no [title]. *)
Lemma match_row_typed cfg tsr (bom_title : string) (bom_year : cell) (tn_df : DataFrame) :
  pool_typed tn_df = true -> numeric_cell bom_year = true ->
  (exists m log, match_row cfg tsr bom_title bom_year tn_df = Ok (m, log))
  \/ (has_column tn_df "title" = false
      /\ match_row cfg tsr bom_title bom_year tn_df = Raise (KeyError ["title"])).
Proof.
  intros Hok Hy.
  pose proof (year_block_pool bom_year tn_df Hok Hy) as Hc.
  pose proof (pool_typed_spec _ Hok) as (_ & Hnorm & Hrows).
  set (cands := year_pool bom_year tn_df) in *.
  destruct (extract_from_total tsr bom_title (choices_of cands) 0 (mkscan 0 None []))
    as [st Hst].
  { apply forallb_forall. intros c Hin. unfold choices_of in Hin.
    apply list_elem_of_In, list_elem_of_fmap in Hin as (r & -> & Hr).
    apply list_elem_of_In, year_pool_subset, Hrows in Hr. tauto. }
  unfold match_row. rewrite Hc. cbn [mbind result_bind].
  destruct (String.eqb bom_title ""); [left; by eexists _, _|].
  destruct (empty (columns tn_df) cands); [left; by eexists _, _|].
  unfold column, has_column. cbn [columns rows].
  fold (has_column tn_df "title_normalized"). rewrite Hnorm.
  cbn [mbind result_bind]. fold (choices_of cands). unfold extractOne. rewrite Hst.
  cbn [mbind result_bind].
  destruct (best st) as [[[c s] k]|]; [|left; by eexists _, _].
  fold (has_column tn_df "title"). destruct (has_column tn_df "title").
  - left. by eexists _, _.
  - by right.
Qed.

(** The body of the loop returns on a well-formed budget table. *)
Lemma match_row_total cfg tsr (bom_title : string) (bom_year : cell) (tn_df : DataFrame) :
  pool_ok tn_df = true -> numeric_cell bom_year = true ->
  exists m log, match_row cfg tsr bom_title bom_year tn_df = Ok (m, log).
Proof.
  intros Hok Hy. unfold pool_ok in Hok. apply andb_true_iff in Hok as [Ht Hok].
  destruct (match_row_typed cfg tsr bom_title bom_year tn_df Hok Hy) as [H|[H _]];
    [done|congruence].
Qed.

(** The body of the loop on a well-formed budget table. *)
Lemma match_row_spec cfg tsr (bom_title : string) (bom_year : cell) (tn_df : DataFrame) :
  percent tsr -> pool_ok tn_df = true -> numeric_cell bom_year = true ->
  let cands := year_pool bom_year tn_df in
  exists m log,
    match_row cfg tsr bom_title bom_year tn_df = Ok (m, log)
    /\ (bom_title = "" \/ cands = [] -> m = no_match /\ log = [])
    /\ (bom_title <> "" -> cands <> [] ->
        exists st, extractOne tsr bom_title (choices_of cands) = Ok st
          /\ log = rev (calls st)
          /\ best_of tsr bom_title (choices_of cands) (best st)
          /\ match best st with
             | None => m = no_match
             | Some (_, s, _) =>
                 tn_match_score m = s /\ classified cfg s (tn_match_status m)
             end).
Proof.
  intros Hp Hok Hy cands.
  assert (Hty : pool_typed tn_df = true).
  { unfold pool_ok in Hok. by apply andb_true_iff in Hok as [_ ?]. }
  pose proof (year_block_pool bom_year tn_df Hty Hy) as Hc. fold cands in Hc.
  pose proof (pool_ok_spec _ Hok) as (Htitle & _ & Hnorm & Hrows).
  destruct (extract_from_total tsr bom_title (choices_of cands) 0 (mkscan 0 None []))
    as [st Hst].
  { apply forallb_forall. intros c Hin. unfold choices_of in Hin.
    apply list_elem_of_In, list_elem_of_fmap in Hin as (r & -> & Hr).
    apply list_elem_of_In, year_pool_subset, Hrows in Hr. tauto. }
  fold (extractOne tsr bom_title (choices_of cands)) in Hst.
  pose proof (extractOne_best_of _ _ _ _ Hp Hst) as Hbest.
  unfold match_row. rewrite Hc. cbn [mbind result_bind].
  destruct (String.eqb_spec bom_title "") as [->|Hne].
  { exists no_match, []. repeat split; try done. }
  assert (Hcols : columns tn_df <> []).
  { intros E. unfold has_column in Htitle. by rewrite E in Htitle. }
  destruct cands as [|r cands'] eqn:Ecands.
  { exists no_match, []. destruct (columns tn_df); repeat split; try done. }
  assert (Hempty : empty (columns tn_df) (r :: cands') = false).
  { by destruct (columns tn_df). }
  rewrite Hempty. unfold column, has_column. cbn [columns rows].
  fold (has_column tn_df "title_normalized"). rewrite Hnorm.
  cbn [mbind result_bind]. fold (choices_of (r :: cands')). rewrite Hst.
  cbn [mbind result_bind].
  destruct (best st) as [[[c s] k]|] eqn:Eb.
  - fold (has_column tn_df "title"). rewrite Htitle.
    eexists _, _. split; [reflexivity|]. split.
    + intros [?|?]; done.
    + intros _ _. exists st. split; [done|]. split; [done|]. split; [by rewrite Eb|].
      rewrite Eb. cbn. split; [done|]. apply classify_classified.
  - eexists _, _. split; [reflexivity|]. split.
    + intros [?|?]; done.
    + intros _ _. exists st. split; [done|]. split; [done|]. split; [by rewrite Eb|].
      by rewrite Eb.
Qed.

(** C1.  On a budget table as the scraper writes it (columns [title],
    [release_year], [title_normalized]; numeric years, textual normalized
    titles) and with a scorer within 0 and 100, the body of the matching
    loop returns an entry for every normalized title and every release
    year.  Its candidates are the budget rows within one year of the
    release year, or all when the year is unknown.  With an empty title or
    no candidate the entry is unmatched with score 0 and the scorer is
    never called.  Otherwise [extractOne] runs over the normalized titles
    of the candidates; when they are all null the entry is again
    unmatched with score 0; else the entry carries the greatest
    similarity [s] of a candidate (the first to reach it) and the status
    the two thresholds give [s]: matched from the accept threshold on,
    review from the review threshold up to the accept threshold,
    unmatched below.  The title [None] and the empty title are normalized
    to the empty title.  A title that is NaN, as [read_csv] gives for an
    empty field, is not: [normalize_title] raises [AttributeError] and
    the matching stage with it. *)
Theorem fuzzy_match_three_way cfg tsr (tn_df : DataFrame) :
  percent tsr -> pool_ok tn_df = true ->
  (forall (bom_title : string) (bom_year : cell),
     numeric_cell bom_year = true ->
     let cands := year_pool bom_year tn_df in
     exists m log,
       year_block bom_year tn_df = Ok cands
       /\ match_row cfg tsr bom_title bom_year tn_df = Ok (m, log)
       /\ (bom_title = "" \/ cands = [] -> m = no_match /\ log = [])
       /\ (bom_title <> "" -> cands <> [] ->
           exists st, extractOne tsr bom_title (choices_of cands) = Ok st
             /\ log = rev (calls st)
             /\ best_of tsr bom_title (choices_of cands) (best st)
             /\ match best st with
                | None => m = no_match
                | Some (_, s, _) =>
                    tn_match_score m = s /\ classified cfg s (tn_match_status m)
                end))
  /\ normalize_title_cell CNone = Ok ""
  /\ (forall s, normalize_title_cell (CStr s) = Ok (normalize_title s))
  /\ normalize_title "" = ""
  /\ normalize_title_cell CNaN = Raise AttributeError
  /\ (forall (bom_df : DataFrame) (r : row),
        has_column bom_df "title" = true -> In r (rows bom_df) ->
        cell_at r "title" = CNaN ->
        fuzzy_match_budgets cfg tsr bom_df tn_df = Raise AttributeError).
Proof.
  intros Hp Hok. split; [|split; [|split; [|split; [|split]]]].
  - intros bom_title bom_year Hy cands.
    destruct (match_row_spec cfg tsr bom_title bom_year tn_df Hp Hok Hy)
      as (m & log & Hm & H1 & H2).
    exists m, log. split.
    { apply year_block_pool; [|done]. unfold pool_ok in Hok.
      by apply andb_true_iff in Hok as [_ ?]. }
    split; [exact Hm|]. split; [exact H1|exact H2].
  - reflexivity.
  - intros s. unfold normalize_title_cell. cbn [truthy].
    destruct (String.eqb_spec s "") as [->|Hne]; [reflexivity|]. reflexivity.
  - reflexivity.
  - reflexivity.
  - intros bom_df r Hcol Hin Hnan. unfold fuzzy_match_budgets, column.
    rewrite Hcol. cbn [mbind result_bind].
    rewrite (mapM_raises normalize_title_cell AttributeError _ (cell_at r "title")).
    + reflexivity.
    + apply normalize_title_cell_raises.
    + apply list_elem_of_In, list_elem_of_fmap. exists r.
      split; [done|]. by apply list_elem_of_In.
    + by rewrite Hnan.
Qed.

(** [fuzzy_match_three_way] on the example budget table: "batman" of 2022
    gets an entry, and a box-office table with a NaN title stops the
    stage. *)
Lemma fuzzy_match_three_way_witness :
  pool_ok ex_tn = true
  /\ (exists m log,
       match_row config_py ex_ratio "batman" (CNum 2022) ex_tn = Ok (m, log))
  /\ fuzzy_match_budgets config_py ex_ratio ex_untitled ex_tn = Raise AttributeError.
Proof.
  assert (Hok : pool_ok ex_tn = true) by (vm_compute; reflexivity).
  destruct (fuzzy_match_three_way config_py ex_ratio ex_tn percent_ex_ratio Hok)
    as (Hrow & _ & _ & _ & _ & Hnan).
  split; [exact Hok|]. split.
  - destruct (Hrow "batman" (CNum 2022) eq_refl) as (m & log & _ & H & _).
    exists m, log. exact H.
  - apply (Hnan ex_untitled (list_to_map [("title", CNaN)])).
    + reflexivity.
    + left. reflexivity.
    + reflexivity.
Defined.

(** ** Selections and joins *)

Lemma project_lookup cols (r : row) c :
  project cols r !! c = if decide (c ∈ cols) then Some (cell_at r c) else None.
Proof.
  unfold project. induction cols as [|a cols IH]; cbn.
  - by rewrite lookup_empty.
  - destruct (decide (a = c)) as [->|Hne].
    + rewrite lookup_insert_eq. rewrite decide_True; [done|by left].
    + rewrite lookup_insert_ne by done. rewrite IH.
      destruct (decide (c ∈ cols)) as [Hin|Hnin].
      * rewrite decide_True; [done|by right].
      * rewrite decide_False; [done|]. intros Hc. apply elem_of_cons in Hc as [->|?]; done.
Qed.

Lemma cell_at_project cols (r : row) c : c ∈ cols -> cell_at (project cols r) c = cell_at r c.
Proof. intros H. unfold cell_at at 1. rewrite project_lookup. by rewrite decide_True. Qed.

Lemma existsb_elem_of c (cols : list string) :
  existsb (String.eqb c) cols = true -> c ∈ cols.
Proof.
  intros H. apply existsb_exists in H as (x & Hx & E).
  apply String.eqb_eq in E. subst. by apply list_elem_of_In.
Qed.

(** The same with a membership test that computes. *)
Lemma cell_at_project_b cols (r : row) c :
  existsb (String.eqb c) cols = true -> cell_at (project cols r) c = cell_at r c.
Proof. intros H. by apply cell_at_project, existsb_elem_of. Qed.

Lemma select_Ok cols df out :
  select cols df = Ok out ->
  out = mkframe cols (project cols <$> rows df)
  /\ forall c, In c cols -> has_column df c = true.
Proof.
  unfold select. destruct (List.filter _ cols) as [|m ms] eqn:E; [|discriminate].
  intros [= <-]. split; [reflexivity|].
  intros c Hc. destruct (has_column df c) eqn:Eh; [done|].
  assert (Hin : In c (List.filter (fun c => negb (has_column df c)) cols)).
  { apply filter_In. by rewrite Eh. }
  by rewrite E in Hin.
Qed.

Lemma select_present_Ok cols df :
  select_present cols df
  = Ok (mkframe (List.filter (has_column df) cols)
                (project (List.filter (has_column df) cols) <$> rows df)).
Proof.
  unfold select_present, select.
  destruct (List.filter (fun c => negb (has_column df c)) (List.filter (has_column df) cols))
    as [|m ms] eqn:E; [reflexivity|].
  assert (Hin : In m (m :: ms)) by by left.
  rewrite <- E in Hin. apply filter_In in Hin as [Hin Hm].
  apply filter_In in Hin as [_ Hin]. by rewrite Hin in Hm.
Qed.

Lemma joined_length on sl sr L R l :
  length (joined on sl sr L R l) = Nat.max 1 (length (matches on R l)).
Proof.
  unfold joined. destruct (matches on R l) as [|m ms]; [done|].
  rewrite length_fmap. cbn. lia.
Qed.

Lemma bind_length {A B} (f : A -> list B) (l : list A) :
  length (l ≫= f) = sum_list ((fun x => length (f x)) <$> l).
Proof. induction l as [|x l IH]; [done|]. cbn. by rewrite length_app, IH. Qed.

Lemma pd_merge_left_Ok on sl sr L R out :
  pd_merge_left on sl sr L R = Ok out ->
  has_column L on = true /\ has_column R on = true
  /\ keys_clash (keys on L) (keys on R) = false
  /\ out = mkframe
             (((merged_name on sl (columns R)) <$> columns L)
              ++ ((merged_name on sr (columns L)) <$> right_columns on R))%list
             (rows L ≫= joined on sl sr L R).
Proof.
  unfold pd_merge_left. destruct (has_column L on); [|discriminate].
  destruct (has_column R on); [|discriminate]. cbn [andb].
  destruct (keys_clash _ _); [discriminate|]. intros H. apply Ok_inj in H.
  by subst out.
Qed.

(** The row count of a left join: every left row counts once, or once
    per right row with its key. *)
Lemma pd_merge_left_length on sl sr L R out :
  pd_merge_left on sl sr L R = Ok out ->
  length (rows out)
  = sum_list ((fun l => Nat.max 1 (length (matches on R l))) <$> rows L).
Proof.
  intros H. apply pd_merge_left_Ok in H as (_ & _ & _ & ->). cbn [rows].
  rewrite bind_length. f_equal. apply list_fmap_ext. intros _ l _. apply joined_length.
Qed.

Lemma sum_list_ge_length (f : row -> nat) (l : list row) :
  (forall x, 1 <= f x)%nat -> (length l <= sum_list (f <$> l))%nat.
Proof. intros H. induction l as [|x l IH]; cbn; [lia|]. specialize (H x). lia. Qed.

Lemma sum_list_ones (f : row -> nat) (l : list row) :
  (forall x, f x = 1)%nat -> sum_list (f <$> l) = length l.
Proof. intros H. induction l as [|x l IH]; cbn; [lia|]. rewrite H. lia. Qed.

Lemma pd_merge_left_rows on sl sr L R out :
  pd_merge_left on sl sr L R = Ok out ->
  (length (rows L) <= length (rows out))%nat
  /\ (unique_keys on R -> length (rows out) = length (rows L)).
Proof.
  intros H. rewrite (pd_merge_left_length _ _ _ _ _ _ H). split.
  - apply sum_list_ge_length. intros. lia.
  - intros Hu. apply sum_list_ones. intros l.
    specialize (Hu (cell_at l on)). unfold matches. lia.
Qed.

Lemma matches_project_length on cols k (l : list row) :
  on ∈ cols ->
  length (List.filter (fun r => key_eqb k (cell_at r on)) (project cols <$> l))
  = length (List.filter (fun r => key_eqb k (cell_at r on)) l).
Proof.
  intros Hin. induction l as [|r l IH]; [done|].
  cbn [fmap list_fmap List.filter]. rewrite (cell_at_project _ _ _ Hin).
  destruct (key_eqb k (cell_at r on)); cbn [length]; by rewrite IH.
Qed.

(** Selecting columns that include the key keeps the keys unique. *)
Lemma unique_keys_project on cols df :
  on ∈ cols -> unique_keys on df ->
  unique_keys on (mkframe cols (project cols <$> rows df)).
Proof.
  intros Hin Hu k. cbn [rows]. rewrite matches_project_length by done. apply Hu.
Qed.

Lemma assign_length c vals df :
  length vals = length (rows df) -> length (rows (assign c vals df)) = length (rows df).
Proof. intros H. unfold assign. cbn [rows]. rewrite length_zip_with. lia. Qed.

Lemma column_length c df vals : column c df = Ok vals -> length vals = length (rows df).
Proof. intros H. apply column_Ok in H as [_ ->]. by rewrite length_fmap. Qed.

Lemma rows_mkframe cols (rs : list row) : rows (mkframe cols rs) = rs.
Proof. reflexivity. Qed.

Lemma assign_length_min c vals df :
  length (rows (assign c vals df)) = (length (rows df) `min` length vals)%nat.
Proof. unfold assign. by rewrite rows_mkframe, length_zip_with. Qed.

Lemma fillna_columns_length a b df va vb :
  column a df = Ok va -> column b df = Ok vb ->
  length (zip_with fillna va vb) = length (rows df).
Proof.
  intros Ha Hb. apply column_length in Ha, Hb. rewrite length_zip_with. lia.
Qed.

Lemma mapM_length {A B} (f : A -> result B) l l' : mapM f l = Ok l' -> length l' = length l.
Proof. intros H. apply mapM_Ok, Forall2_length in H. done. Qed.

Lemma merge_rt_rows bom rt out :
  merge_rt bom rt = Ok out ->
  (length (rows bom) <= length (rows out))%nat
  /\ (unique_keys "bom_release_id" rt -> length (rows out) = length (rows bom)).
Proof.
  unfold merge_rt. rewrite select_present_Ok. cbn [mbind result_bind].
  set (cols := List.filter (has_column rt) rt_cols).
  intros H. apply bind_Ok in H as (merged & Hm & H).
  apply bind_Ok in H as (merged' & Hm' & H).
  apply bind_Ok in H as (_ & _ & H). apply bind_Ok in H as (_ & _ & H).
  injection H as <-.
  assert (Hlen : length (rows merged') = length (rows merged)).
  { destruct (has_column merged "rt_rating"); [|by injection Hm' as <-].
    apply bind_Ok in Hm' as (va & Ha & Hm'). apply bind_Ok in Hm' as (vb & Hb & Hm').
    injection Hm' as <-. apply assign_length. by eapply fillna_columns_length. }
  rewrite Hlen. destruct (pd_merge_left_rows _ _ _ _ _ _ Hm) as [Hle Hu].
  split; [exact Hle|]. intros Hrt. apply Hu.
  apply unique_keys_project; [|done].
  apply pd_merge_left_Ok in Hm as (_ & E & _). apply has_column_spec in E.
  by apply list_elem_of_In.
Qed.

Lemma merge_bom_rows strptime repr idx det out :
  merge_bom strptime repr idx det = Ok out ->
  (length (rows idx) <= length (rows out))%nat
  /\ (unique_keys "bom_release_id" det -> length (rows out) = length (rows idx)).
Proof.
  unfold merge_bom. intros H.
  apply bind_Ok in H as (left & Hl & H). apply select_Ok in Hl as [-> _].
  apply bind_Ok in H as (right & Hr & H). apply select_Ok in Hr as [-> _].
  apply bind_Ok in H as (bom & Hm & H).
  apply bind_Ok in H as (title & Ht & H).
  apply bind_Ok in H as (dg & Hdg & H). apply bind_Ok in H as (tg & Htg & H).
  apply bind_Ok in H as (dd & Hdd & H). apply bind_Ok in H as (di & Hdi & H).
  apply bind_Ok in H as (parsed & Hp & H).
  apply column_length in Ht, Hdg, Htg, Hdd, Hdi. apply mapM_length in Hp.
  rewrite select_present_Ok in H. apply Ok_inj in H. subst out.
  rewrite rows_mkframe, length_fmap.
  repeat (rewrite assign_length_min in * || rewrite length_zip_with in * ).
  destruct (pd_merge_left_rows _ _ _ _ _ _ Hm) as [Hle Hu].
  rewrite rows_mkframe, length_fmap in Hle, Hu. split; [lia|].
  intros Hd. rewrite <- Hu; [lia|]. apply unique_keys_project; [|done].
  by apply existsb_elem_of.
Qed.

Lemma copies_project on cols (R : DataFrame) (l : row) :
  on ∈ cols ->
  copies on (mkframe cols (project cols <$> rows R)) l = copies on R l.
Proof. intros Hin. unfold copies, matches. cbn [rows]. by apply matches_project_length. Qed.

Lemma merge_rt_count bom rt out :
  merge_rt bom rt = Ok out ->
  length (rows out) = joined_count "bom_release_id" rt (rows bom).
Proof.
  unfold merge_rt. rewrite select_present_Ok. cbn [mbind result_bind].
  set (cols := List.filter (has_column rt) rt_cols).
  intros H. apply bind_Ok in H as (merged & Hm & H).
  apply bind_Ok in H as (merged' & Hm' & H).
  apply bind_Ok in H as (_ & _ & H). apply bind_Ok in H as (_ & _ & H).
  apply Ok_inj in H. subst out.
  assert (Hlen : length (rows merged') = length (rows merged)).
  { destruct (has_column merged "rt_rating"); [|by injection Hm' as <-].
    apply bind_Ok in Hm' as (va & Ha & Hm'). apply bind_Ok in Hm' as (vb & Hb & Hm').
    injection Hm' as <-. apply assign_length. by eapply fillna_columns_length. }
  rewrite Hlen, (pd_merge_left_length _ _ _ _ _ _ Hm).
  apply pd_merge_left_Ok in Hm as (_ & E & _).
  apply has_column_spec, list_elem_of_In in E. cbn [columns] in E.
  unfold joined_count. f_equal. apply list_fmap_ext. intros _ l _.
  f_equal. by apply (copies_project "bom_release_id" cols rt l).
Qed.

Lemma merge_bom_count strptime repr idx det out :
  merge_bom strptime repr idx det = Ok out ->
  length (rows out) = joined_count "bom_release_id" det (rows idx).
Proof.
  unfold merge_bom. intros H.
  apply bind_Ok in H as (left & Hl & H). apply select_Ok in Hl as [-> _].
  apply bind_Ok in H as (right & Hr & H). apply select_Ok in Hr as [-> _].
  apply bind_Ok in H as (bom & Hm & H).
  apply bind_Ok in H as (title & Ht & H).
  apply bind_Ok in H as (dg & Hdg & H). apply bind_Ok in H as (tg & Htg & H).
  apply bind_Ok in H as (dd & Hdd & H). apply bind_Ok in H as (di & Hdi & H).
  apply bind_Ok in H as (parsed & Hp & H).
  apply column_length in Ht, Hdg, Htg, Hdd, Hdi. apply mapM_length in Hp.
  rewrite select_present_Ok in H. apply Ok_inj in H. subst out.
  rewrite rows_mkframe, length_fmap.
  repeat (rewrite assign_length_min in * || rewrite length_zip_with in * ).
  pose proof (pd_merge_left_length _ _ _ _ _ _ Hm) as Hc.
  rewrite rows_mkframe in Hc.
  assert (E : length (rows bom) = joined_count "bom_release_id" det (rows idx)).
  { rewrite Hc. unfold joined_count. rewrite <- list_fmap_compose.
    f_equal. apply list_fmap_ext. intros _ l _. cbn [compose]. f_equal.
    fold (copies "bom_release_id"
            (mkframe detail_columns (project detail_columns <$> rows det))
            (project index_columns l)).
    rewrite copies_project by (by apply existsb_elem_of).
    unfold copies, matches. rewrite cell_at_project by (by apply existsb_elem_of).
    reflexivity. }
  lia.
Qed.

Lemma joined_In on sl sr L R l m :
  In m (joined on sl sr L R l) ->
  exists d, m = merged_row on sl sr L R l d
    /\ match d with
       | Some x => In x (rows R) /\ key_eqb (cell_at l on) (cell_at x on) = true
       | None => forall x, In x (rows R) -> key_eqb (cell_at l on) (cell_at x on) = false
       end.
Proof.
  unfold joined. destruct (matches on R l) as [|x xs] eqn:E.
  - intros [<-|[]]. exists None. split; [done|].
    intros x Hx. destruct (key_eqb _ _) eqn:Ek; [|done].
    assert (Hin : In x (matches on R l)) by (apply filter_In; done).
    by rewrite E in Hin.
  - intros Hin. apply list_elem_of_In, list_elem_of_fmap in Hin as (y & -> & Hy).
    exists (Some y). split; [done|].
    apply list_elem_of_In in Hy. rewrite <- E in Hy. by apply filter_In in Hy.
Qed.

Lemma pd_merge_left_In on sl sr L R out m :
  pd_merge_left on sl sr L R = Ok out -> In m (rows out) ->
  exists l d, In l (rows L) /\ m = merged_row on sl sr L R l d
    /\ match d with
       | Some x => In x (rows R) /\ key_eqb (cell_at l on) (cell_at x on) = true
       | None => forall x, In x (rows R) -> key_eqb (cell_at l on) (cell_at x on) = false
       end.
Proof.
  intros H. apply pd_merge_left_Ok in H as (_ & _ & _ & ->). rewrite rows_mkframe.
  intros Hin. apply list_elem_of_In, list_elem_of_bind in Hin as (l & Hm & Hl).
  apply list_elem_of_In, joined_In in Hm as (d & -> & Hd).
  exists l, d. by rewrite <- list_elem_of_In.
Qed.

Lemma assign_In c vals df r' :
  In r' (rows (assign c vals df)) ->
  exists r v, In r (rows df) /\ r' = <[c := v]> r.
Proof.
  unfold assign. rewrite rows_mkframe. generalize (rows df). intros l. revert vals.
  induction l as [|r l IH]; intros [|v vals]; cbn; try done.
  intros [<-|Hin].
  - exists r, v. split; [by left|done].
  - destruct (IH _ Hin) as (r0 & v0 & ? & ->). exists r0, v0. split; [by right|done].
Qed.

(** The rows of [df[c] = df[a].fillna(df[b])]. *)
Lemma assign_fillna_In c a b df va vb r' :
  column a df = Ok va -> column b df = Ok vb ->
  In r' (rows (assign c (zip_with fillna va vb) df)) ->
  exists r, In r (rows df) /\ r' = <[c := fillna (cell_at r a) (cell_at r b)]> r.
Proof.
  intros Ha Hb. apply column_Ok in Ha as [_ ->], Hb as [_ ->].
  unfold assign. rewrite rows_mkframe.
  rewrite zip_with_fmap_l, zip_with_fmap_r, zip_with_diag.
  rewrite zip_with_fmap_r, zip_with_diag.
  intros Hin. apply list_elem_of_In, list_elem_of_fmap in Hin as (r & -> & Hr).
  exists r. by rewrite <- list_elem_of_In.
Qed.

Lemma preferred_fillna a b : preferred a b (fillna a b).
Proof. unfold preferred, fillna. by destruct (isna a). Qed.

(** The cells of a row of the index-details join that [merge_bom] reads. *)
Lemma bom_merged_cells lrows rrows (l : row) (d : option row) :
  let m := merged_row "bom_release_id" "_index" "_detail"
             (mkframe index_columns lrows) (mkframe detail_columns rrows) l d in
  cell_at m "bom_release_id" = cell_at l "bom_release_id"
  /\ cell_at m "domestic_gross" = detail_cell d "domestic_gross"
  /\ cell_at m "total_gross" = cell_at l "total_gross"
  /\ cell_at m "distributor_detail" = detail_cell d "distributor"
  /\ cell_at m "distributor_index" = cell_at l "distributor".
Proof.
  destruct d; repeat split; vm_compute; reflexivity.
Qed.

(** C6.  Every row of the merged box-office table stems from an index row
    and the detail row of the same identifier, if any; its domestic gross
    and its distributor are, each on its own, the detail value when that
    is not null and the index value (total gross, distributor) otherwise. *)
Theorem detail_preferred strptime repr (idx det out : DataFrame) :
  merge_bom strptime repr idx det = Ok out ->
  Forall (bom_row idx det) (rows out).
Proof.
  unfold merge_bom. intros H.
  apply bind_Ok in H as (left & Hl & H). apply select_Ok in Hl as [-> _].
  apply bind_Ok in H as (right & Hr & H). apply select_Ok in Hr as [-> _].
  apply bind_Ok in H as (bom & Hm & H).
  apply bind_Ok in H as (title & Ht & H).
  apply bind_Ok in H as (dg & Hdg & H). apply bind_Ok in H as (tg & Htg & H).
  apply bind_Ok in H as (dd & Hdd & H). apply bind_Ok in H as (di & Hdi & H).
  apply bind_Ok in H as (parsed & Hp & H).
  rewrite select_present_Ok in H. apply Ok_inj in H. subst out.
  rewrite rows_mkframe. apply Forall_forall. intros r' Hr'.
  apply list_elem_of_fmap in Hr' as (r4 & -> & Hr4).
  apply list_elem_of_In, assign_In in Hr4 as (r3 & v4 & Hr3 & ->).
  apply (assign_fillna_In _ _ _ _ _ _ _ Hdd Hdi) in Hr3 as (r2 & Hr2 & ->).
  apply (assign_fillna_In _ _ _ _ _ _ _ Hdg Htg) in Hr2 as (r1 & Hr1 & ->).
  apply assign_In in Hr1 as (m & v1 & Hm1 & ->).
  assert (Hcols : columns bom
    = ["bom_release_id"; "title"; "total_gross"; "max_theaters";
       "release_date_raw"; "bom_year"; "distributor_index"; "release_url";
       "opening_wknd_gross"; "opening_wknd_theaters"; "widest_release";
       "domestic_gross"; "mpaa_rating"; "genres"; "release_date";
       "distributor_detail"]).
  { by apply pd_merge_left_Ok in Hm as (_ & _ & _ & ->). }
  destruct (pd_merge_left_In _ _ _ _ _ _ _ Hm Hm1) as (l' & d' & Hl' & -> & Hd').
  rewrite rows_mkframe in Hl'.
  apply list_elem_of_In, list_elem_of_fmap in Hl' as (l & -> & Hl).
  apply list_elem_of_In in Hl.
  set (K := List.filter _ keep_cols).
  assert (HK : K = keep_cols).
  { subst K. unfold has_column, assign. cbn [columns]. unfold has_column.
    rewrite Hcols. vm_compute. reflexivity. }
  rewrite HK. clear K HK.
  assert (Hkey : forall x : row,
    key_eqb (cell_at (project index_columns l) "bom_release_id")
            (cell_at (project detail_columns x) "bom_release_id")
    = key_eqb (cell_at l "bom_release_id") (cell_at x "bom_release_id")).
  { intros x. by rewrite !cell_at_project_b by reflexivity. }
  assert (Hd : exists d : option row,
    detail_cell d' "domestic_gross" = detail_cell d "domestic_gross"
    /\ detail_cell d' "distributor" = detail_cell d "distributor"
    /\ match d with
       | Some x =>
           In x (rows det)
           /\ key_eqb (cell_at l "bom_release_id") (cell_at x "bom_release_id") = true
       | None =>
           forall x, In x (rows det) ->
             key_eqb (cell_at l "bom_release_id") (cell_at x "bom_release_id") = false
       end).
  { destruct d' as [x'|].
    - destruct Hd' as [Hx' Hk]. rewrite rows_mkframe in Hx'.
      apply list_elem_of_In, list_elem_of_fmap in Hx' as (x & -> & Hx).
      exists (Some x). cbn [detail_cell].
      rewrite !cell_at_project_b by reflexivity.
      rewrite Hkey in Hk. by rewrite <- list_elem_of_In.
    - exists None. do 2 (split; [done|]). intros x Hx. rewrite <- Hkey.
      apply Hd'. rewrite rows_mkframe. apply list_elem_of_In, list_elem_of_fmap.
      exists x. by rewrite list_elem_of_In. }
  destruct Hd as (d & Hdg' & Hdd' & Hdspec).
  destruct (bom_merged_cells (project index_columns <$> rows idx)
              (project detail_columns <$> rows det) (project index_columns l) d')
    as (Cid & Cdg & Ctg & Cdd & Cdi).
  exists l, d. split; [done|]. split; [done|].
  rewrite !cell_at_project_b by reflexivity.
  rewrite !cell_at_insert_ne by discriminate.
  rewrite cell_at_insert. rewrite !cell_at_insert_ne by discriminate.
  rewrite cell_at_insert. rewrite !cell_at_insert_ne by discriminate.
  rewrite Cid, Cdg, Ctg, Cdd, Cdi, Hdg', Hdd'.
  rewrite !cell_at_project_b by reflexivity.
  split; [done|]. split; apply preferred_fillna.
Qed.

Lemma key_eqb_common k a b :
  key_eqb k a = true -> key_eqb k b = true -> key_eqb a b = true.
Proof.
  destruct k as [| |p|s|d|x], a as [| |q|t|e|y]; try discriminate;
    destruct b as [| |q'|t'|e'|y']; try discriminate; cbn; try done.
  - rewrite !Qeq_bool_iff. intros H1 H2. by rewrite <- H1, <- H2.
  - rewrite !String.eqb_eq. by intros <- <-.
  - rewrite !andb_true_iff, !Z.eqb_eq. intros [[-> ->] ->] [[-> ->] ->]. done.
  - destruct x, y, y'; done.
Qed.

(** Pairwise different keys are unique keys. *)
Lemma keys_distinct_unique on df :
  keys_distinct ((fun r => cell_at r on) <$> rows df) = true -> unique_keys on df.
Proof.
  intros H k. induction (rows df) as [|r l IH]; [cbn; lia|].
  cbn [fmap list_fmap keys_distinct] in H. apply andb_true_iff in H as [Hr Hl].
  specialize (IH Hl). cbn [List.filter].
  destruct (key_eqb k (cell_at r on)) eqn:E; [|done].
  cbn [length].
  assert (Hnone : List.filter (fun r0 => key_eqb k (cell_at r0 on)) l = []).
  { clear IH Hl. induction l as [|x l IHl]; [done|].
    cbn [fmap list_fmap forallb] in Hr. apply andb_true_iff in Hr as [Hx Hr].
    cbn [List.filter]. destruct (key_eqb k (cell_at x on)) eqn:Ex.
    - by rewrite (key_eqb_common _ _ _ E Ex) in Hx.
    - by apply IHl. }
  rewrite Hnone. cbn. lia.
Qed.

(** C5 (amended).  Both exact-key merges, when they return, keep every
    left row and repeat it for every further right row of its identifier:
    the output has one row for each left row whose identifier occurs at
    most once in the right table and [k] rows for each left row whose
    identifier occurs [k > 1] times there.  So it never has fewer rows
    than the left table, and it has exactly as many when no identifier
    occurs twice in the right table. *)
Theorem left_join_row_count :
  (forall strptime repr (idx det out : DataFrame),
     merge_bom strptime repr idx det = Ok out ->
     length (rows out) = joined_count "bom_release_id" det (rows idx)
     /\ (length (rows idx) <= length (rows out))%nat
     /\ (unique_keys "bom_release_id" det -> length (rows out) = length (rows idx)))
  /\ (forall bom rt out : DataFrame,
     merge_rt bom rt = Ok out ->
     length (rows out) = joined_count "bom_release_id" rt (rows bom)
     /\ (length (rows bom) <= length (rows out))%nat
     /\ (unique_keys "bom_release_id" rt -> length (rows out) = length (rows bom)))
  /\ (forall on right (ls : list row),
     joined_count on right [] = 0%nat
     /\ (forall l, joined_count on right (l :: ls)
                   = (Nat.max 1 (copies on right l) + joined_count on right ls)%nat)
     /\ (forall l, (copies on right l <= 1)%nat -> Nat.max 1 (copies on right l) = 1%nat)
     /\ (forall l, (1 < copies on right l)%nat ->
                   Nat.max 1 (copies on right l) = copies on right l)).
Proof.
  split; [|split].
  - intros strptime repr idx det out H. split; [by eapply merge_bom_count|].
    by eapply merge_bom_rows.
  - intros bom rt out H. split; [by apply merge_rt_count|]. by apply merge_rt_rows.
  - intros on right ls. split; [reflexivity|]. split; [reflexivity|].
    split; intros l Hl; lia.
Qed.

(** [left_join_row_count] on the example tables: three films before and
    after each merge, and four after the merge with a review table in
    which the identifier of the first occurs twice. *)
Lemma left_join_row_count_witness :
  length (rows ex_bom) = length (rows ex_index)
  /\ length (rows ex_bom_rt) = length (rows ex_bom)
  /\ length (rows ex_bom_rt_dup) = joined_count "bom_release_id" ex_rt_dup (rows ex_bom).
Proof.
  split; [|split].
  - apply (proj1 left_join_row_count ex_strptime ex_repr ex_index ex_details ex_bom).
    + exact (@eq_refl _ (Ok ex_bom)
               <: merge_bom ex_strptime ex_repr ex_index ex_details = Ok ex_bom).
    + apply keys_distinct_unique. vm_compute. reflexivity.
  - apply (proj1 (proj2 left_join_row_count) ex_bom ex_rt ex_bom_rt).
    + exact (@eq_refl _ (Ok ex_bom_rt) <: merge_rt ex_bom ex_rt = Ok ex_bom_rt).
    + apply keys_distinct_unique. vm_compute. reflexivity.
  - apply (proj1 (proj2 left_join_row_count) ex_bom ex_rt_dup ex_bom_rt_dup).
    exact (@eq_refl _ (Ok ex_bom_rt_dup) <: merge_rt ex_bom ex_rt_dup = Ok ex_bom_rt_dup).
Defined.

(** C5 as stated fails: with a review table in which one identifier
    occurs twice, the merge of three films has four rows. *)
Lemma left_join_duplicates_rows :
  merge_rt ex_bom ex_rt_dup = Ok ex_bom_rt_dup
  /\ length (rows ex_bom) = 3%nat
  /\ length (rows ex_bom_rt_dup) = 4%nat.
Proof. repeat split; vm_compute; reflexivity. Qed.

(** [detail_preferred] on the example tables. *)
Lemma detail_preferred_witness : Forall (bom_row ex_index ex_details) (rows ex_bom).
Proof.
  apply (detail_preferred ex_strptime ex_repr ex_index ex_details ex_bom).
  exact (@eq_refl _ (Ok ex_bom)
           <: merge_bom ex_strptime ex_repr ex_index ex_details = Ok ex_bom).
Defined.

(** ** The frame of [fuzzy_match_budgets] *)

Lemma assign_keeps c vals df :
  length vals = length (rows df) ->
  Forall2 (keeps [c]) (rows df) (rows (assign c vals df)).
Proof.
  intros H. destruct (assign_rows c vals df H) as [H1 _].
  eapply Forall2_impl; [exact H1|].
  intros r r' (v & ->) c' Hc'. rewrite lookup_insert_ne; [done|].
  intros ->. apply Hc'. by left.
Qed.

Lemma keeps_trans s1 s2 (l k m : list row) :
  Forall2 (keeps s1) l k -> Forall2 (keeps s2) k m ->
  Forall2 (keeps (s1 ++ s2)%list) l m.
Proof.
  intros H1 H2. eapply Forall2_trans; [|exact H1|exact H2].
  intros x y z Hxy Hyz c Hc. rewrite Hyz, Hxy; [done| |].
  - intros ?. apply Hc, in_or_app. by left.
  - intros ?. apply Hc, in_or_app. by right.
Qed.

Lemma columns_assign c vals df : columns (assign c vals df) = add_column (columns df) c.
Proof. reflexivity. Qed.

Lemma add_column_fresh names cols :
  NoDup names -> (forall c, In c names -> ~ In c cols) ->
  fold_left add_column names cols = (cols ++ names)%list.
Proof.
  revert cols. induction names as [|c names IH]; intros cols Hnd Hfresh; cbn [fold_left].
  { by rewrite app_nil_r. }
  apply NoDup_cons in Hnd as [Hc Hnd].
  assert (E : add_column cols c = (cols ++ [c])%list).
  { unfold add_column. destruct (existsb (String.eqb c) cols) eqn:E; [|done].
    apply existsb_exists in E as (x & Hx & Ex). apply String.eqb_eq in Ex. subst x.
    exfalso. apply (Hfresh c); [by left|done]. }
  rewrite E, IH; [by rewrite <- app_assoc|done|].
  intros c' Hc' Hin. apply in_app_or in Hin as [Hin|[<-|[]]].
  - apply (Hfresh c'); [by right|done].
  - apply Hc. by apply list_elem_of_In.
Qed.

(** C10 (amended).  When [fuzzy_match_budgets] returns, the output has
    the rows of the input in the same order, unchanged outside the seven
    columns it assigns: the helper columns [title_norm] and [release_year]
    and the five budget-match columns.  Its columns are those of the input
    with each of the seven added at the end unless already there; on an
    input that has none of them, the input columns followed by the seven. *)
Theorem fuzzy_match_budgets_frame cfg tsr (bom_df tn_df out : DataFrame) :
  fuzzy_match_budgets cfg tsr bom_df tn_df = Ok out ->
  Forall2 (keeps added_columns) (rows bom_df) (rows out)
  /\ columns out = fold_left add_column added_columns (columns bom_df)
  /\ ((forall c, In c added_columns -> ~ In c (columns bom_df)) ->
      columns out = (columns bom_df ++ added_columns)%list).
Proof.
  unfold fuzzy_match_budgets. intros H.
  apply bind_Ok in H as (titles & Ht & H).
  apply bind_Ok in H as (norms & Hn & H).
  apply bind_Ok in H as (dates & Hd & H).
  apply bind_Ok in H as (years & Hy & H).
  apply bind_Ok in H as (tn1 & _ & H).
  apply bind_Ok in H as (tn2 & _ & H).
  apply bind_Ok in H as (ms & Hms & H).
  destruct ms as [|m ms]; [discriminate|]. apply Ok_inj in H.
  apply column_length in Ht, Hd. apply mapM_length in Hn, Hy, Hms.
  set (b1 := assign "title_norm" (CStr <$> norms) bom_df) in *.
  set (b2 := assign "release_year" (pd_series years) b1) in *.
  assert (L1 : length (rows b1) = length (rows bom_df)).
  { apply assign_length. rewrite length_fmap. lia. }
  assert (L2 : length (rows b2) = length (rows b1)).
  { apply assign_length. rewrite pd_series_length. lia. }
  assert (K1 : Forall2 (keeps ["title_norm"]) (rows bom_df) (rows b1)).
  { apply assign_keeps. rewrite length_fmap. lia. }
  assert (K2 : Forall2 (keeps ["release_year"]) (rows b1) (rows b2)).
  { apply assign_keeps. rewrite pd_series_length. lia. }
  set (b3 := assign "tn_title_matched" _ b2) in *.
  set (b4 := assign "tn_match_score" _ b3) in *.
  set (b5 := assign "production_budget" _ b4) in *.
  set (b6 := assign "tn_domestic_gross" _ b5) in *.
  assert (L3 : length (rows b3) = length (rows b2)).
  { apply assign_length. rewrite pd_series_length, length_fmap. lia. }
  assert (K3 : Forall2 (keeps ["tn_title_matched"]) (rows b2) (rows b3)).
  { apply assign_keeps. rewrite pd_series_length, length_fmap. lia. }
  assert (L4 : length (rows b4) = length (rows b3)).
  { apply assign_length. rewrite length_fmap. lia. }
  assert (K4 : Forall2 (keeps ["tn_match_score"]) (rows b3) (rows b4)).
  { apply assign_keeps. rewrite length_fmap. lia. }
  assert (L5 : length (rows b5) = length (rows b4)).
  { apply assign_length. rewrite pd_series_length, length_fmap. lia. }
  assert (K5 : Forall2 (keeps ["production_budget"]) (rows b4) (rows b5)).
  { apply assign_keeps. rewrite pd_series_length, length_fmap. lia. }
  assert (L6 : length (rows b6) = length (rows b5)).
  { apply assign_length. rewrite pd_series_length, length_fmap. lia. }
  assert (K6 : Forall2 (keeps ["tn_domestic_gross"]) (rows b5) (rows b6)).
  { apply assign_keeps. rewrite pd_series_length, length_fmap. lia. }
  assert (K7 : Forall2 (keeps ["tn_match_status"]) (rows b6) (rows out)).
  { rewrite <- H. apply assign_keeps. rewrite length_fmap. lia. }
  assert (Hcols : columns out = fold_left add_column added_columns (columns bom_df)).
  { rewrite <- H. reflexivity. }
  split; [|split; [exact Hcols|]].
  - exact (keeps_trans _ _ _ _ _ K1 (keeps_trans _ _ _ _ _ K2 (keeps_trans _ _ _ _ _ K3
      (keeps_trans _ _ _ _ _ K4 (keeps_trans _ _ _ _ _ K5 (keeps_trans _ _ _ _ _ K6 K7)))))).
  - intros Hfresh. rewrite Hcols. apply add_column_fresh; [|done].
    apply (bool_decide_unpack _). vm_compute. reflexivity.
Qed.

(** [fuzzy_match_budgets_frame] on the example tables. *)
Lemma fuzzy_match_budgets_frame_witness :
  Forall2 (keeps added_columns) (rows ex_bom_rt) (rows ex_full)
  /\ columns ex_full = (columns ex_bom_rt ++ added_columns)%list.
Proof.
  destruct (fuzzy_match_budgets_frame config_py ex_ratio ex_bom_rt ex_tn ex_full)
    as (H1 & _ & H3).
  - exact (@eq_refl _ (Ok ex_full)
             <: fuzzy_match_budgets config_py ex_ratio ex_bom_rt ex_tn = Ok ex_full).
  - split; [exact H1|]. apply H3.
    intros c Hc. unfold added_columns, match_columns in Hc. cbn [app In] in Hc.
    repeat (destruct Hc as [<-|Hc]; [vm_compute; intuition discriminate|]).
    destruct Hc.
Defined.

(** C10 as stated fails: the stage adds seven columns, not only the five
    budget-match columns. *)
Lemma fuzzy_match_budgets_adds_helpers :
  fuzzy_match_budgets config_py ex_ratio ex_bom_rt ex_tn = Ok ex_full
  /\ columns ex_full <> (columns ex_bom_rt ++ match_columns)%list
  /\ In "title_norm" (columns ex_full)
  /\ In "release_year" (columns ex_full).
Proof.
  split.
  { exact (@eq_refl _ (Ok ex_full)
             <: fuzzy_match_budgets config_py ex_ratio ex_bom_rt ex_tn = Ok ex_full). }
  split; [vm_compute; discriminate|].
  split; vm_compute; tauto.
Qed.

(** ** Missing inputs *)




(** A merged box-office table has exactly the columns of [keep_cols]. *)
Lemma merge_bom_columns strptime repr idx det bom :
  merge_bom strptime repr idx det = Ok bom -> columns bom = keep_cols.
Proof.
  unfold merge_bom. intros H.
  apply bind_Ok in H as (left & Hl & H). apply select_Ok in Hl as [-> _].
  apply bind_Ok in H as (right & Hr & H). apply select_Ok in Hr as [-> _].
  apply bind_Ok in H as (b & Hm & H).
  apply bind_Ok in H as (title & _ & H).
  apply bind_Ok in H as (dg & _ & H). apply bind_Ok in H as (tg & _ & H).
  apply bind_Ok in H as (dd & _ & H). apply bind_Ok in H as (di & _ & H).
  apply bind_Ok in H as (parsed & _ & H).
  rewrite select_present_Ok in H. apply Ok_inj in H. subst bom.
  apply pd_merge_left_Ok in Hm as (_ & _ & _ & ->). vm_compute. reflexivity.
Qed.


Lemma has_column_assign c vals df c' :
  has_column (assign c vals df) c' = has_column df c' || String.eqb c' c.
Proof.
  unfold has_column at 1. unfold assign. cbn [columns].
  destruct (has_column df c) eqn:E.
  - fold (has_column df c'). destruct (String.eqb_spec c' c) as [->|]; [|by rewrite orb_false_r].
    by rewrite E.
  - rewrite existsb_app. cbn [existsb]. by rewrite orb_false_r.
Qed.






(** * Further properties *)

(** ** [normalize_title] *)

(** X1.  A normalized title is tidy: every character is its own lower
    case and is a word character or a blank, blanks are single and never
    at either end. *)
Theorem normalize_title_shape (s : string) : tidy (normalize_title s).
Proof. apply normalize_title_tidy. Qed.

(** X2.  The steps before the article loop (lower case, parentheses,
    ampersand, punctuation, white space) are idempotent. *)
Theorem canonical_idempotent (s : string) : canonical (canonical s) = canonical s.
Proof. apply tidy_canonical, canonical_tidy. Qed.

(** ** [parse_money] *)

Lemma lower_char_preimage c x :
  In x ["i"; "n"; "f"; "t"; "y"]%char -> PyStr.lower_char c = x ->
  c = x \/ c = ascii_of_N (PyStr.code x - 32).
Proof.
  intros Hx. cbn [In] in Hx.
  repeat (destruct Hx as [<-|Hx]; [each_char c|]). done.
Qed.

Lemma lower_spellings (t w : string) :
  all_chars (fun x => existsb (Ascii.eqb x) ["i"; "n"; "f"; "t"; "y"]%char) w = true ->
  PyStr.lower t = w -> In t (spellings w).
Proof.
  revert t. induction w as [|x w IH]; intros [|c t]; cbn [PyStr.lower all_chars spellings];
    try discriminate; [by left|].
  rewrite andb_true_iff. intros [Hx Hw] [= Hc Ht].
  apply list_elem_of_In, list_elem_of_bind. exists t. split; [|by apply list_elem_of_In, IH].
  apply list_elem_of_In. cbn [In].
  destruct (lower_char_preimage c x) as [->| ->]; [|done|tauto|tauto].
  apply existsb_exists in Hx as (y & Hy & E). apply Ascii.eqb_eq in E. by subst.
Qed.

(** X3.  Text that spells "inf" or "infinity" in any mix of cases is not
    turned into [None]: [float] accepts it, [int] raises [OverflowError],
    and [parse_money] does not catch that. *)
Theorem parse_money_infinity (t : string) :
  PyStr.lower t = "inf" \/ PyStr.lower t = "infinity" ->
  parse_money (CStr t) = Raise OverflowError.
Proof.
  assert (Hall : forallb (fun t => overflows (parse_money (CStr t)))
                   (spellings "inf" ++ spellings "infinity") = true)
    by (vm_compute; reflexivity).
  rewrite forallb_forall in Hall.
  intros H. assert (Hin : In t (spellings "inf" ++ spellings "infinity")).
  { apply in_or_app. destruct H as [H|H]; [left|right];
      apply lower_spellings in H; done. }
  apply Hall in Hin. unfold overflows in Hin.
  destruct (parse_money (CStr t)) as [|[]]; done.
Qed.

(** [parse_money_infinity] at "Inf". *)
Lemma parse_money_infinity_witness : parse_money (CStr "Inf") = Raise OverflowError.
Proof. apply parse_money_infinity. left. reflexivity. Defined.

(** ** [construct_rdd_variables] *)

(** X4.  For a score that is there, the centered running variable is the
    score minus the cutoff, rounded to binary64, and the treatment
    indicator is 1 from the cutoff on and 0 below; the centered variable
    of a null score is null. *)
Theorem running_variables cfg np_log (df out : DataFrame) :
  construct_rdd_variables cfg np_log df = Ok out ->
  Forall2 (fun r r' =>
     score_row cfg "tomatometer" "tomatometer_centered" "is_fresh_critic" r r'
     /\ score_row cfg "audience_score" "audience_score_centered" "is_fresh_audience" r r')
    (rows df) (rows out).
Proof.
  intros H. apply construct_rdd_variables_rows in H.
  eapply Forall2_impl; [exact H|]. clear.
  intros r r' (Hc1 & Hc2 & Hf1 & Hf2 & _).
  assert (Hgen : forall x c f, centered cfg x = Ok c -> is_fresh cfg x = Ok f ->
    (forall q, x = CNum q ->
       c = float_cell (Float64.round64 (q - RD_THRESHOLD cfg))
       /\ ((RD_THRESHOLD cfg <= q)%Q -> f = CNum 1)
       /\ ((q < RD_THRESHOLD cfg)%Q -> f = CNum 0))
    /\ (isna x = true -> c = CNaN)).
  { intros x c f. unfold centered, is_fresh, ge_cell.
    destruct x as [| |q|s|d|b]; try discriminate;
      cbn [as_number mbind result_bind isna]; intros Ec Ef;
      apply Ok_inj in Ec, Ef; subst c f.
    - split; [intros; discriminate|done].
    - split; [intros; discriminate|done].
    - split; [|discriminate]. intros ? [= <-]. split; [done|]. split.
      + intros Hq. apply Qle_bool_iff in Hq. by rewrite Hq.
      + intros Hq. destruct (Qle_bool (RD_THRESHOLD cfg) q) eqn:E; [|done].
        apply Qle_bool_iff in E. by apply Qlt_not_le in Hq.
    - split; [intros; discriminate|discriminate]. }
  split; unfold score_row; eauto.
Qed.

(** [running_variables] on the example table. *)
Lemma running_variables_witness :
  Forall2 (fun r r' =>
     score_row config_py "tomatometer" "tomatometer_centered" "is_fresh_critic" r r'
     /\ score_row config_py "audience_score" "audience_score_centered"
          "is_fresh_audience" r r')
    (rows ex_filtered) (rows ex_final).
Proof.
  apply (running_variables config_py ex_log ex_filtered ex_final).
  exact (@eq_refl _ (Ok ex_final)
           <: construct_rdd_variables config_py ex_log ex_filtered = Ok ex_final).
Defined.

(** ** [apply_study_filters] *)

(** The two masks of the study filters. *)
Lemma in_window_Ok cfg (r : row) b :
  in_window cfg (cell_at r "release_date_parsed") = Ok b ->
  b = match cell_at r "release_date_parsed" with
      | CDate d => date_leb (START_DATE cfg) d && date_leb d (END_DATE cfg)
      | _ => false
      end.
Proof. unfold in_window. destruct (cell_at r _); intros [=]; done. Qed.

Lemma ge_cell_Ok k c b :
  ge_cell k c = Ok b ->
  b = match as_number c with
      | Ok (Some q) => Qle_bool k q
      | _ => false
      end.
Proof. unfold ge_cell. destruct (as_number c) as [[q|]|]; intros [=]; done. Qed.

Lemma keep_applied_rows mask df : rows df <> [] -> keep_applied mask df = keep mask df.
Proof. unfold keep_applied. by destruct (rows df). Qed.

(** X5.  On a table with at least one row, the study filters keep the
    columns and keep, in their order, exactly the rows whose release date
    lies in the study window (both ends included) and whose opening
    theater count is a number that reaches the minimum. *)
Theorem apply_study_filters_rows cfg (df out : DataFrame) :
  rows df <> [] ->
  apply_study_filters cfg df = Ok out ->
  columns out = columns df
  /\ rows out = List.filter (in_study cfg) (rows df).
Proof.
  intros Hrows H. unfold apply_study_filters in H.
  apply bind_Ok in H as (dates & Hd & H). apply column_Ok in Hd as [_ ->].
  apply bind_Ok in H as (m1 & Hm1 & H).
  apply (mapM_fmap_Ok _ _ _ _ _ (in_window_Ok cfg)) in Hm1. subst m1.
  rewrite keep_applied_rows in H by done.
  apply bind_Ok in H as (th & Ht & H). apply column_Ok in Ht as [_ ->].
  apply bind_Ok in H as (m2 & Hm2 & H).
  apply (mapM_fmap_Ok _ (fun r : row => cell_at r "opening_wknd_theaters") _ _ _
           (fun r => ge_cell_Ok _ (cell_at r "opening_wknd_theaters"))) in Hm2.
  subst m2. apply Ok_inj in H. subst out. unfold keep. cbn [columns rows].
  split; [done|].
  rewrite !keep_filter, filter_filter. reflexivity.
Qed.

Lemma apply_study_filters_rows_witness :
  columns ex_kept = columns ex_unfiltered
  /\ rows ex_kept = List.filter (in_study config_py) (rows ex_unfiltered).
Proof.
  apply (apply_study_filters_rows config_py ex_unfiltered ex_kept).
  - discriminate.
  - exact (@eq_refl _ (Ok ex_kept) <: apply_study_filters config_py ex_unfiltered = Ok ex_kept).
Defined.

(** X6.  The study filters are idempotent: a table they returned, if it
    has a row left, passes them unchanged. *)
Theorem apply_study_filters_idempotent cfg (df out : DataFrame) :
  rows df <> [] -> rows out <> [] ->
  apply_study_filters cfg df = Ok out ->
  apply_study_filters cfg out = Ok out.
Proof.
  intros Hrows Hout H. unfold apply_study_filters in H.
  apply bind_Ok in H as (dates & Hd & H). apply column_Ok in Hd as [Hcd ->].
  apply bind_Ok in H as (m1 & Hm1 & H).
  pose proof (mapM_fmap_Ok _ _ _ _ _ (in_window_Ok cfg) Hm1) as E1. subst m1.
  rewrite keep_applied_rows in H by done.
  apply bind_Ok in H as (th & Ht & H). apply column_Ok in Ht as [Hct ->].
  apply bind_Ok in H as (m2 & Hm2 & H).
  pose proof (mapM_fmap_Ok _ (fun r : row => cell_at r "opening_wknd_theaters") _ _ _
           (fun r => ge_cell_Ok _ (cell_at r "opening_wknd_theaters")) Hm2) as E2.
  subst m2. apply Ok_inj in H.
  unfold keep in *. cbn [columns rows] in *. rewrite !keep_filter in *.
  set (h1 := fun r : row => match cell_at r "release_date_parsed" with
      | CDate d => date_leb (START_DATE cfg) d && date_leb d (END_DATE cfg)
      | _ => false end) in *.
  set (h2 := fun r : row => match as_number (cell_at r "opening_wknd_theaters") with
      | Ok (Some q) => Qle_bool (MIN_OPENING_THEATERS cfg) q
      | _ => false end) in *.
  apply mapM_Ok, Forall2_fmap_l, Forall2_fmap_r in Hm1, Hm2.
  assert (F1 : Forall (fun r => in_window cfg (cell_at r "release_date_parsed") = Ok (h1 r))
                 (rows df)).
  { clear -Hm1. induction (rows df) as [|x l IH]; [constructor|].
    apply Forall2_cons in Hm1 as [Hx Hl]. constructor; [done|by apply IH]. }
  assert (F2 : Forall (fun r => ge_cell (MIN_OPENING_THEATERS cfg)
                                  (cell_at r "opening_wknd_theaters") = Ok (h2 r))
                 (List.filter h1 (rows df))).
  { clear -Hm2. induction (List.filter h1 (rows df)) as [|x l IH]; [constructor|].
    apply Forall2_cons in Hm2 as [Hx Hl]. constructor; [done|by apply IH]. }
  subst out. unfold apply_study_filters, column, has_column. cbn [columns rows].
  fold (has_column df "release_date_parsed"). rewrite Hcd. cbn [mbind result_bind].
  rewrite (mapM_fmap _ _ h1).
  2:{ apply Forall_forall. intros r Hr. apply list_elem_of_In in Hr.
      apply filter_In in Hr as [Hr _]. apply filter_In in Hr as [Hr _].
      apply list_elem_of_In in Hr. by apply (proj1 (Forall_forall _ _) F1). }
  cbn [mbind result_bind]. rewrite keep_applied_rows by done.
  unfold keep. cbn [columns rows].
  unfold has_column in Hct. cbn [columns] in Hct. rewrite Hct.
  cbn [mbind result_bind]. rewrite !keep_filter.
  rewrite (mapM_fmap _ _ h2).
  2:{ apply Forall_forall. intros r Hr. apply list_elem_of_In in Hr.
      apply filter_In in Hr as [Hr _]. apply filter_In in Hr as [Hr _].
      apply list_elem_of_In in Hr. by apply (proj1 (Forall_forall _ _) F2). }
  cbn [mbind result_bind]. rewrite keep_filter.
  do 2 f_equal.
  rewrite !filter_filter. apply filter_ext. intros x.
  by destruct (h1 x), (h2 x).
Qed.

Lemma apply_study_filters_idempotent_witness :
  apply_study_filters config_py ex_kept = Ok ex_kept.
Proof.
  apply (apply_study_filters_idempotent config_py ex_unfiltered ex_kept).
  - discriminate.
  - discriminate.
  - exact (@eq_refl _ (Ok ex_kept) <: apply_study_filters config_py ex_unfiltered = Ok ex_kept).
Defined.

(** ** The frame of [construct_rdd_variables] *)

Lemma derive_columns n s f df out :
  derive n s f df = Ok out -> columns out = add_column (columns df) n.
Proof.
  unfold derive. intros H.
  apply bind_Ok in H as (vals & _ & H). apply bind_Ok in H as (o & _ & H).
  apply Ok_inj in H. by subst out.
Qed.

Lemma derive_apply_columns n s f df out :
  derive_apply n s f df = Ok out -> columns out = add_column (columns df) n.
Proof.
  unfold derive_apply. intros H.
  apply bind_Ok in H as (vals & _ & H). apply bind_Ok in H as (o & _ & H).
  apply Ok_inj in H. by subst out.
Qed.

Lemma sets_keeps n P (l l' : list row) :
  Forall2 (sets n P) l l' -> Forall2 (keeps [n]) l l'.
Proof.
  intros H. eapply Forall2_impl; [exact H|].
  intros r r' [_ Hk] c Hc. apply Hk. intros ->. apply Hc. by left.
Qed.

(** X7.  [construct_rdd_variables] neither drops nor reorders rows, changes
    no column but the eleven it assigns, and puts each of these where
    an assignment puts it: in place when the table has a column of that
    name, else after the last column. *)
Theorem construct_rdd_variables_frame cfg np_log (df out : DataFrame) :
  construct_rdd_variables cfg np_log df = Ok out ->
  columns out = fold_left add_column rdd_columns (columns df)
  /\ Forall2 (keeps rdd_columns) (rows df) (rows out).
Proof.
  unfold construct_rdd_variables. intros H.
  apply bind_Ok in H as (d1 & H1 & H).
  apply bind_Ok in H as (d2 & H2 & H).
  apply bind_Ok in H as (d3 & H3 & H).
  apply bind_Ok in H as (d4 & H4 & H).
  apply bind_Ok in H as (d5 & H5 & H).
  apply bind_Ok in H as (d6 & H6 & H).
  apply bind_Ok in H as (d7 & H7 & H).
  apply bind_Ok in H as (d8 & H8 & H).
  apply bind_Ok in H as (d9 & H9 & H).
  apply bind_Ok in H as (d10 & H10 & H).
  split.
  - unfold rdd_columns. cbn [fold_left].
    rewrite (derive_apply_columns _ _ _ _ _ H), (derive_apply_columns _ _ _ _ _ H10),
      (derive_apply_columns _ _ _ _ _ H9), (derive_columns _ _ _ _ _ H8),
      (derive_columns _ _ _ _ _ H7), (derive_columns _ _ _ _ _ H6),
      (derive_columns _ _ _ _ _ H5), (derive_columns _ _ _ _ _ H4),
      (derive_columns _ _ _ _ _ H3), (derive_columns _ _ _ _ _ H2),
      (derive_columns _ _ _ _ _ H1).
    reflexivity.
  - apply derive_Ok, sets_keeps in H1, H2, H3, H4, H5, H6, H7, H8.
    apply derive_apply_Ok, sets_keeps in H9, H10, H.
    pose proof (keeps_trans _ _ _ _ _ H1 H2) as K.
    pose proof (keeps_trans _ _ _ _ _ K H3) as K3.
    pose proof (keeps_trans _ _ _ _ _ K3 H4) as K4.
    pose proof (keeps_trans _ _ _ _ _ K4 H5) as K5.
    pose proof (keeps_trans _ _ _ _ _ K5 H6) as K6.
    pose proof (keeps_trans _ _ _ _ _ K6 H7) as K7.
    pose proof (keeps_trans _ _ _ _ _ K7 H8) as K8.
    pose proof (keeps_trans _ _ _ _ _ K8 H9) as K9.
    pose proof (keeps_trans _ _ _ _ _ K9 H10) as K10.
    exact (keeps_trans _ _ _ _ _ K10 H).
Qed.

Lemma construct_rdd_variables_frame_witness :
  columns ex_final = fold_left add_column rdd_columns (columns ex_filtered)
  /\ Forall2 (keeps rdd_columns) (rows ex_filtered) (rows ex_final).
Proof.
  apply (construct_rdd_variables_frame config_py ex_log ex_filtered ex_final).
  exact (@eq_refl _ (Ok ex_final) <: construct_rdd_variables config_py ex_log ex_filtered = Ok ex_final).
Defined.

(** ** When [construct_rdd_variables] returns *)

Lemma agree_refl names df : agree names df df.
Proof.
  split; [done|]. apply Forall2_same_length_lookup. split; [done|].
  intros i r r' Hr Hr'. rewrite Hr in Hr'. by injection Hr' as <-.
Qed.

Lemma agree_assign names df d n vals :
  agree names df d -> ~ In n names -> length vals = length (rows d) ->
  agree names df (assign n vals d).
Proof.
  intros [Hc Hr] Hn Hlen. split.
  - intros c Hin. rewrite has_column_assign, Hc by done.
    destruct (String.eqb_spec c n) as [->|]; [done|apply orb_false_r].
  - pose proof (assign_keeps n vals d Hlen) as Hk.
    eapply Forall2_trans; [|exact Hr|exact Hk].
    intros x y z Hxy Hyz c Hin. rewrite <- (Hxy c Hin). unfold cell_at.
    rewrite Hyz; [done|]. intros [->|[]]. done.
Qed.

Lemma agree_total names df d s (f : cell -> result cell) :
  agree names df d -> In s names ->
  Forall (fun r => exists v, f (cell_at r s) = Ok v) (rows df) ->
  exists out, mapM f ((fun r => cell_at r s) <$> rows d) = Ok out
              /\ length out = length (rows d).
Proof.
  intros [_ Hr] Hs Hf.
  destruct (mapM_total f ((fun r => cell_at r s) <$> rows d)) as [out Ho].
  - apply Forall_fmap. apply Forall_forall. intros r' Hr'.
    apply list_elem_of_lookup in Hr' as [i Hi].
    destruct (Forall2_lookup_r _ _ _ _ _ Hr Hi) as (r & Hri & Hcell).
    cbn. rewrite (Hcell s Hs).
    apply (proj1 (Forall_forall _ _) Hf). by eapply list_elem_of_lookup_2.
  - exists out. split; [done|].
    apply mapM_Ok, Forall2_length in Ho. by rewrite length_fmap in Ho.
Qed.

Lemma derive_next names df d n s f :
  agree names df d -> In s names -> ~ In n names ->
  has_column df s = true ->
  Forall (fun r => exists v, f (cell_at r s) = Ok v) (rows df) ->
  exists out, derive n s f d = Ok out /\ agree names df out.
Proof.
  intros A Hs Hn Hc Hf.
  destruct (agree_total _ _ _ _ f A Hs Hf) as (out & Ho & Hlen).
  exists (assign n out d). split.
  - unfold derive, column. rewrite (proj1 A s Hs), Hc. cbn [mbind result_bind].
    rewrite Ho. reflexivity.
  - by apply agree_assign.
Qed.

Lemma derive_apply_next names df d n s f :
  agree names df d -> In s names -> ~ In n names ->
  has_column df s = true ->
  Forall (fun r => exists v, f (cell_at r s) = Ok v) (rows df) ->
  exists out, derive_apply n s f d = Ok out /\ agree names df out.
Proof.
  intros A Hs Hn Hc Hf.
  destruct (agree_total _ _ _ _ f A Hs Hf) as (out & Ho & Hlen).
  exists (assign n (pd_series out) d). split.
  - unfold derive_apply, column. rewrite (proj1 A s Hs), Hc. cbn [mbind result_bind].
    rewrite Ho. reflexivity.
  - apply agree_assign; [done|done|]. by rewrite pd_series_length.
Qed.

Lemma derive_lacks names df d n s f :
  agree names df d -> In s names -> has_column df s = false ->
  derive n s f d = Raise (KeyError [s]).
Proof.
  intros A Hs Hc. unfold derive, column. by rewrite (proj1 A s Hs), Hc.
Qed.

Lemma derive_apply_lacks names df d n s f :
  agree names df d -> In s names -> has_column df s = false ->
  derive_apply n s f d = Raise (KeyError [s]).
Proof.
  intros A Hs Hc. unfold derive_apply, column. by rewrite (proj1 A s Hs), Hc.
Qed.

Lemma rdd_numeric_cells r :
  rdd_numeric r = true ->
  numeric_cell (cell_at r "tomatometer") = true
  /\ numeric_cell (cell_at r "audience_score") = true
  /\ numeric_cell (cell_at r "opening_wknd_gross") = true
  /\ numeric_cell (cell_at r "domestic_gross") = true
  /\ numeric_cell (cell_at r "opening_wknd_theaters") = true
  /\ numeric_cell (cell_at r "production_budget") = true.
Proof.
  assert (H : forall c, is_numeric_or_null c = true -> numeric_cell c = true)
    by (by intros []).
  unfold rdd_numeric. cbn [forallb]. rewrite !andb_true_iff.
  intros (? & ? & ? & ? & ? & ? & _). repeat split; by apply H.
Qed.

Lemma centered_total cfg c : numeric_cell c = true -> exists v, centered cfg c = Ok v.
Proof. destruct c; try discriminate; intros _; by eexists. Qed.

Lemma is_fresh_total cfg c : numeric_cell c = true -> exists v, is_fresh cfg c = Ok v.
Proof. destruct c; try discriminate; intros _; by eexists. Qed.

Lemma log_floored_total np_log c :
  numeric_cell c = true -> exists v, log_floored np_log c = Ok v.
Proof. destruct c; try discriminate; intros _; by eexists. Qed.

Lemma log_budget_total np_log c :
  numeric_cell c = true -> exists v, log_budget np_log c = Ok v.
Proof. destruct c; try discriminate; intros _; by eexists. Qed.




Ltac in_names := unfold rdd_sources; cbn [In]; repeat ((left; reflexivity) || right).

Ltac not_in_names :=
  let H := fresh in
  unfold rdd_sources; cbn [In]; intros H;
  repeat (destruct H as [H|H]; [discriminate H|]); exact H.

Ltac numeric_cells Hnum :=
  let r := fresh "r" in let Hr := fresh "Hr" in
  eapply Forall_impl; [exact Hnum|]; intros r Hr; cbn beta in Hr;
  apply rdd_numeric_cells in Hr; destruct Hr as (? & ? & ? & ? & ? & ?);
  eauto using centered_total, is_fresh_total, log_floored_total, log_budget_total.


Ltac next A tac :=
  match goal with
  | |- context [derive ?n ?s ?f ?d] =>
      let out := fresh "d" in let E := fresh "E" in let A' := fresh "A" in
      destruct (derive_next rdd_sources _ d n s f A) as (out & E & A');
      [ in_names | not_in_names | assumption | tac
      | rewrite E; cbn [mbind result_bind]; clear E ]
  | |- context [derive_apply ?n ?s ?f ?d] =>
      let out := fresh "d" in let E := fresh "E" in let A' := fresh "A" in
      destruct (derive_apply_next rdd_sources _ d n s f A) as (out & E & A');
      [ in_names | not_in_names | assumption | tac
      | rewrite E; cbn [mbind result_bind]; clear E ]
  end.




(** X9.  When a column [construct_rdd_variables] reads is missing, the
    call stops with a [KeyError] that names the first missing one, in the
    order tomatometer, audience score, opening gross, domestic gross,
    opening theaters, budget, release date. *)
Theorem construct_rdd_variables_missing cfg np_log (df : DataFrame) (c : string) :
  Forall (fun r => rdd_numeric r = true) (rows df) ->
  find (fun c => negb (has_column df c)) rdd_sources = Some c ->
  construct_rdd_variables cfg np_log df = Raise (KeyError [c]).
Proof.
  intros Hnum Hfind.
  pose proof (agree_refl rdd_sources df) as A0.
  unfold rdd_sources in Hfind. cbn [find] in Hfind.
  unfold construct_rdd_variables.
  destruct (has_column df "tomatometer") eqn:C1; cbn [negb] in Hfind.
  2:{ apply Some_inj in Hfind. subst c.
      rewrite (derive_lacks rdd_sources df df) by (done || in_names). reflexivity. }
  next A0 ltac:(numeric_cells Hnum).
  destruct (has_column df "audience_score") eqn:C2; cbn [negb] in Hfind.
  2:{ apply Some_inj in Hfind. subst c.
      rewrite (derive_lacks rdd_sources df) by (done || in_names). reflexivity. }
  next A ltac:(numeric_cells Hnum).
  next A1 ltac:(numeric_cells Hnum).
  next A2 ltac:(numeric_cells Hnum).
  destruct (has_column df "opening_wknd_gross") eqn:C3; cbn [negb] in Hfind.
  2:{ apply Some_inj in Hfind. subst c.
      rewrite (derive_lacks rdd_sources df) by (done || in_names). reflexivity. }
  next A3 ltac:(numeric_cells Hnum).
  destruct (has_column df "domestic_gross") eqn:C4; cbn [negb] in Hfind.
  2:{ apply Some_inj in Hfind. subst c.
      rewrite (derive_lacks rdd_sources df) by (done || in_names). reflexivity. }
  next A4 ltac:(numeric_cells Hnum).
  destruct (has_column df "opening_wknd_theaters") eqn:C5; cbn [negb] in Hfind.
  2:{ apply Some_inj in Hfind. subst c.
      rewrite (derive_lacks rdd_sources df) by (done || in_names). reflexivity. }
  next A5 ltac:(numeric_cells Hnum).
  destruct (has_column df "production_budget") eqn:C6; cbn [negb] in Hfind.
  2:{ apply Some_inj in Hfind. subst c.
      rewrite (derive_lacks rdd_sources df) by (done || in_names). reflexivity. }
  next A6 ltac:(numeric_cells Hnum).
  destruct (has_column df "release_date_parsed") eqn:C7; cbn [negb] in Hfind.
  2:{ apply Some_inj in Hfind. subst c.
      rewrite (derive_apply_lacks rdd_sources df) by (done || in_names). reflexivity. }
  discriminate.
Qed.

Lemma construct_rdd_variables_missing_witness :
  construct_rdd_variables config_py ex_log ex_scores_only
  = Raise (KeyError ["opening_wknd_gross"]).
Proof.
  apply (construct_rdd_variables_missing config_py ex_log ex_scores_only).
  - repeat (constructor; [reflexivity|]). constructor.
  - reflexivity.
Defined.

(** * The matcher and the filters at their edges *)

(** X10.  With a scorer that stays within 0 and 100, [extractOne] reports
    nothing only when every choice is null, and else the first choice of
    greatest similarity: its text, its similarity and its position, no
    earlier choice being as similar and no choice more. *)
Theorem extractOne_first_best tsr (q : string) (choices : list cell) (st : scan) :
  percent tsr ->
  extractOne tsr q choices = Ok st ->
  best_of tsr q choices (best st).
Proof. apply extractOne_best_of. Qed.

Lemma extractOne_first_best_witness :
  best_of ex_ratio "batman begins" ex_choices (best ex_scan).
Proof.
  apply (extractOne_first_best ex_ratio "batman begins" ex_choices ex_scan).
  - exact percent_ex_ratio.
  - exact (@eq_refl _ (Ok ex_scan) <: extractOne ex_ratio "batman begins" ex_choices = Ok ex_scan).
Defined.

(** X11.  On a table without rows the study filters raise: the date mask
    is no mask of booleans, the selection by it leaves no column, and the
    theater filter finds none to read. *)
Theorem apply_study_filters_empty cfg (df : DataFrame) :
  rows df = [] -> has_column df "release_date_parsed" = true ->
  apply_study_filters cfg df = Raise (KeyError ["opening_wknd_theaters"]).
Proof.
  intros Hrows Hcol. unfold apply_study_filters, column, keep_applied.
  rewrite Hcol, Hrows. reflexivity.
Qed.

Lemma apply_study_filters_empty_witness :
  apply_study_filters config_py ex_no_rows = Raise (KeyError ["opening_wknd_theaters"]).
Proof. apply apply_study_filters_empty; reflexivity. Defined.

(** X12.  The entry of a film comes from one budget row: unless it is the
    unmatched entry, its title, budget and gross are those of a candidate
    whose normalized title has the similarity the entry carries, and the
    status is the class of that similarity. *)
Theorem match_row_same_row cfg tsr (bom_title : string) (bom_year : cell)
    (tn_df : DataFrame) (m : match_result) (log : list (string * string)) :
  percent tsr -> pool_ok tn_df = true -> numeric_cell bom_year = true ->
  match_row cfg tsr bom_title bom_year tn_df = Ok (m, log) ->
  m = no_match
  \/ exists (r : row) (c : string),
       In r (year_pool bom_year tn_df)
       /\ cell_at r "title_normalized" = CStr c
       /\ tn_match_score m = tsr bom_title c
       /\ tn_match_status m = classify cfg (tsr bom_title c)
       /\ tn_title_matched m = cell_at r "title"
       /\ production_budget m = row_get r "production_budget"
       /\ tn_domestic_gross m = row_get r "domestic_gross".
Proof.
  intros Hp Hok Hy H.
  assert (Hty : pool_typed tn_df = true).
  { unfold pool_ok in Hok. by apply andb_true_iff in Hok as [_ ?]. }
  pose proof (pool_ok_spec _ Hok) as (Htitle & _ & Hnorm & _).
  unfold match_row in H. rewrite (year_block_pool _ _ Hty Hy) in H.
  cbn [mbind result_bind] in H.
  set (cands := year_pool bom_year tn_df) in *.
  destruct (String.eqb bom_title ""); [left; congruence|].
  destruct (empty (columns tn_df) cands); [left; congruence|].
  unfold column, has_column in H. cbn [columns rows] in H.
  fold (has_column tn_df "title_normalized") in H. rewrite Hnorm in H.
  cbn [mbind result_bind] in H.
  destruct (extractOne tsr bom_title ((fun r => cell_at r "title_normalized") <$> cands))
    as [st|] eqn:Hst; [|discriminate].
  cbn [mbind result_bind] in H.
  pose proof (extractOne_best_of _ _ _ _ Hp Hst) as Hbest.
  destruct (best st) as [[[c s] k]|]; [|left; congruence].
  fold (has_column tn_df "title") in H. rewrite Htitle in H.
  apply Ok_inj in H. injection H as <- _.
  destruct Hbest as (Hk & -> & _).
  apply list_lookup_fmap_Some in Hk as (r & Hcell & Hr).
  right. exists r, c. rewrite Hr. cbn [default tn_match_score tn_match_status
    tn_title_matched production_budget tn_domestic_gross].
  split; [by eapply list_elem_of_In, list_elem_of_lookup_2|]. by repeat split.
Qed.

Lemma match_row_same_row_witness :
  fst ex_match = no_match
  \/ exists (r : row) (c : string),
       In r (year_pool (CNum 2005) ex_tn)
       /\ cell_at r "title_normalized" = CStr c
       /\ tn_match_score (fst ex_match) = ex_ratio "batman begins" c
       /\ tn_match_status (fst ex_match) = classify config_py (ex_ratio "batman begins" c)
       /\ tn_title_matched (fst ex_match) = cell_at r "title"
       /\ production_budget (fst ex_match) = row_get r "production_budget"
       /\ tn_domestic_gross (fst ex_match) = row_get r "domestic_gross".
Proof.
  apply (match_row_same_row config_py ex_ratio "batman begins" (CNum 2005) ex_tn
           (fst ex_match) (snd ex_match) percent_ex_ratio).
  - reflexivity.
  - reflexivity.
  - exact (@eq_refl _ (Ok ex_match)
             <: match_row config_py ex_ratio "batman begins" (CNum 2005) ex_tn
                = Ok (fst ex_match, snd ex_match)).
Defined.

Lemma assign_no_rows c vals df : rows df = [] -> rows (assign c vals df) = [].
Proof. intros H. unfold assign. cbn [rows]. by rewrite H. Qed.

(** X13.  The matching stage never returns an empty table: on a table
    without rows it raises the [KeyError] of [set_index("idx")], the list
    of match results having no column [idx]. *)
Theorem fuzzy_match_budgets_empty cfg tsr (bom_df tn_df : DataFrame) :
  (forall out, fuzzy_match_budgets cfg tsr bom_df tn_df = Ok out -> rows out <> [])
  /\ (rows bom_df = [] -> has_column bom_df "title" = true ->
      has_column bom_df "release_date_parsed" = true ->
      has_column tn_df "title_normalized" = true ->
      has_column tn_df "release_year" = true ->
      fuzzy_match_budgets cfg tsr bom_df tn_df = Raise (KeyError ["idx"])).
Proof.
  split.
  - intros out H Hout. unfold fuzzy_match_budgets in H.
    apply bind_Ok in H as (titles & Ht & H).
    apply bind_Ok in H as (norms & Hn & H).
    apply bind_Ok in H as (dates & Hd & H).
    apply bind_Ok in H as (years & Hyr & H).
    apply bind_Ok in H as (tn1 & _ & H).
    apply bind_Ok in H as (tn2 & _ & H).
    apply bind_Ok in H as (ms & Hms & H).
    destruct ms as [|m ms]; [discriminate|]. apply Ok_inj in H.
    apply column_length in Ht, Hd. apply mapM_length in Hn, Hyr, Hms.
    apply (f_equal (fun df => length (rows df))) in H. rewrite Hout in H.
    repeat (rewrite assign_length_min in * ).
    rewrite ?pd_series_length, ?length_fmap in *. cbn [length] in *. lia.
  - intros Hrows Ht Hd Hn Hy. unfold fuzzy_match_budgets, column.
    rewrite Ht, Hrows. cbn [fmap list_fmap mapM mbind result_bind mret result_ret].
    rewrite has_column_assign, Hd. cbn [orb mbind result_bind].
    rewrite (assign_no_rows _ _ _ Hrows).
    cbn [fmap list_fmap mapM mbind result_bind mret result_ret].
    rewrite Hn. cbn [mbind result_bind]. rewrite Hy. cbn [mbind result_bind].
    rewrite (assign_no_rows "release_year"); [reflexivity|].
    by apply assign_no_rows.
Qed.

Lemma fuzzy_match_budgets_empty_witness :
  fuzzy_match_budgets config_py ex_ratio ex_no_rows ex_tn = Raise (KeyError ["idx"]).
Proof.
  apply (proj2 (fuzzy_match_budgets_empty config_py ex_ratio ex_no_rows ex_tn));
    reflexivity.
Defined.

(** ** [parse_money] *)

(** X14.  [parse_money] raises nothing but [OverflowError]. *)
Theorem parse_money_raises_overflow_only (text : cell) (e : exn) :
  parse_money text = Raise e -> e = OverflowError.
Proof.
  assert (Hs : forall body factor, scaled body factor = Raise e -> e = OverflowError).
  { intros body factor. unfold scaled. destruct (PyNum.float body) as [x|]; [|discriminate].
    destruct (PyNum.int _) as [n|e'] eqn:E; [discriminate|].
    assert (e' = ValueError \/ e' = OverflowError) as [->| ->].
    { revert E. unfold PyNum.int.
      destruct (match factor with Some k => Float64.mul_int x k | None => x end);
        intros [=]; auto. }
    - discriminate.
    - by intros [= <-]. }
  unfold parse_money. destruct text as [| |q|t|d|b]; try discriminate.
  destruct (String.eqb t ""); [discriminate|].
  destruct (existsb _ placeholders); [discriminate|].
  destruct (upper_endswith "B" _); [apply Hs|].
  destruct (upper_endswith "M" _); [apply Hs|].
  destruct (upper_endswith "K" _); apply Hs.
Qed.

Lemma parse_money_raises_overflow_only_witness :
  exists e, parse_money (CStr "inf") = Raise e /\ e = OverflowError.
Proof.
  exists OverflowError. split; [reflexivity|].
  apply (parse_money_raises_overflow_only (CStr "inf")). reflexivity.
Defined.

(** ** [merge_bom] *)

(** X15.  A merged box-office table has exactly the twelve columns kept
    at the end of [merge_bom], in that order. *)
Theorem merge_bom_output_columns strptime repr (idx det bom : DataFrame) :
  merge_bom strptime repr idx det = Ok bom -> columns bom = keep_cols.
Proof. apply merge_bom_columns. Qed.

Lemma merge_bom_output_columns_witness : columns ex_bom = keep_cols.
Proof.
  apply (merge_bom_output_columns ex_strptime ex_repr ex_index ex_details ex_bom).
  exact (@eq_refl _ (Ok ex_bom)
           <: merge_bom ex_strptime ex_repr ex_index ex_details = Ok ex_bom).
Defined.

(** * Missing inputs *)




(** ** The columns of the budget table *)













